(** * ENM-Protein-Predictor: data_utils.py

    A shallow embedding of [data_utils.py] (the column mask applier, the
    class [data_base], the cleaning helpers and the report of
    [save_metrics]) and of the mask file [recursive_feature_elimination]
    of [predictor_utils.py] writes, and the properties of the
    data-preparation pipeline stated over them.

    The functions of the module are translated line by line.  pandas, numpy
    and scikit-learn are not part of the repository: the operations the
    module calls ([drop], [concat], [get_dummies], [iloc], [fillna],
    [MinMaxScaler], [KFold], ...) are modelled from their documented
    behaviour, as far as the module uses them, for pandas 1.x (where
    [drop(label, 1)] drops a column) and scikit-learn 1.1.

    Conventions.
    - A Python call either returns or raises: [result A] is [Ok a] or
      [Raise e]; what an object holds after a method raised is not
      described.  The constructor [OutsideModel] marks inputs on which
      pandas has a behaviour this development does not describe (for
      instance [df[label]] when two columns carry that label); no theorem
      below reads it as a failure of the program.
    - Strings are sequences of code points below 256.  Column labels are
      strings, row labels are natural numbers.
    - A table cell is a missing value ([NaN]), a number, or a text that is
      not a number ([Str]), as [read_csv] leaves it.
    - The numbers are kept abstract behind the class [Arith]; it is
      instantiated with exact rationals and with binary64 floats.
    - What the random generator and pandas leave open is an explicit
      input: the order in which [KFold] shuffles the rows, and the order
      and the printing of the levels of a categorical column ([Levels]),
      the printing by the dtype of the column. *)

From Stdlib Require Import String Ascii List Arith Bool Lia Permutation.
From Stdlib Require Import ZArith.
From Stdlib Require Import DecimalString QArith Qreduction Qfield Lqa.
From Stdlib Require PrimFloat FloatOps SpecFloat FloatAxioms.
Import ListNotations.
Open Scope string_scope.
Open Scope list_scope.
Open Scope nat_scope.

Set Implicit Arguments.

(** ** Python: exceptions and results *)

Inductive exn : Type :=
| AssertionError (msg : string)
| ValueError (msg : string)
| KeyError (key : string)
| IndexError
| TypeError
| ZeroDivisionError
| FileNotFoundError
| AttributeError
| InvalidIndexError
| OutsideModel (what : string).

Inductive result (A : Type) : Type :=
| Ok (a : A)
| Raise (e : exn).

Arguments Ok {A} a.
Arguments Raise {A} e.

Definition bind {A B : Type} (m : result A) (k : A -> result B) : result B :=
  match m with
  | Ok a => k a
  | Raise e => Raise e
  end.

Notation "x <- m ;; k" := (bind m (fun x => k))
  (at level 61, m at next level, right associativity).
Notation "' p <- m ;; k" := (bind m (fun x => let p := x in k))
  (at level 61, p pattern, m at next level, right associativity).

Definition assert (b : bool) (msg : string) : result unit :=
  if b then Ok tt else Raise (AssertionError msg).

(** ** Python: strings and lists *)

(** [str.isspace] on the code points below 256. *)
Definition isspace (c : ascii) : bool :=
  let n := nat_of_ascii c in
  ((9 <=? n) && (n <=? 13)) || ((28 <=? n) && (n <=? 32))
  || (n =? 133) || (n =? 160).

Fixpoint lstrip_chars (s : list ascii) : list ascii :=
  match s with
  | [] => []
  | c :: s' => if isspace c then lstrip_chars s' else s
  end.

(** [str.strip()] with no argument. *)
Definition strip (s : string) : string :=
  let l := lstrip_chars (list_ascii_of_string s) in
  string_of_list_ascii (rev (lstrip_chars (rev l))).

(** [str(n)] for a non-negative int. *)
Definition str_of_nat (n : nat) : string :=
  NilEmpty.string_of_uint (Nat.to_uint n).

(** [enumerate(l)] *)
Definition enumerate {A : Type} (l : list A) : list (nat * A) :=
  combine (seq 0 (length l)) l.

(** [del l[i]] for an index in range. *)
Definition del {A : Type} (i : nat) (l : list A) : list A :=
  firstn i l ++ skipn (S i) l.

(** [os.path.join(a, b)] on POSIX paths. *)
Definition path_join (a b : string) : string :=
  match b with
  | String "/"%char _ => b
  | _ =>
      match rev (list_ascii_of_string a) with
      | [] => b
      | "/"%char :: _ => a ++ b
      | _ => a ++ "/" ++ b
      end
  end.

(** ** The numbers in the tables *)

(** The arithmetic the code performs on table values, with the operations
    Python and numpy apply to them.  [feps] is [np.finfo(dtype).eps], the
    gap between 1 and the next number of the dtype. *)
Class Arith (F : Type) : Type := {
  fzero : F;
  fone : F;
  feps : F;
  fadd : F -> F -> F;
  fsub : F -> F -> F;
  fmul : F -> F -> F;
  fdiv : F -> F -> F;
  feqb : F -> F -> bool;
  fleb : F -> F -> bool;
  of_count : nat -> F
}.

(** Exact rationals, kept in lowest terms: the numbers of a [float64]
    table, computed with and compared without rounding.  The dtype keeps
    its [eps], 2^-52. *)
#[global] Instance Arith_Q : Arith Q := {|
  fzero := 0%Q;
  fone := 1%Q;
  feps := (1 # 4503599627370496)%Q;
  fadd := fun a b => Qred (a + b)%Q;
  fsub := fun a b => Qred (a - b)%Q;
  fmul := fun a b => Qred (a * b)%Q;
  fdiv := fun a b => Qred (a / b)%Q;
  feqb := Qeq_bool;
  fleb := Qle_bool;
  of_count := fun n => inject_Z (Z.of_nat n)
|}.



(** ** pandas: tables *)

Inductive cell (F : Type) : Type :=
| NaN
| Num (x : F)
| Str (s : string).

Arguments NaN {F}.
Arguments Num {F} x.
Arguments Str {F} s.

(** A [pandas.Series]: its name, its row labels and its values. *)
Record Series (F : Type) : Type := mkSeries {
  name : string;
  s_index : list nat;
  values : list (cell F)
}.

(** A [pandas.DataFrame], column by column: the row labels, and every column
    with its label, in the order of [dataframe.columns]. *)
Record DataFrame (F : Type) : Type := mkDataFrame {
  index : list nat;
  columns : list (string * list (cell F))
}.

(** The values a Python name of this program can hold. *)
Inductive pyobj (F : Type) : Type :=
| PyNone
| PyStr (s : string)
| PyFrame (df : DataFrame F)
| PySeries (s : Series F)
| PyArray (a : list (cell F)).

Arguments PyNone {F}.
Arguments PyStr {F} s.
Arguments PyFrame {F} df.
Arguments PySeries {F} s.
Arguments PyArray {F} a.

Section Tables.
Context {F : Type}.

(** [list(dataframe)]: the column labels. *)
Definition labels (df : DataFrame F) : list string :=
  map fst (columns df).

(** [len(dataframe)]: the number of rows. *)
Definition nrows (df : DataFrame F) : nat := length (index df).

Definition ncols (df : DataFrame F) : nat := length (columns df).

Definition mem_label (l : string) (ls : list string) : bool :=
  existsb (String.eqb l) ls.

(** [dataframe.columns[idxs]] for a list of positions. *)
Fixpoint columns_getitem (ls : list string) (idxs : list nat)
  : result (list string) :=
  match idxs with
  | [] => Ok []
  | i :: rest =>
      match nth_error ls i with
      | Some l => ls' <- columns_getitem ls rest ;; Ok (l :: ls')
      | None => Raise IndexError
      end
  end.

(** [dataframe.drop(ls, axis=1)]: a label that names no column is a
    [KeyError]; every column carrying one of the labels goes. *)
Definition drop (df : DataFrame F) (ls : list string)
  : result (DataFrame F) :=
  match find (fun l => negb (mem_label l (labels df))) ls with
  | Some l => Raise (KeyError l)
  | None =>
      Ok {| index := index df;
            columns := filter (fun c => negb (mem_label (fst c) ls))
                              (columns df) |}
  end.

(** [dataframe[label]]: the column of that label. *)
Definition getitem (df : DataFrame F) (label : string)
  : result (Series F) :=
  match filter (fun c => String.eqb (fst c) label) (columns df) with
  | [] => Raise (KeyError label)
  | [c] => Ok {| name := label; s_index := index df; values := snd c |}
  | _ => Raise (OutsideModel "dataframe[label] with a repeated label")
  end.

(** [series.to_numpy()] *)
Definition to_numpy (s : Series F) : list (cell F) := values s.

(** [series.to_frame()], as [pd.concat] treats a Series along axis 1. *)
Definition to_frame (s : Series F) : DataFrame F :=
  {| index := s_index s; columns := [(name s, values s)] |}.

End Tables.

(** ** The column mask applier *)

(** What [os], [open] and [pd.read_csv] answer for a path. *)
Inductive csv_outcome (F : Type) : Type :=
| Parsed (df : DataFrame F)
| Unparsable
| Missing.

Arguments Parsed {F} df.
Arguments Unparsable {F}.
Arguments Missing {F}.

Record filesystem (F : Type) : Type := mkFilesystem {
  isfile : string -> bool;
  module_dir : string;
  csv_rows : string -> option (list (list string));
  read_csv : string -> csv_outcome F
}.

Definition is_boolean_token (col : string) : bool :=
  let stripped_col := strip col in
  String.eqb stripped_col "True" || String.eqb stripped_col "False".

(** The loop of [remove_extra_entries] over [reversed(list(enumerate(mask)))],
    deleting from the live list. *)
Fixpoint remove_extra_loop (items : list (nat * string)) (mask : list string)
  : list string :=
  match items with
  | [] => mask
  | (i, col) :: rest =>
      if is_boolean_token col then mask
      else remove_extra_loop rest (del i mask)
  end.

Definition remove_extra_entries (mask : list string) : list string :=
  remove_extra_loop (rev (enumerate mask)) mask.

Definition mismatch_message (mask_len df_len : nat) : string :=
  "mask length " ++ str_of_nat mask_len
  ++ " does not match dataframe length " ++ str_of_nat df_len.

(** [for i, col in enumerate(column_mask): if col.strip() == 'False': ...] *)
Definition collect_false (column_indexes : list nat) (column_mask : list string)
  : list nat :=
  fold_left
    (fun acc ic => if String.eqb (strip (snd ic)) "False"
                   then acc ++ [fst ic] else acc)
    (enumerate column_mask) column_indexes.

Section MaskApplier.
Context {F : Type}.

(** The variables the loop of [apply_RFECV_mask] carries from one
    dataframe to the next. *)
Record mask_state : Type := mkMaskState {
  column_mask : list string;
  column_indexes : list nat;
  updated_args : list (DataFrame F)
}.

(** The length check at the head of the loop body: the mask is stripped
    only when its length is not the number of columns, and must fit
    afterwards. *)
Definition check_mask_length (column_mask : list string)
    (dataframe : DataFrame F) : result (list string) :=
  if length column_mask =? length (labels dataframe) then Ok column_mask
  else
    let column_mask := remove_extra_entries column_mask in
    _ <- assert (length column_mask =? length (labels dataframe))
           (mismatch_message (length column_mask)
              (length (labels dataframe))) ;;
    Ok column_mask.

(** One iteration of [for dataframe in args]. *)
Definition apply_mask_step (st : mask_state) (dataframe : DataFrame F)
  : result mask_state :=
  mask <- check_mask_length (column_mask st) dataframe ;;
  let idxs := collect_false (column_indexes st) mask in
  ls <- columns_getitem (labels dataframe) idxs ;;
  out <- drop dataframe ls ;;
  Ok {| column_mask := mask;
        column_indexes := idxs;
        updated_args := updated_args st ++ [out] |}.

Fixpoint apply_mask_loop (st : mask_state) (args : list (DataFrame F))
  : result mask_state :=
  match args with
  | [] => Ok st
  | dataframe :: rest =>
      st' <- apply_mask_step st dataframe ;;
      apply_mask_loop st' rest
  end.

(** The loop started on the tokens read from the mask file. *)
Definition apply_mask_tokens (tokens : list string)
    (args : list (DataFrame F)) : result mask_state :=
  apply_mask_loop
    {| column_mask := tokens; column_indexes := []; updated_args := [] |}
    args.

Definition apply_RFECV_mask (fs : filesystem F) (mask : string)
    (args : list (DataFrame F)) : result (list (DataFrame F)) :=
  _ <- assert (isfile fs mask)
         "please pass a string specifying mask location" ;;
  let mask := path_join (module_dir fs) mask in
  match csv_rows fs mask with
  | None => Raise FileNotFoundError
  | Some [] => Raise IndexError
  | Some (tokens :: _) =>
      st <- apply_mask_tokens tokens args ;;
      Ok (updated_args st)
  end.

End MaskApplier.

(** ** pandas and numpy: the operations of the cleaning pipeline *)

Fixpoint position (l : nat) (idx : list nat) : option nat :=
  match idx with
  | [] => None
  | x :: rest =>
      if x =? l then Some 0
      else match position l rest with
           | Some p => Some (S p)
           | None => None
           end
  end.

Fixpoint is_unique (idx : list nat) : bool :=
  match idx with
  | [] => true
  | x :: rest => negb (existsb (Nat.eqb x) rest) && is_unique rest
  end.

Definition index_equals (a b : list nat) : bool :=
  (length a =? length b) && forallb (fun p => fst p =? snd p) (combine a b).

(** [for x in l: s = body(x, s)] with exceptions. *)
Fixpoint for_each {A S : Type} (l : list A) (body : A -> S -> result S)
    (s : S) : result S :=
  match l with
  | [] => Ok s
  | x :: rest => s' <- body x s ;; for_each rest body s'
  end.

(** What pandas and Python leave to the values: the order [get_dummies]
    puts the levels of a categorical column in, how [str] prints a float
    or a text ([py_str]), and how a level prints in the label of its
    indicator column ([level_str]).  The last goes by the dtype pandas
    gave the column, which a table of cells does not record (the level 1
    prints as [1] in an [int64] column and as [1.0] in a [float64] one),
    so it is given the column. *)
Class Levels (F : Type) : Type := {
  sort_levels : list (cell F) -> list (cell F);
  py_str : cell F -> string;
  level_str : Series F -> cell F -> string
}.

Section Pandas.
Context {F : Type} {A : Arith F} {L : Levels F}.

(** [values.reindex(new_idx)]: the value at each label, [NaN] where the
    label is new. *)
Definition reindex (idx new_idx : list nat) (vals : list (cell F))
  : list (cell F) :=
  map (fun l => match position l idx with
                | Some p => nth p vals NaN
                | None => NaN
                end) new_idx.

(** [pd.concat([a, b], axis=1)]: rows are matched by label.  Equal
    indexes are put side by side; otherwise the result has the labels of
    [a] followed by the new ones of [b] (outer join, unsorted), which
    needs both indexes free of repeats. *)
Definition concat_axis1 (a b : DataFrame F) : result (DataFrame F) :=
  if index_equals (index a) (index b) then
    Ok {| index := index a; columns := columns a ++ columns b |}
  else if is_unique (index a) && is_unique (index b) then
    let idx := index a
               ++ filter (fun l => negb (existsb (Nat.eqb l) (index a)))
                         (index b) in
    Ok {| index := idx;
          columns :=
            map (fun c => (fst c, reindex (index a) idx (snd c))) (columns a)
            ++ map (fun c => (fst c, reindex (index b) idx (snd c)))
                   (columns b) |}
  else Raise InvalidIndexError.

(** [dataframe.iloc[rows]] and [array[rows]] for a list of positions. *)
Fixpoint take {B : Type} (l : list B) (rows : list nat) : result (list B) :=
  match rows with
  | [] => Ok []
  | i :: rest =>
      match nth_error l i with
      | Some x => xs <- take l rest ;; Ok (x :: xs)
      | None => Raise IndexError
      end
  end.

Definition iloc (df : DataFrame F) (rows : list nat)
  : result (DataFrame F) :=
  idx <- take (index df) rows ;;
  cols <- for_each (columns df)
            (fun c acc => vs <- take (snd c) rows ;; Ok (acc ++ [(fst c, vs)]))
            [] ;;
  Ok {| index := idx; columns := cols |}.

Definition isnan (v : cell F) : bool :=
  match v with NaN => true | _ => false end.

(** Two cells hold the same category. *)
Definition same_level (a b : cell F) : bool :=
  match a, b with
  | Num x, Num y => feqb x y
  | Str s, Str t => String.eqb s t
  | _, _ => false
  end.

(** The distinct values, each kept at its first occurrence. *)
Fixpoint unique (vals : list (cell F)) : list (cell F) :=
  match vals with
  | [] => []
  | v :: rest =>
      v :: filter (fun w => negb (same_level v w)) (unique rest)
  end.

(** The categories [get_dummies] finds: the distinct values that are
    present ([dummy_na=False] leaves missing ones out). *)
Definition levels (vals : list (cell F)) : list (cell F) :=
  sort_levels (unique (filter (fun v => negb (isnan v)) vals)).

Definition indicator (lv v : cell F) : cell F :=
  if same_level v lv then Num fone else Num fzero.

(** [pd.get_dummies(series, prefix=prefix)] *)
Definition get_dummies (s : Series F) (prefix : string) : DataFrame F :=
  {| index := s_index s;
     columns :=
       map (fun lv => ((prefix ++ "_" ++ level_str s lv)%string,
                       map (indicator lv) (values s)))
           (levels (values s)) |}.

(** [series.fillna(value)] *)
Definition fillna (vals : list (cell F)) (value : cell F) : list (cell F) :=
  map (fun v => if isnan v then value else v) vals.

Definition has_text (vals : list (cell F)) : bool :=
  existsb (fun v => match v with Str _ => true | _ => false end) vals.

Definition present (vals : list (cell F)) : list F :=
  flat_map (fun v => match v with Num x => [x] | _ => [] end) vals.

(** [series.mean()]: the mean of the values that are present, [NaN] when
    there is none. *)
Definition series_mean (s : Series F) : result (cell F) :=
  if has_text (values s) then
    Raise (OutsideModel "mean of a column that holds text")
  else
    match present (values s) with
    | [] => Ok NaN
    | xs => Ok (Num (fdiv (fold_left fadd xs fzero) (of_count (length xs))))
    end.

(** [dataframe[column] = vals] for a column that exists. *)
Definition setitem (df : DataFrame F) (column : string)
    (vals : list (cell F)) : DataFrame F :=
  {| index := index df;
     columns := map (fun c => if String.eqb (fst c) column
                              then (fst c, vals) else c) (columns df) |}.

(** [dataframe.reset_index(drop=True)] *)
Definition reset_index (df : DataFrame F) : DataFrame F :=
  {| index := seq 0 (nrows df); columns := columns df |}.

End Pandas.

(** ** scikit-learn *)

Section Sklearn.
Context {F : Type} {A : Arith F}.

Definition fmin (a b : F) : F := if fleb a b then a else b.
Definition fmax (a b : F) : F := if fleb a b then b else a.

(** [a < b] *)
Definition flt (a b : F) : bool := fleb a b && negb (feqb a b).

(** [np.nanmin] and [np.nanmax] of a column; [None] when nothing is
    present. *)
Definition nanmin (vals : list (cell F)) : option F :=
  match present vals with
  | [] => None
  | x :: xs => Some (fold_left fmin xs x)
  end.

Definition nanmax (vals : list (cell F)) : option F :=
  match present vals with
  | [] => None
  | x :: xs => Some (fold_left fmax xs x)
  end.

(** [_handle_zeros_in_scale] on the array of ranges (scikit-learn 1.1):
    [constant_mask = scale < 10 * np.finfo(scale.dtype).eps] and
    [scale[constant_mask] = 1.0].  A range below ten [eps], zero among
    them, is replaced by one. *)
Definition handle_zeros_in_scale (data_range : F) : F :=
  if flt data_range (fmul (of_count 10) feps) then fone else data_range.

(** [MinMaxScaler(feature_range=(0, 1))] on one column:
    [scale_ = (1 - 0) / _handle_zeros_in_scale(data_max - data_min)],
    [min_ = 0 - data_min * scale_], then [X *= scale_] and [X += min_]. *)
Definition scale_column (vals : list (cell F)) : list (cell F) :=
  match nanmin vals, nanmax vals with
  | Some data_min, Some data_max =>
      let data_range := fsub data_max data_min in
      let scale_ := fdiv fone (handle_zeros_in_scale data_range) in
      let min_ := fsub fzero (fmul data_min scale_) in
      map (fun v => match v with
                    | Num x => Num (fadd (fmul x scale_) min_)
                    | _ => v
                    end) vals
  | _, _ => vals
  end.

(** [MinMaxScaler().fit_transform(data)]: the scaled columns, in order.
    The input check refuses text, an empty table and a table without
    columns. *)
Definition MinMaxScaler_fit_transform (data : DataFrame F)
  : result (list (list (cell F))) :=
  if existsb (fun c => has_text (snd c)) (columns data) then
    Raise (ValueError "could not convert string to float")
  else if nrows data =? 0 then
    Raise (ValueError "Found array with 0 sample(s)")
  else if ncols data =? 0 then
    Raise (ValueError "Found array with 0 feature(s)")
  else Ok (map (fun c => scale_column (snd c)) (columns data)).

Definition fold_sizes (n_splits n_samples : nat) : list nat :=
  map (fun i => n_samples / n_splits
                + (if i <? n_samples mod n_splits then 1 else 0))
      (seq 0 n_splits).

Fixpoint chunks (sizes : list nat) (indices : list nat) : list (list nat) :=
  match sizes with
  | [] => []
  | s :: rest => firstn s indices :: chunks rest (skipn s indices)
  end.

Definition in_fold (test : list nat) (i : nat) : bool :=
  existsb (Nat.eqb i) test.

(** [KFold(n_splits, shuffle=True, random_state=seed).split(X)] for a table
    of [n_samples] rows, given the order [indices] in which the seeded
    generator shuffled [range(n_samples)]: the (train, test) pairs of
    positions, each in increasing order. *)
Definition KFold_split (n_splits : nat) (indices : list nat)
    (n_samples : nat) : result (list (list nat * list nat)) :=
  if n_samples <? n_splits then
    Raise (ValueError
             ("Cannot have number of splits n_splits=" ++ str_of_nat n_splits
              ++ " greater than the number of samples: n_samples="
              ++ str_of_nat n_samples ++ "."))
  else
    Ok (map (fun test =>
               (filter (fun i => negb (in_fold test i)) (seq 0 n_samples),
                filter (in_fold test) (seq 0 n_samples)))
            (chunks (fold_sizes n_splits n_samples) indices)).

End Sklearn.

(** ** data_utils.py: the helpers *)

Section Helpers.
Context {F : Type} {A : Arith F} {L : Levels F}.

(** A method of [DataFrame] called on the value of a Python name. *)
Definition as_frame (v : pyobj F) : result (DataFrame F) :=
  match v with
  | PyFrame df => Ok df
  | _ => Raise (OutsideModel "a DataFrame method on another object")
  end.

Definition isinstance_DataFrame (v : pyobj F) : bool :=
  match v with PyFrame _ => true | _ => false end.

Definition one_hot_encode (dataframe : pyobj F) (category : string)
  : result (DataFrame F) :=
  _ <- assert (isinstance_DataFrame dataframe)
         "data argument needs to be pandas dataframe" ;;
  df <- as_frame dataframe ;;
  col <- getitem df category ;;
  let dummy := get_dummies col category in
  dataframe <- concat_axis1 df dummy ;;
  drop dataframe [category].

(** The loop of [fill_nan]: [np.isnan] refuses text. *)
Fixpoint accumulate (vals : list (cell F)) (count : nat) (total : F)
  : result (nat * F) :=
  match vals with
  | [] => Ok (count, total)
  | NaN :: rest => accumulate rest count total
  | Num val :: rest => accumulate rest (S count) (fadd total val)
  | Str _ :: _ => Raise TypeError
  end.

Definition fill_nan (data : pyobj F) (column : string)
  : result (DataFrame F) :=
  _ <- assert (isinstance_DataFrame data)
         "data argument needs to be pandas dataframe" ;;
  df <- as_frame data ;;
  col <- getitem df column ;;
  ct <- accumulate (values col) 0 fzero ;;
  let count := fst ct in
  let total := snd ct in
  if count =? 0 then Raise ZeroDivisionError
  else
    Ok (setitem df column
          (fillna (values col) (Num (fdiv total (of_count count))))).

Definition normalize_and_reshape (data : DataFrame F) (labels_ : Series F)
  : result (DataFrame F) :=
  norm_df <- MinMaxScaler_fit_transform data ;;
  let data := {| index := seq 0 (nrows data);
                 columns := combine (labels data) norm_df |} in
  data <- concat_axis1 (to_frame labels_) data ;;
  Ok (reset_index data).

End Helpers.

(** ** data_utils.py: the class [data_base] *)

Record data_base (F : Type) : Type := mkDataBase {
  _raw_data : pyobj F;
  _clean_X_data : pyobj F;
  _target : pyobj F;
  _X_train : pyobj F;
  _Y_train : pyobj F;
  _X_test : pyobj F;
  _Y_test : pyobj F;
  _test_accession_numbers : pyobj F;
  _original : pyobj F;
  _predict : pyobj F
}.

Definition categorical_data : list string :=
  ["Enzyme Commission Number"; "Particle Size"; "Particle Charge";
   "Solvent Cysteine Concentration"; "Solvent NaCl Concentration"].

Definition columns_to_drop : list string :=
  ["Protein Length"; "Sequence"; "Accession Number"; "Bound Fraction"].

Section DataBase.
Context {F : Type} {A : Arith F} {L : Levels F}.
Variable fs : filesystem F.

(** [data_base()] *)
Definition init : data_base F :=
  {| _raw_data := PyNone; _clean_X_data := PyNone; _target := PyNone;
     _X_train := PyNone; _Y_train := PyNone; _X_test := PyNone;
     _Y_test := PyNone; _test_accession_numbers := PyNone;
     _original := PyNone; _predict := PyNone |}.

Definition is_None (v : pyobj F) : bool :=
  match v with PyNone => true | _ => false end.

(** Assignments to the attributes. *)
Definition with_raw_data (v : pyobj F) (self : data_base F) :=
  mkDataBase v (_clean_X_data self) (_target self) (_X_train self)
    (_Y_train self) (_X_test self) (_Y_test self)
    (_test_accession_numbers self) (_original self) (_predict self).
Definition with_clean_X_data (v : pyobj F) (self : data_base F) :=
  mkDataBase (_raw_data self) v (_target self) (_X_train self)
    (_Y_train self) (_X_test self) (_Y_test self)
    (_test_accession_numbers self) (_original self) (_predict self).
Definition with_target (v : pyobj F) (self : data_base F) :=
  mkDataBase (_raw_data self) (_clean_X_data self) v (_X_train self)
    (_Y_train self) (_X_test self) (_Y_test self)
    (_test_accession_numbers self) (_original self) (_predict self).
Definition with_X_train (v : pyobj F) (self : data_base F) :=
  mkDataBase (_raw_data self) (_clean_X_data self) (_target self) v
    (_Y_train self) (_X_test self) (_Y_test self)
    (_test_accession_numbers self) (_original self) (_predict self).
Definition with_Y_train (v : pyobj F) (self : data_base F) :=
  mkDataBase (_raw_data self) (_clean_X_data self) (_target self)
    (_X_train self) v (_X_test self) (_Y_test self)
    (_test_accession_numbers self) (_original self) (_predict self).
Definition with_X_test (v : pyobj F) (self : data_base F) :=
  mkDataBase (_raw_data self) (_clean_X_data self) (_target self)
    (_X_train self) (_Y_train self) v (_Y_test self)
    (_test_accession_numbers self) (_original self) (_predict self).
Definition with_Y_test (v : pyobj F) (self : data_base F) :=
  mkDataBase (_raw_data self) (_clean_X_data self) (_target self)
    (_X_train self) (_Y_train self) (_X_test self) v
    (_test_accession_numbers self) (_original self) (_predict self).
Definition with_test_accession_numbers (v : pyobj F) (self : data_base F) :=
  mkDataBase (_raw_data self) (_clean_X_data self) (_target self)
    (_X_train self) (_Y_train self) (_X_test self) (_Y_test self)
    v (_original self) (_predict self).
Definition with_original (v : pyobj F) (self : data_base F) :=
  mkDataBase (_raw_data self) (_clean_X_data self) (_target self)
    (_X_train self) (_Y_train self) (_X_test self) (_Y_test self)
    (_test_accession_numbers self) v (_predict self).
Definition with_predict (v : pyobj F) (self : data_base F) :=
  mkDataBase (_raw_data self) (_clean_X_data self) (_target self)
    (_X_train self) (_Y_train self) (_X_test self) (_Y_test self)
    (_test_accession_numbers self) (_original self) v.

(** *** The property getters *)

Definition get_X_train (self : data_base F) : result (pyobj F) :=
  if is_None (_X_train self) then
    Raise (ValueError "Initialize X_train by calling stratified_data_split()")
  else Ok (_X_train self).

Definition get_X_test (self : data_base F) : result (pyobj F) :=
  if is_None (_X_test self) then
    Raise (ValueError "Initialize X_test by calling stratified_data_split()")
  else Ok (_X_test self).

Definition get_Y_train (self : data_base F) : result (pyobj F) :=
  if is_None (_Y_train self) then
    Raise (ValueError "Initialize Y_train by calling stratified_data_split()")
  else Ok (_Y_train self).

Definition get_Y_test (self : data_base F) : result (pyobj F) :=
  Ok (_Y_test self).

Definition get_raw_data (self : data_base F) : result (pyobj F) :=
  if is_None (_raw_data self) then
    Raise (ValueError "Initialize raw data by setting raw_data=<path.csv>")
  else Ok (_raw_data self).

Definition get_clean_X_data (self : data_base F) : result (pyobj F) :=
  if is_None (_clean_X_data self) then
    Raise (ValueError "Initialize clean_X_data by calling clean_data()")
  else Ok (_clean_X_data self).

Definition get_original (self : data_base F) : result (pyobj F) :=
  if is_None (_original self) then
    Raise (ValueError "Initialize original by calling clean_data()")
  else Ok (_original self).

Definition get_target (self : data_base F) : result (pyobj F) :=
  if is_None (_target self) then
    Raise (ValueError "Initialize target by calling clean_data()")
  else Ok (_target self).

Definition get_test_accession_numbers (self : data_base F)
  : result (pyobj F) :=
  if is_None (_test_accession_numbers self) then
    Raise (ValueError
             "Initialize test_accession_numbers by calling stratified_data_split()")
  else Ok (_test_accession_numbers self).

Definition get_predict (self : data_base F) : result (pyobj F) :=
  Ok (_predict self).

(** *** Loading *)

Definition fetch_raw_data (enm_database : string) : result (DataFrame F) :=
  _ <- assert (isfile fs enm_database)
         "please pass a string specifying database location" ;;
  let enm_database := path_join (module_dir fs) enm_database in
  match read_csv fs enm_database with
  | Parsed raw_data => Ok raw_data
  | Unparsable => Raise (ValueError "File is not a valid csv")
  | Missing => Raise FileNotFoundError
  end.

(** [isinstance(path, str) and os.path.isfile(path)] *)
Definition is_str_and_isfile (path : pyobj F) : option string :=
  match path with
  | PyStr s => if isfile fs s then Some s else None
  | _ => None
  end.

(** *** The property setters *)

Definition set_X_train (path : pyobj F) (self : data_base F)
  : result (data_base F) :=
  match is_str_and_isfile path with
  | Some s => df <- fetch_raw_data s ;; Ok (with_X_train (PyFrame df) self)
  | None => Ok (with_X_train path self)
  end.

Definition set_X_test (path : pyobj F) (self : data_base F)
  : result (data_base F) :=
  match is_str_and_isfile path with
  | Some s => df <- fetch_raw_data s ;; Ok (with_X_test (PyFrame df) self)
  | None => Ok (with_X_test path self)
  end.

Definition set_Y_train (path : pyobj F) (self : data_base F)
  : result (data_base F) :=
  match is_str_and_isfile path with
  | Some s => df <- fetch_raw_data s ;; Ok (with_Y_train (PyFrame df) self)
  | None => Ok (with_Y_train path self)
  end.

Definition set_Y_test (path : pyobj F) (self : data_base F)
  : result (data_base F) :=
  match is_str_and_isfile path with
  | Some s => df <- fetch_raw_data s ;; Ok (with_Y_test (PyFrame df) self)
  | None => Ok (with_Y_test path self)
  end.

Definition set_raw_data (enm_database : pyobj F) (self : data_base F)
  : result (data_base F) :=
  match is_str_and_isfile enm_database with
  | Some s => df <- fetch_raw_data s ;; Ok (with_raw_data (PyFrame df) self)
  | None => Ok (with_raw_data enm_database self)
  end.

(** The setter of [clean_X_data] assigns the loaded table through
    itself ([self.clean_X_data = self.fetch_raw_data(path)]); a table is
    not a string, so that second call stores it. *)
Definition set_clean_X_data (path : pyobj F) (self : data_base F)
  : result (data_base F) :=
  match is_str_and_isfile path with
  | Some s =>
      df <- fetch_raw_data s ;; Ok (with_clean_X_data (PyFrame df) self)
  | None => Ok (with_clean_X_data path self)
  end.

Definition set_test_accession_numbers (path : pyobj F) (self : data_base F)
  : result (data_base F) :=
  match is_str_and_isfile path with
  | Some s => Ok self
  | None => Ok (with_test_accession_numbers path self)
  end.

(** *** The methods *)

(** The body of the encoding loop of [clean_raw_data]. *)
Definition encode_category (category : string) (self : data_base F)
  : result (data_base F) :=
  c <- get_clean_X_data self ;;
  d <- one_hot_encode c category ;;
  set_clean_X_data (PyFrame d) self.

(** [self.clean_X_data.drop(column, 1)]: the second positional argument
    is the axis, as pandas before 2.0 reads it. *)
Definition drop_column (column : string) (self : data_base F)
  : result (data_base F) :=
  c <- get_clean_X_data self ;; c <- as_frame c ;;
  d <- drop c [column] ;;
  set_clean_X_data (PyFrame d) self.

Definition clean_raw_data (self : data_base F) : result (data_base F) :=
  raw <- get_raw_data self ;;
  self <- set_clean_X_data raw self ;;
  self <- for_each categorical_data encode_category self ;;
  (* the value of [.fillna(...)] is not kept *)
  c <- get_clean_X_data self ;; c <- as_frame c ;;
  bound <- getitem c "Bound Fraction" ;;
  c' <- get_clean_X_data self ;; c' <- as_frame c' ;;
  bound' <- getitem c' "Bound Fraction" ;;
  m <- series_mean bound' ;;
  let _ := fillna (values bound) m in
  c <- get_clean_X_data self ;; c <- as_frame c ;;
  bound <- getitem c "Bound Fraction" ;;
  let self := with_target (PyArray (to_numpy bound)) self in
  t <- get_target self ;;
  self <- set_Y_train t self ;;
  c <- get_clean_X_data self ;; c <- as_frame c ;;
  accession_numbers <- getitem c "Accession Number" ;;
  self <- for_each columns_to_drop drop_column self ;;
  c <- get_clean_X_data self ;;
  d <- fill_nan c "Protein Abundance" ;;
  self <- set_clean_X_data (PyFrame d) self ;;
  c <- get_clean_X_data self ;;
  let self := with_original c self in
  c <- get_clean_X_data self ;; c <- as_frame c ;;
  d <- normalize_and_reshape c accession_numbers ;;
  self <- set_clean_X_data (PyFrame d) self ;;
  c <- get_clean_X_data self ;;
  set_X_train c self.

Definition clean_user_test_data (user_data : pyobj F) (self : data_base F)
  : result (data_base F) :=
  user_data <- for_each categorical_data
                 (fun category user_data =>
                    d <- one_hot_encode user_data category ;;
                    Ok (PyFrame d))
                 user_data ;;
  user_data <- as_frame user_data ;;
  bound <- getitem user_data "Bound Fraction" ;;
  self <- set_Y_test (PyArray (to_numpy bound)) self ;;
  accession_numbers <- getitem user_data "Accession Number" ;;
  user_data <- for_each columns_to_drop
                 (fun column user_data => drop user_data [column])
                 user_data ;;
  user_data <- fill_nan (PyFrame user_data) "Protein Abundance" ;;
  d <- normalize_and_reshape user_data accession_numbers ;;
  self <- set_X_test (PyFrame d) self ;;
  x <- get_X_test self ;; x <- as_frame x ;;
  acc <- getitem x "Accession Number" ;;
  self <- set_test_accession_numbers (PySeries acc) self ;;
  x <- get_X_train self ;; x <- as_frame x ;;
  d <- drop x ["Accession Number"] ;;
  self <- set_X_train (PyFrame d) self ;;
  x <- get_X_test self ;; x <- as_frame x ;;
  d <- drop x ["Accession Number"] ;;
  set_X_test (PyFrame d) self.

(** The setter of [predict] calls [os.path.isfile(path)] on whatever it
    is given.  [os.stat] refuses [None], a table and a Series with a
    [TypeError], which [isfile] lets through; a numpy array it takes for
    the bytes of a path and raises a [ValueError] or an [OSError], which
    [isfile] catches: the array names no file and is stored. *)
Definition set_predict (path : pyobj F) (self : data_base F)
  : result (data_base F) :=
  match path with
  | PyStr s =>
      if isfile fs s then
        df <- fetch_raw_data s ;;
        let self := with_predict (PyFrame df) self in
        clean_user_test_data (_predict self) self
      else Ok (with_predict path self)
  | PyArray _ => Ok (with_predict path self)
  | _ => Raise TypeError
  end.

Definition as_array (v : pyobj F) : result (list (cell F)) :=
  match v with
  | PyArray a => Ok a
  | _ => Raise (OutsideModel "an array index on another object")
  end.

(** The body of the loop of [data_split] for one (train, test) pair. *)
Definition split_fold (fold : list nat * list nat) (self : data_base F)
  : result (data_base F) :=
  let train_index := fst fold in
  let test_index := snd fold in
  c <- get_clean_X_data self ;; c <- as_frame c ;;
  x_train <- iloc c train_index ;;
  c <- get_clean_X_data self ;; c <- as_frame c ;;
  x_test <- iloc c test_index ;;
  self <- set_X_train (PyFrame x_train) self ;;
  self <- set_X_test (PyFrame x_test) self ;;
  t <- get_target self ;; t <- as_array t ;;
  y_train <- take t train_index ;;
  t <- get_target self ;; t <- as_array t ;;
  y_test <- take t test_index ;;
  self <- set_Y_train (PyArray y_train) self ;;
  set_Y_test (PyArray y_test) self.

(** [data_split], given the order [shuffled] in which the generator
    seeded with [int(random.random()*100)] shuffles the row positions. *)
Definition data_split (shuffled : list nat) (self : data_base F)
  : result (data_base F) :=
  p <- get_predict self ;;
  _ <- assert (is_None p) "Remove data_split() if using your own data" ;;
  c <- get_clean_X_data self ;; c <- as_frame c ;;
  kf <- KFold_split 5 shuffled (nrows c) ;;
  self <- for_each kf split_fold self ;;
  x <- get_X_test self ;; x <- as_frame x ;;
  acc <- getitem x "Accession Number" ;;
  self <- set_test_accession_numbers (PySeries acc) self ;;
  x <- get_X_train self ;; x <- as_frame x ;;
  d <- drop x ["Accession Number"] ;;
  self <- set_X_train (PyFrame d) self ;;
  x <- get_X_test self ;; x <- as_frame x ;;
  d <- drop x ["Accession Number"] ;;
  set_X_test (PyFrame d) self.

End DataBase.

(** ** Definitions used to state the properties *)

(** The positions of the ['False'] tokens of a mask. *)
Definition false_positions (mask : list string) : list nat :=
  collect_false [] mask.

Definition is_false_token (col : string) : bool :=
  String.eqb (strip col) "False".

Definition is_true_token (col : string) : bool :=
  String.eqb (strip col) "True".

(** The mask an input is checked against: the current one when its length
    is the number of columns, the stripped one otherwise. *)
Definition reconcile {F : Type} (mask : list string) (df : DataFrame F)
  : list string :=
  if length mask =? length (labels df) then mask
  else remove_extra_entries mask.

(** The mask in force at the [j]-th input of a call. *)
Fixpoint mask_at {F : Type} (tokens : list string) (args : list (DataFrame F))
    (j : nat) : list string :=
  match args with
  | [] => tokens
  | d :: rest =>
      match j with
      | O => reconcile tokens d
      | S j' => mask_at (reconcile tokens d) rest j'
      end
  end.

(** The reconciliation as the specification words it: tokens that are not
    boolean are taken off the end until the length is the wanted one or a
    boolean token is met. *)
Fixpoint strip_until_match_rev (wanted : nat) (r : list string)
  : list string :=
  match r with
  | [] => []
  | col :: rest =>
      if (length r =? wanted) || is_boolean_token col then r
      else strip_until_match_rev wanted rest
  end.

Definition reconcile_as_specified (wanted : nat) (mask : list string)
  : list string :=
  rev (strip_until_match_rev wanted (rev mask)).

(** The cells of row [i] across a list of columns. *)
Definition row_of {F : Type} (cols : list (string * list (cell F))) (i : nat)
  : list (cell F) :=
  map (fun c => nth i (snd c) NaN) cols.

(** The sum of the numbers in a list of cells, from the left. *)
Definition sum_cells {F : Type} {A : Arith F} (cells : list (cell F)) : F :=
  fold_left (fun acc c => match c with Num x => fadd acc x | _ => acc end)
            cells fzero.

(** Every column has one cell per row label. *)
Definition well_formed {F : Type} (df : DataFrame F) : Prop :=
  Forall (fun c => length (snd c) = nrows df) (columns df).

(** The columns that carry a label. *)
Definition select {F : Type} (l : string) (df : DataFrame F)
  : list (string * list (cell F)) :=
  filter (fun c => String.eqb (fst c) l) (columns df).

(** The rows of a table at the given positions, as [iloc] returns them. *)
Definition rows_at {F : Type} (df : DataFrame F) (rows : list nat)
  : DataFrame F :=
  {| index := map (fun i => nth i (index df) 0) rows;
     columns := map (fun c => (fst c, map (fun i => nth i (snd c) NaN) rows))
                    (columns df) |}.

(** A table without the columns that carry a label. *)
Definition without {F : Type} (label : string) (df : DataFrame F)
  : DataFrame F :=
  {| index := index df;
     columns := filter (fun c => negb (String.eqb (fst c) label))
                       (columns df) |}.

(** The object after one pass of the loop of [data_split]. *)
Definition after_fold {F : Type} (c : DataFrame F) (t : list (cell F))
    (fold : list nat * list nat) (self : data_base F) : data_base F :=
  with_Y_test (PyArray (map (fun i => nth i t NaN) (snd fold)))
    (with_Y_train (PyArray (map (fun i => nth i t NaN) (fst fold)))
       (with_X_test (PyFrame (rows_at c (snd fold)))
          (with_X_train (PyFrame (rows_at c (fst fold))) self))).


(** The labels [clean_raw_data] looks up. *)
Definition required_labels : list string :=
  categorical_data ++ columns_to_drop ++ ["Protein Abundance"].


(** The table [one_hot_encode] returns for a category column [vals]. *)
Definition encoded {F : Type} {A : Arith F} {L : Levels F}
    (c : DataFrame F) (category : string) (vals : list (cell F))
  : DataFrame F :=
  {| index := index c;
     columns :=
       filter (fun col => negb (String.eqb (fst col) category)) (columns c)
       ++ columns (get_dummies {| name := category; s_index := index c;
                                  values := vals |} category) |}.


(** ** Python and pandas: printing and sorting the levels *)

(** [str(n)] for an int. *)
Definition str_of_Z (n : Z) : string :=
  NilEmpty.string_of_int (Z.to_int n).

Fixpoint zeros (n : nat) : string :=
  match n with
  | O => ""
  | S n' => String "0" (zeros n')
  end.

(** [10 ** t] as a rational. *)
Definition pow10 (t : Z) : Q :=
  match t with
  | Zneg p => (1 # (10 ^ p))%Q
  | _ => inject_Z (10 ^ t)
  end.

Definition pow2 (t : Z) : Q :=
  match t with
  | Zneg p => (1 # (2 ^ p))%Q
  | _ => inject_Z (2 ^ t)
  end.

Definition floor (q : Q) : Z := (Qnum q / Zpos (Qden q))%Z.

(** The greatest [t] with [pow t <= x], searched downwards from [t] in at
    most [fuel] steps. *)
Fixpoint ilog (pow : Z -> Q) (fuel : nat) (t : Z) (x : Q) : Z :=
  match fuel with
  | O => t
  | S fuel' => if Qle_bool (pow t) x then t else ilog pow fuel' (t - 1)%Z x
  end.

(** [floor(log2(x))] and [floor(log10(x))] for a positive rational: the
    search starts just above, at a bound read off the sizes of the
    numerator and the denominator. *)
Definition size2 (x : Q) : Z :=
  (Z.log2 (Qnum x) - Z.log2 (Zpos (Qden x)))%Z.

Definition ilog2 (x : Q) : Z := ilog pow2 4 (size2 x + 1)%Z x.

Definition ilog10 (x : Q) : Z :=
  ilog pow10 6 (size2 x * 30103 / 100000 + 2)%Z x.

(** A positive finite binary64 number is [m * 2 ** e] with [m] below 2^53,
    and at least 2^52 unless [e] is -1074.  The float nearest to a
    positive rational, ties to the even mantissa; [None] when it rounds
    to infinity or to zero. *)
Definition binary64_of_Q (x : Q) : option (Z * Z) :=
  let t := ilog2 x in
  let e := Z.max (t - 52) (-1074) in
  let y := (x / pow2 e)%Q in
  let m := floor y in
  let rest := (y - inject_Z m)%Q in
  let m := if Qle_bool rest (1 # 2)
           then (if Qeq_bool rest (1 # 2) && Z.odd m then m + 1 else m)%Z
           else (m + 1)%Z in
  let '(m, e) := if (m =? 2 ^ 53)%Z then (2 ^ 52, e + 1)%Z else (m, e) in
  if (m =? 0)%Z || (971 <? e)%Z then None else Some (m, e).

(** The decimals that are read as the float [m * 2 ** e]: those between
    the midpoints to its two neighbours, the midpoints included when [m]
    is even. *)
Definition reads_as (m e : Z) (v : Q) : bool :=
  let x := (inject_Z m * pow2 e)%Q in
  let up := (pow2 e / 2)%Q in
  let down := if (m =? 2 ^ 52)%Z && (-1074 <? e)%Z
              then (pow2 e / 4)%Q else up in
  let lo := (x - down)%Q in
  let hi := (x + up)%Q in
  if Z.even m then Qle_bool lo v && Qle_bool v hi
  else Qle_bool lo v && negb (Qeq_bool lo v)
       && Qle_bool v hi && negb (Qeq_bool v hi).

(** The decimal of [n] significant digits nearest to [m * 2 ** e], as its
    digits [c] and exponent [k] ([c * 10 ** k]), when it is read back as
    that float. *)
Definition decimal_at (m e : Z) (n : nat) : option (Z * Z) :=
  let x := (inject_Z m * pow2 e)%Q in
  let k := (ilog10 x - Z.of_nat n + 1)%Z in
  let y := (x / pow10 k)%Q in
  let c1 := floor y in
  let c2 := (c1 + 1)%Z in
  let rest := (y - inject_Z c1)%Q in
  let first := if Qle_bool rest (1 # 2)
               then (if Qeq_bool rest (1 # 2) && Z.odd c1 then c2 else c1)
               else c2 in
  let second := if (first =? c1)%Z then c2 else c1 in
  if reads_as m e (inject_Z first * pow10 k) then Some (first, k)
  else if reads_as m e (inject_Z second * pow10 k) then Some (second, k)
  else None.

(** The shortest decimal that is read back as the float: at most 17
    digits are needed. *)
Fixpoint shortest_decimal (m e : Z) (fuel n : nat) : Z * Z :=
  match decimal_at m e n with
  | Some ck => ck
  | None =>
      match fuel with
      | O => (m, 0%Z)
      | S fuel' => shortest_decimal m e fuel' (S n)
      end
  end.

(** A decimal without its trailing zeros. *)
Fixpoint strip_zeros (fuel : nat) (c k : Z) : Z * Z :=
  match fuel with
  | O => (c, k)
  | S fuel' =>
      if (c mod 10 =? 0)%Z && negb (c =? 0)%Z
      then strip_zeros fuel' (c / 10)%Z (k + 1)%Z else (c, k)
  end.

(** [repr] lays the digits out with the point where it falls, and in
    exponent notation when the first digit is more than four places
    below the point or more than sixteen above. *)
Definition layout (c k : Z) : string :=
  let digits := str_of_Z c in
  let n := Z.of_nat (String.length digits) in
  let decpt := (n + k)%Z in
  if (-4 <? decpt)%Z && (decpt <=? 16)%Z then
    if (decpt <=? 0)%Z then
      "0." ++ zeros (Z.to_nat (- decpt)) ++ digits
    else if (decpt <? n)%Z then
      substring 0 (Z.to_nat decpt) digits ++ "."
      ++ substring (Z.to_nat decpt) (Z.to_nat (n - decpt)) digits
    else digits ++ zeros (Z.to_nat (decpt - n)) ++ ".0"
  else
    let exponent := (decpt - 1)%Z in
    let size := str_of_Z (Z.abs exponent) in
    substring 0 1 digits
    ++ (if (1 <? n)%Z then "." ++ substring 1 (Z.to_nat (n - 1)) digits
        else "")
    ++ "e" ++ (if (exponent <? 0)%Z then "-" else "+")
    ++ (if String.length size <? 2 then "0" else "") ++ size.

(** [repr(x)] for the positive float [m * 2 ** e]. *)
Definition repr_positive (m e : Z) : string :=
  let '(c, k) := shortest_decimal m e 17 1 in
  let '(c, k) := strip_zeros 20 c k in
  layout c k.


(** The same for the float nearest to a rational. *)
Definition float_repr_Q (q : Q) : string :=
  if Qeq_bool q 0 then "0.0"
  else
    let sign := if Qle_bool 0 q then "" else "-" in
    let size := if Qle_bool 0 q then q else Qopp q in
    match binary64_of_Q size with
    | Some (m, e) => sign ++ repr_positive m e
    | None => if Qle_bool 1 size then sign ++ "inf" else sign ++ "0.0"
    end.


Definition whole_Q (q : Q) : option Z :=
  if (Zpos (Qden (Qred q)) =? 1)%Z then Some (Qnum (Qred q)) else None.

Definition is_num {F : Type} (v : cell F) : bool :=
  match v with Num _ => true | _ => false end.

Definition is_text {F : Type} (v : cell F) : bool :=
  match v with Str _ => true | _ => false end.

(** [sorted(l)] by insertion, for the order [leb]. *)
Fixpoint insert_sorted {B : Type} (leb : B -> B -> bool) (v : B) (l : list B)
  : list B :=
  match l with
  | [] => [v]
  | w :: rest => if leb v w then v :: l else w :: insert_sorted leb v rest
  end.

Definition sort_by {B : Type} (leb : B -> B -> bool) (l : list B) : list B :=
  fold_right (insert_sorted leb) [] l.

Section PandasLevels.
Context {F : Type}.

(** The numbers of the table: the int a number is when it is whole, how
    it prints as a float, and their order. *)
Variable whole : F -> option Z.
Variable repr : F -> string.
Variable leb : F -> F -> bool.

(** Numbers by value, texts by code points. *)
Definition level_leb (a b : cell F) : bool :=
  match a, b with
  | Num x, Num y => leb x y
  | Str s, Str t => String.leb s t
  | _, _ => true
  end.

(** The categories of [get_dummies] are sorted when they can be compared
    (numbers only, or texts only) and stay in the order of their first
    occurrence otherwise. *)
Definition sorted_levels (l : list (cell F)) : list (cell F) :=
  if forallb is_num l || forallb is_text l then sort_by level_leb l else l.

(** [read_csv] gives a column the dtype [int64] when every entry is a
    whole number written without a decimal point and none is missing. *)
Definition holds_int64 (vals : list (cell F)) : bool :=
  forallb (fun v => match v with
                    | Num x => match whole x with
                               | Some _ => true
                               | None => false
                               end
                    | _ => false
                    end) vals.

Definition str_of_cell (c : cell F) : string :=
  match c with
  | NaN => "nan"
  | Str s => s
  | Num x => repr x
  end.

(** A level of an [int64] column prints as an int, any other number as a
    float. *)
Definition str_of_level (col : Series F) (c : cell F) : string :=
  match c with
  | Num x =>
      match whole x with
      | Some n => if holds_int64 (values col) then str_of_Z n else repr x
      | None => repr x
      end
  | _ => str_of_cell c
  end.

Definition pandas_levels : Levels F :=
  {| sort_levels := sorted_levels;
     py_str := str_of_cell;
     level_str := str_of_level |}.

End PandasLevels.

(** pandas on the tables of a data file whose whole numbers are written
    without a decimal point, over the rationals (a number prints as the
    float nearest to it) and over binary64. *)
Definition Levels_pandas : Levels Q :=
  pandas_levels whole_Q float_repr_Q Qle_bool.


(** ** Worked inputs *)

(** A table of two rows with the given column labels. *)
Definition two_rows (ls : list string) : DataFrame Q :=
  {| index := [0; 1];
     columns := map (fun l => (l, [Num 1%Q; Num 2%Q])) ls |}.

(** A file system that holds one mask file, [mask.txt] next to the module,
    with the given tokens on its first line. *)
Definition one_mask_file (tokens : list string) : filesystem Q :=
  {| isfile := fun p => String.eqb p "mask.txt";
     module_dir := "/repo";
     csv_rows := fun p => if String.eqb p "/repo/mask.txt"
                          then Some [tokens] else None;
     read_csv := fun _ => Missing |}.

(** A table with one gap in its column [x]. *)
Definition gap_table : DataFrame Q :=
  {| index := [0; 1; 2];
     columns := [("x", [Num 1%Q; NaN; Num 2%Q]);
                 ("y", [Num 5%Q; Num 6%Q; Num 7%Q])] |}.

(** A table whose categorical column [kind] has the levels [a] and [b] and
    one missing entry. *)
Definition kind_table : DataFrame Q :=
  {| index := [0; 1; 2];
     columns := [("kind", [Str "a"; NaN; Str "b"]);
                 ("y", [Num 5%Q; Num 6%Q; Num 7%Q])] |}.






(** A table over the rationals with the single column [3, 10]. *)
Definition exact_table : DataFrame Q :=
  {| index := [0; 1];
     columns := [("x", [Num 3%Q; Num 10%Q])] |}.

(** A raw record set of three rows in the layout of the input database,
    with one gap in [Protein Abundance], one in [Particle Charge] and one
    in the target [Bound Fraction]. *)
Definition raw_example : DataFrame Q :=
  {| index := [0; 1; 2];
     columns :=
       [("Accession Number", [Str "P1"; Str "P2"; Str "P3"]);
        ("Enzyme Commission Number", [Num 1%Q; Num 2%Q; Num 1%Q]);
        ("Particle Size", [Num 10%Q; Num 10%Q; Num 100%Q]);
        ("Particle Charge", [Num 0%Q; Num 1%Q; NaN]);
        ("Solvent Cysteine Concentration", [Num 0%Q; Num 0%Q; Num 0%Q]);
        ("Solvent NaCl Concentration", [Num 0%Q; Num 3%Q; Num 0%Q]);
        ("Protein Length", [Num 100%Q; Num 200%Q; Num 300%Q]);
        ("Sequence", [Str "MK"; Str "MA"; Str "MG"]);
        ("Protein Abundance", [Num (1 # 2)%Q; NaN; Num (3 # 2)%Q]);
        ("pI", [Num 5%Q; Num 12%Q; Num 7%Q]);
        ("Bound Fraction", [Num (1 # 4)%Q; NaN; Num (3 # 4)%Q])] |}.


(** A file system without files: tables are assigned in memory. *)
Definition no_files : filesystem Q :=
  {| isfile := fun _ => false;
     module_dir := "/repo";
     csv_rows := fun _ => None;
     read_csv := fun _ => Missing |}.

(** A clean feature set of five rows with its target, as [clean_raw_data]
    leaves them, and an order in which the rows may be shuffled. *)
Definition clean_example : DataFrame Q :=
  {| index := [0; 1; 2; 3; 4];
     columns :=
       [("Accession Number",
         [Str "P1"; Str "P2"; Str "P3"; Str "P4"; Str "P5"]);
        ("Protein Abundance",
         [Num 0%Q; Num (1 # 2)%Q; Num 1%Q; Num 0%Q; Num 1%Q])] |}.

Definition cleaned_example : data_base Q :=
  {| _raw_data := PyNone;
     _clean_X_data := PyFrame clean_example;
     _target := PyArray [Num 1%Q; Num 2%Q; Num 3%Q; Num 4%Q; Num 5%Q];
     _X_train := PyFrame clean_example;
     _Y_train := PyArray [Num 1%Q; Num 2%Q; Num 3%Q; Num 4%Q; Num 5%Q];
     _X_test := PyNone; _Y_test := PyNone;
     _test_accession_numbers := PyNone;
     _original := PyNone; _predict := PyNone |}.

Definition shuffled_example : list nat := [3; 0; 4; 1; 2].

(** ** predictor_utils.py: the mask file *)

(** [str(item)] for an entry of [selector.support_]. *)
Definition str_of_bool (b : bool) : string :=
  if b then "True" else "False".

(** The text [recursive_feature_elimination] leaves in the mask file:
    [for item in selector.support_: f.write('{}, '.format(item))]. *)
Definition write_mask (support_ : list bool) : string :=
  fold_left (fun text item => (text ++ str_of_bool item ++ ", ")%string)
    support_ "".

(** [selector.get_support(indices=True)]: the positions that are set. *)
Definition get_support (support_ : list bool) : list nat :=
  map fst (filter snd (enumerate support_)).

(** The names [recursive_feature_elimination] prints:
    [for index in feature_index: features.append(X_train.columns[index])]. *)
Definition feature_names {F : Type} (X_train : DataFrame F)
    (support_ : list bool) : result (list string) :=
  for_each (get_support support_)
    (fun index features =>
       match nth_error (labels X_train) index with
       | Some l => Ok (features ++ [l])
       | None => Raise IndexError
       end)
    [].

(** [csv.reader(f, delimiter=',')] on a line that holds no quote character:
    the fields between the commas. *)
Fixpoint split_fields (line field : string) : list string :=
  match line with
  | EmptyString => [field]
  | String c rest =>
      if Ascii.eqb c ","%char then field :: split_fields rest ""
      else split_fields rest (field ++ String c "")%string
  end.

(** [list(csv.reader(f, delimiter=','))] for a text of one line without
    line end: no row for the empty text. *)
Definition csv_reader (text : string) : list (list string) :=
  match text with
  | EmptyString => []
  | _ => [split_fields text ""]
  end.

(** The columns a mask keeps of a table, token by token: those whose token
    is not ['False']. *)
Definition keep_columns {F : Type} (mask : list string) (df : DataFrame F)
  : DataFrame F :=
  {| index := index df;
     columns := map snd (filter (fun tc => negb (is_false_token (fst tc)))
                                (combine mask (columns df))) |}.

(** The columns of a table at the positions that are set. *)
Definition support_columns {F : Type} (support_ : list bool)
    (df : DataFrame F) : DataFrame F :=
  {| index := index df;
     columns := map snd (filter fst (combine support_ (columns df))) |}.

(** ** data_utils.py: what the two cleaning methods share *)

Section Preparation.
Context {F : Type} {A : Arith F} {L : Levels F}.
Variable fs : filesystem F.

(** The six setters that load a table when they are given the path of a
    file, each with the attribute it assigns. *)
Definition loading_setters
  : list ((pyobj F -> data_base F -> result (data_base F))
          * (pyobj F -> data_base F -> data_base F)) :=
  [(set_raw_data fs, with_raw_data);
   (set_clean_X_data fs, with_clean_X_data);
   (set_X_train fs, with_X_train);
   (set_X_test fs, with_X_test);
   (set_Y_train fs, with_Y_train);
   (set_Y_test fs, with_Y_test)].

(** The steps [clean_raw_data] (lines 108-130) and [clean_user_test_data]
    (lines 141-152) run on a table, in the order in which they can raise:
    the five encodings, the target and the identifiers, the four drops, the
    imputation and the normalization.  [clean_raw_data] also computes the
    mean of the target.  The result is the target, the table before
    normalization and the normalized table. *)
Definition prepare (with_mean : bool) (data : pyobj F)
  : result (list (cell F) * DataFrame F * DataFrame F) :=
  data <- for_each categorical_data
            (fun category data =>
               d <- one_hot_encode data category ;; Ok (PyFrame d))
            data ;;
  data <- as_frame data ;;
  bound <- getitem data "Bound Fraction" ;;
  _ <- (if with_mean then series_mean bound else Ok NaN) ;;
  accession_numbers <- getitem data "Accession Number" ;;
  data <- for_each columns_to_drop
            (fun column data => drop data [column]) data ;;
  original <- fill_nan (PyFrame data) "Protein Abundance" ;;
  clean <- normalize_and_reshape original accession_numbers ;;
  Ok (to_numpy bound, original, clean).

(** The object [clean_raw_data] leaves. *)
Definition cleaned (p : list (cell F) * DataFrame F * DataFrame F)
    (self : data_base F) : data_base F :=
  let '(target, original, clean) := p in
  {| _raw_data := _raw_data self;
     _clean_X_data := PyFrame clean;
     _target := PyArray target;
     _X_train := PyFrame clean;
     _Y_train := PyArray target;
     _X_test := _X_test self;
     _Y_test := _Y_test self;
     _test_accession_numbers := _test_accession_numbers self;
     _original := PyFrame original;
     _predict := _predict self |}.

End Preparation.

(** A file system that holds the user's records in [user.csv] next to the
    module: the three rows of [raw_example]. *)
Definition user_file : filesystem Q :=
  {| isfile := fun p => String.eqb p "user.csv";
     module_dir := "/repo";
     csv_rows := fun _ => None;
     read_csv := fun p => if String.eqb p "/repo/user.csv"
                          then Parsed raw_example else Missing |}.

(** A database that holds the required columns and no row. *)
Definition empty_database : DataFrame Q :=
  {| index := [];
     columns := map (fun l => (l, [])) required_labels |}.

(** The attributes [data_split] reads or leaves alone, and the ones every
    pass of its loop assigns. *)
Definition same_inputs {F : Type} (a b : data_base F) : Prop :=
  _raw_data a = _raw_data b
  /\ _clean_X_data a = _clean_X_data b
  /\ _target a = _target b
  /\ _original a = _original b
  /\ _predict a = _predict b.

Definition same_partition {F : Type} (a b : data_base F) : Prop :=
  _X_train a = _X_train b
  /\ _X_test a = _X_test b
  /\ _Y_train a = _Y_train b
  /\ _Y_test a = _Y_test b.



(** ** data_utils.py: the report of [save_metrics] *)

(** The line end ["\n"]. *)
Definition newline : string := String (ascii_of_nat 10) "".

(** What [save_metrics] prints and leaves in its two files. *)
Record report : Type := mkReport {
  printed : list string;
  model_evaluation_info : string;
  predicted_value_statistics : string
}.

Section Metrics.
Context {F : Type} {A : Arith F} {L : Levels F}.

(** [predicted_value_stats.to_csv(index=False)]: the text of the table. *)
Variable to_csv : DataFrame F -> string.

(** A [dict] with string keys, as the list of its items in insertion
    order. *)
Definition pydict : Type := list (string * F).

(** [d[key] = value] *)
Fixpoint dict_setitem (d : pydict) (key : string) (value : F) : pydict :=
  match d with
  | [] => [(key, value)]
  | (k, v) :: rest =>
      if String.eqb k key then (k, value) :: rest
      else (k, v) :: dict_setitem rest key value
  end.

(** [dict(items)] *)
Definition dict (items : list (string * F)) : pydict :=
  fold_left (fun d item => dict_setitem d (fst item) (snd item)) items [].

(** [d[key]] *)
Fixpoint dict_getitem (d : pydict) (key : string) : result F :=
  match d with
  | [] => Raise (KeyError key)
  | (k, v) :: rest =>
      if String.eqb k key then Ok v else dict_getitem rest key
  end.

(** [sorted(items, key=lambda item: item[1], reverse=True)] for values
    that [<] orders: the items by decreasing value, items of equal value in
    their original order. *)
Fixpoint insort_reverse (item : string * F) (l : list (string * F))
  : list (string * F) :=
  match l with
  | [] => [item]
  | other :: rest =>
      if flt (snd item) (snd other) then other :: insort_reverse item rest
      else item :: l
  end.

Definition sorted_reverse (items : list (string * F)) : list (string * F) :=
  fold_right insort_reverse [] items.

Definition error_metric_line (key : string) (value : F) : string :=
  (key ++ ": " ++ py_str (Num value))%string.

Definition feature_line (feat : string) (value : F) : string :=
  ("Average Gini importance for " ++ feat ++ ": "
   ++ py_str (Num value))%string.

Definition error_metrics_title : string :=
  (newline ++ "############ Average Error Metric Scores ############"
   ++ newline)%string.

Definition feature_importances_title : string :=
  (newline ++ "############ Average Feature Importance Scores ############"
   ++ newline)%string.

(** [save_metrics]; [output_files] says whether the directory
    [Output_Files] exists, without which [open] raises. *)
Definition save_metrics (output_files : bool)
    (error_metrics feature_importances : pydict)
    (predicted_value_stats : DataFrame F) : result report :=
  let feature_importances := dict (sorted_reverse feature_importances) in
  _ <- (if output_files then Ok tt else Raise FileNotFoundError) ;;
  let out := ([error_metrics_title], error_metrics_title) in
  out <- for_each (map fst error_metrics)
           (fun key out =>
              value <- dict_getitem error_metrics key ;;
              Ok (fst out ++ [error_metric_line key value],
                  (snd out ++ error_metric_line key value ++ newline)%string))
           out ;;
  let out := (fst out ++ [feature_importances_title],
              (snd out ++ feature_importances_title)%string) in
  out <- for_each (map fst feature_importances)
           (fun feat out =>
              value <- dict_getitem feature_importances feat ;;
              Ok (fst out ++ [feature_line feat value],
                  (snd out ++ feature_line feat value ++ newline)%string))
           out ;;
  Ok {| printed := fst out;
        model_evaluation_info := snd out;
        predicted_value_statistics := to_csv predicted_value_stats |}.

End Metrics.

(** The text of a list of lines, each followed by a line end. *)
Definition lines_text (lines : list string) : string :=
  fold_right (fun line rest => (line ++ newline ++ rest)%string) "" lines.

(** ** The clean table of a valid database, column by column *)

Section CleanTable.
Context {F : Type} {A : Arith F} {L : Levels F}.







End CleanTable.

(** ** Worked inputs in binary64 *)






(** * Properties *)

(** ** The accessors of [data_base] *)

Section Accessors.
Context {F : Type}.

(** On a fresh object eight of the nine guarded getters raise their
    [ValueError]. *)
Lemma guarded_getters_raise_on_init :
  get_raw_data (@init F)
    = Raise (ValueError "Initialize raw data by setting raw_data=<path.csv>")
  /\ get_clean_X_data (@init F)
    = Raise (ValueError "Initialize clean_X_data by calling clean_data()")
  /\ get_original (@init F)
    = Raise (ValueError "Initialize original by calling clean_data()")
  /\ get_target (@init F)
    = Raise (ValueError "Initialize target by calling clean_data()")
  /\ get_X_train (@init F)
    = Raise (ValueError "Initialize X_train by calling stratified_data_split()")
  /\ get_X_test (@init F)
    = Raise (ValueError "Initialize X_test by calling stratified_data_split()")
  /\ get_Y_train (@init F)
    = Raise (ValueError "Initialize Y_train by calling stratified_data_split()")
  /\ get_test_accession_numbers (@init F)
    = Raise (ValueError
               "Initialize test_accession_numbers by calling stratified_data_split()").
Proof. repeat split. Qed.

(** C2, at the failing input: the getter of [Y_test] has no guard, so on
    a fresh [data_base()] reading the test target returns [None] where
    the claim asks for an initialization error. *)
Theorem Y_test_getter_returns_None_on_init :
  get_Y_test (@init F) = Ok PyNone.
Proof. reflexivity. Qed.

(** C6, at the failing input: assigning an in-memory table to [predict]
    raises [TypeError], because the setter asks [os.path.isfile] about it
    without the [isinstance(path, str)] test of the other setters. *)
Theorem predict_setter_rejects_table :
  forall (A : Arith F) (L : Levels F) (fs : filesystem F)
         (df : DataFrame F) (self : data_base F),
    set_predict fs (PyFrame df) self = Raise TypeError.
Proof. reflexivity. Qed.

(** The six other setters store a value that is not the path of a file
    as it is. *)
Lemma plain_setters_store_value :
  forall (fs : filesystem F) (v : pyobj F) (self : data_base F),
    is_str_and_isfile fs v = None ->
    set_raw_data fs v self = Ok (with_raw_data v self)
    /\ set_clean_X_data fs v self = Ok (with_clean_X_data v self)
    /\ set_X_train fs v self = Ok (with_X_train v self)
    /\ set_X_test fs v self = Ok (with_X_test v self)
    /\ set_Y_train fs v self = Ok (with_Y_train v self)
    /\ set_Y_test fs v self = Ok (with_Y_test v self).
Proof.
  intros fs v self H.
  unfold set_raw_data, set_clean_X_data, set_X_train, set_X_test,
    set_Y_train, set_Y_test.
  rewrite H. repeat split.
Qed.

End Accessors.

(** An in-memory table assigned to [raw_data] is stored as it is. *)
Lemma plain_setters_store_value_witness :
  set_raw_data no_files (PyFrame raw_example) init
  = Ok (with_raw_data (PyFrame raw_example) init).
Proof.
  exact (proj1 (@plain_setters_store_value Q no_files (PyFrame raw_example)
                  init eq_refl)).
Defined.

(** ** Lists *)

Lemma combine_snoc {A B : Type} (l : list A) (l' : list B) (x : A) (y : B) :
  length l = length l' ->
  combine (l ++ [x]) (l' ++ [y]) = combine l l' ++ [(x, y)].
Proof.
  revert l'. induction l as [|a l IH]; intros [|b l'] H; simpl in *;
    try discriminate; [reflexivity|].
  f_equal. apply IH. now injection H.
Qed.

Lemma enumerate_snoc {A : Type} (l : list A) (x : A) :
  enumerate (l ++ [x]) = enumerate l ++ [(length l, x)].
Proof.
  unfold enumerate. rewrite length_app. simpl.
  rewrite Nat.add_1_r, seq_S. simpl.
  apply combine_snoc. now rewrite length_seq.
Qed.

Lemma del_last {A : Type} (l : list A) (x : A) :
  del (length l) (l ++ [x]) = l.
Proof.
  unfold del. rewrite firstn_app, Nat.sub_diag, firstn_all.
  rewrite (skipn_all2 (n := S (length l))) by (rewrite length_app; simpl; lia).
  simpl. now rewrite !app_nil_r.
Qed.

Lemma in_combine_seq {A : Type} (l : list A) (s i : nat) (x : A) :
  In (i, x) (combine (seq s (length l)) l)
  <-> s <= i /\ nth_error l (i - s) = Some x.
Proof.
  revert s. induction l as [|a l IH]; intros s; simpl.
  - split; [tauto|]. intros [_ H]. destruct (i - s); discriminate.
  - rewrite IH. split.
    + intros [H | [H1 H2]].
      * injection H as <- <-. rewrite Nat.sub_diag. auto.
      * split; [lia|]. replace (i - s) with (S (i - S s)) by lia. exact H2.
    + intros [H1 H2]. destruct (Nat.eq_dec i s) as [->|Hne].
      * rewrite Nat.sub_diag in H2. simpl in H2. left. congruence.
      * right. split; [lia|].
        replace (i - s) with (S (i - S s)) in H2 by lia. exact H2.
Qed.

Lemma in_enumerate {A : Type} (l : list A) (i : nat) (x : A) :
  In (i, x) (enumerate l) <-> nth_error l i = Some x.
Proof.
  unfold enumerate. rewrite in_combine_seq, Nat.sub_0_r.
  split; [tauto | intros; split; [lia | assumption]].
Qed.

Lemma filter_length_pointwise {A B : Type} (f : A -> bool) (g : B -> bool)
    (xs : list A) (ys : list B) :
  length xs = length ys ->
  (forall i x y, nth_error xs i = Some x -> nth_error ys i = Some y ->
                 f x = g y) ->
  length (filter f xs) = length (filter g ys).
Proof.
  revert ys. induction xs as [|x xs IH]; intros [|y ys] Hlen H;
    simpl in *; try discriminate; [reflexivity|].
  rewrite (H 0 x y eq_refl eq_refl).
  assert (E : length (filter f xs) = length (filter g ys)).
  { apply IH; [now injection Hlen|].
    intros i a b Ha Hb. exact (H (S i) a b Ha Hb). }
  destruct (g y); simpl; now rewrite E.
Qed.

(** ** The column mask applier *)

Lemma remove_extra_entries_snoc (m : list string) (x : string) :
  remove_extra_entries (m ++ [x])
  = if is_boolean_token x then m ++ [x] else remove_extra_entries m.
Proof.
  unfold remove_extra_entries. rewrite enumerate_snoc, rev_app_distr. simpl.
  destruct (is_boolean_token x); [reflexivity|].
  now rewrite del_last.
Qed.

(** What [remove_extra_entries] returns: the mask without its longest tail
    of tokens that are not boolean. *)
Lemma remove_extra_entries_tail (mask : list string) :
  exists tail,
    mask = remove_extra_entries mask ++ tail
    /\ Forall (fun t => is_boolean_token t = false) tail
    /\ (remove_extra_entries mask = []
        \/ exists m x, remove_extra_entries mask = m ++ [x]
                       /\ is_boolean_token x = true).
Proof.
  induction mask as [|x m IH] using rev_ind.
  - exists []. repeat split; auto.
  - rewrite remove_extra_entries_snoc.
    destruct (is_boolean_token x) eqn:E.
    + exists []. rewrite app_nil_r. repeat split; auto.
      right. now exists m, x.
    + destruct IH as (tail & H1 & H2 & H3).
      exists (tail ++ [x]). split; [|split].
      * rewrite app_assoc, <- H1. reflexivity.
      * apply Forall_app. split; auto.
      * exact H3.
Qed.

Lemma remove_extra_entries_blank_tail (prefix tail : list string) :
  Forall (fun t => is_boolean_token t = true) prefix ->
  Forall (fun t => is_boolean_token t = false) tail ->
  remove_extra_entries (prefix ++ tail) = prefix.
Proof.
  intros Hp. induction tail as [|x t IH] using rev_ind; intros Ht.
  - rewrite app_nil_r.
    destruct prefix as [|a p] using rev_ind; [reflexivity|].
    rewrite remove_extra_entries_snoc.
    apply Forall_app in Hp. destruct Hp as [_ Hp].
    inversion Hp as [|? ? Hx _]; subst. now rewrite Hx.
  - apply Forall_app in Ht. destruct Ht as [Ht Hx].
    inversion Hx as [|? ? Hx' _]; subst.
    rewrite app_assoc, remove_extra_entries_snoc, Hx'. auto.
Qed.

Lemma collect_false_acc (mask : list string) (acc : list nat) :
  collect_false acc mask = acc ++ false_positions mask.
Proof.
  unfold false_positions, collect_false.
  generalize (enumerate mask). intros l. revert acc.
  induction l as [|[i col] l IH]; intros acc; simpl.
  - now rewrite app_nil_r.
  - destruct (String.eqb (strip col) "False"); simpl.
    + rewrite IH, (IH [i]). now rewrite app_assoc.
    + apply IH.
Qed.

Lemma in_false_positions (mask : list string) (i : nat) :
  In i (false_positions mask)
  <-> exists col, nth_error mask i = Some col /\ is_false_token col = true.
Proof.
  unfold false_positions, collect_false.
  assert (G : forall l acc,
             In i (fold_left
                     (fun acc ic => if String.eqb (strip (snd ic)) "False"
                                    then acc ++ [fst ic] else acc) l acc)
             <-> In i acc
                 \/ exists col, In (i, col) l /\ is_false_token col = true).
  { induction l as [|[k c] l IH]; intros acc; simpl.
    - split; [auto | intros [H | (c & [] & _)]; exact H].
    - rewrite IH. unfold is_false_token. simpl.
      destruct (String.eqb (strip c) "False") eqn:E.
      + rewrite in_app_iff. simpl. split.
        * intros [[H | [H | []]] | (col & H1 & H2)]; auto.
          -- subst. right. exists c. auto.
          -- right. exists col. auto.
        * intros [H | (col & [H1 | H1] & H2)]; auto.
          -- injection H1 as -> ->. auto.
          -- right. exists col. auto.
      + split.
        * intros [H | (col & H1 & H2)]; auto. right. exists col. auto.
        * intros [H | (col & [H1 | H1] & H2)]; auto.
          -- injection H1 as -> ->. congruence.
          -- right. exists col. auto. }
  rewrite G. simpl. split.
  - intros [[] | (col & H1 & H2)]. exists col.
    split; [now apply in_enumerate | exact H2].
  - intros (col & H1 & H2). right. exists col.
    split; [now apply in_enumerate | exact H2].
Qed.

Lemma false_positions_in_range (mask : list string) (i : nat) :
  In i (false_positions mask) -> i < length mask.
Proof.
  intros H. apply in_false_positions in H. destruct H as (col & H & _).
  apply nth_error_Some. congruence.
Qed.

Lemma mem_label_In (l : string) (ls : list string) :
  mem_label l ls = true <-> In l ls.
Proof.
  unfold mem_label. rewrite existsb_exists. split.
  - intros (x & H1 & H2). apply String.eqb_eq in H2. now subst.
  - intros H. exists l. split; [exact H | apply String.eqb_refl].
Qed.

Lemma mem_label_false (l : string) (ls : list string) :
  mem_label l ls = false <-> ~ In l ls.
Proof.
  rewrite <- mem_label_In. destruct (mem_label l ls); split; congruence.
Qed.

Section MaskFacts.
Context {F : Type}.

Lemma ncols_labels (df : DataFrame F) : length (labels df) = ncols df.
Proof. unfold labels, ncols. apply length_map. Qed.

Lemma columns_getitem_ok (ls : list string) (idxs : list nat) :
  (forall i, In i idxs -> i < length ls) ->
  columns_getitem ls idxs = Ok (map (fun i => nth i ls "") idxs).
Proof.
  induction idxs as [|i idxs IH]; intros H; simpl; [reflexivity|].
  assert (Hi : i < length ls) by (apply H; now left).
  destruct (nth_error ls i) as [l|] eqn:E.
  - rewrite IH by (intros; apply H; now right). simpl.
    now rewrite (nth_error_nth _ _ _ E).
  - apply nth_error_None in E. lia.
Qed.

Lemma columns_getitem_inv (ls : list string) (idxs : list nat)
    (r : list string) :
  columns_getitem ls idxs = Ok r ->
  (forall i, In i idxs -> i < length ls)
  /\ (forall l, In l r <-> exists i, In i idxs /\ nth_error ls i = Some l).
Proof.
  revert r. induction idxs as [|i idxs IH]; intros r H; simpl in H.
  - injection H as <-. split; [intros ? []|].
    intros l. split; [intros [] | intros (? & [] & _)].
  - destruct (nth_error ls i) as [l0|] eqn:E; [|discriminate].
    destruct (columns_getitem ls idxs) as [r'|] eqn:E'; [|discriminate].
    simpl in H. injection H as <-.
    destruct (IH r' eq_refl) as [H1 H2]. split.
    + intros j [<- | Hj]; [|auto].
      apply nth_error_Some. congruence.
    + intros l. simpl. rewrite H2. split.
      * intros [<- | (j & Hj1 & Hj2)]; [exists i | exists j]; auto.
      * intros (j & [<- | Hj1] & Hj2); [left; congruence|].
        right. exists j. auto.
Qed.

Lemma drop_ok (df : DataFrame F) (ls : list string) :
  (forall l, In l ls -> In l (labels df)) ->
  drop df ls
  = Ok {| index := index df;
          columns := filter (fun c => negb (mem_label (fst c) ls))
                            (columns df) |}.
Proof.
  intros H. unfold drop.
  destruct (find _ ls) as [l|] eqn:E; [|reflexivity].
  apply find_some in E. destruct E as [E1 E2].
  apply negb_true_iff, mem_label_false in E2. elim E2. auto.
Qed.

Lemma drop_inv (df out : DataFrame F) (ls : list string) :
  drop df ls = Ok out ->
  index out = index df
  /\ columns out
     = filter (fun c => negb (mem_label (fst c) ls)) (columns df).
Proof.
  unfold drop. destruct (find _ ls); [discriminate|].
  intros H. injection H as <-. auto.
Qed.

Lemma check_mask_length_ok (mask : list string) (df : DataFrame F) :
  length (reconcile mask df) = length (labels df) ->
  check_mask_length mask df = Ok (reconcile mask df).
Proof.
  unfold check_mask_length, reconcile.
  destruct (length mask =? length (labels df)); [reflexivity|].
  intros H. cbv zeta. now rewrite H, Nat.eqb_refl.
Qed.

Lemma check_mask_length_inv (mask m : list string) (df : DataFrame F) :
  check_mask_length mask df = Ok m ->
  m = reconcile mask df /\ length m = length (labels df).
Proof.
  unfold check_mask_length, reconcile.
  destruct (length mask =? length (labels df)) eqn:E.
  - intros H. injection H as <-. apply Nat.eqb_eq in E. auto.
  - cbv zeta.
    destruct (length (remove_extra_entries mask) =? length (labels df))
      eqn:E'; simpl; [|discriminate].
    intros H. injection H as <-. apply Nat.eqb_eq in E'. auto.
Qed.

Lemma check_mask_length_mismatch (mask : list string) (df : DataFrame F) :
  length mask <> length (labels df) ->
  length (remove_extra_entries mask) <> length (labels df) ->
  check_mask_length mask df
  = Raise (AssertionError
             (mismatch_message (length (remove_extra_entries mask))
                (length (labels df)))).
Proof.
  intros H1 H2. unfold check_mask_length.
  apply Nat.eqb_neq in H1, H2. rewrite H1. cbv zeta. now rewrite H2.
Qed.

Lemma apply_mask_step_inv (st st' : @mask_state F) (df : DataFrame F) :
  apply_mask_step st df = Ok st' ->
  column_mask st' = reconcile (column_mask st) df
  /\ length (column_mask st') = length (labels df)
  /\ column_indexes st'
     = column_indexes st ++ false_positions (column_mask st')
  /\ exists ls out,
       columns_getitem (labels df) (column_indexes st') = Ok ls
       /\ drop df ls = Ok out
       /\ updated_args st' = updated_args st ++ [out].
Proof.
  unfold apply_mask_step. intros H.
  destruct (check_mask_length _ _) as [m|] eqn:E; [|discriminate].
  apply check_mask_length_inv in E. destruct E as [E1 E2].
  simpl in H.
  destruct (columns_getitem _ _) as [ls|] eqn:E3; [|discriminate].
  simpl in H. destruct (drop df ls) as [out|] eqn:E4; [|discriminate].
  simpl in H. injection H as <-. simpl.
  rewrite collect_false_acc in *. repeat split; auto.
  exists ls, out. auto.
Qed.

(** A step succeeds as soon as the reconciled mask has the length of the
    table and the positions kept so far are positions of the table. *)
Lemma apply_mask_step_ok (st : @mask_state F) (df : DataFrame F) :
  length (reconcile (column_mask st) df) = length (labels df) ->
  (forall i, In i (column_indexes st) -> i < length (labels df)) ->
  apply_mask_step st df
  = Ok {| column_mask := reconcile (column_mask st) df;
          column_indexes :=
            column_indexes st
            ++ false_positions (reconcile (column_mask st) df);
          updated_args :=
            updated_args st
            ++ [{| index := index df;
                   columns :=
                     filter
                       (fun c =>
                          negb (mem_label (fst c)
                                  (map (fun i => nth i (labels df) "")
                                     (column_indexes st
                                      ++ false_positions
                                           (reconcile (column_mask st) df)))))
                       (columns df) |}] |}.
Proof.
  intros Hlen Hidx.
  set (mask := reconcile (column_mask st) df) in *.
  set (idxs := column_indexes st ++ false_positions mask).
  assert (Hr : forall i, In i idxs -> i < length (labels df)).
  { intros i Hi. apply in_app_iff in Hi. destruct Hi as [Hi | Hi]; auto.
    apply false_positions_in_range in Hi. lia. }
  assert (Hd : forall l, In l (map (fun i => nth i (labels df) "") idxs)
                         -> In l (labels df)).
  { intros l Hl. apply in_map_iff in Hl. destruct Hl as (i & <- & Hi).
    apply nth_In. auto. }
  unfold apply_mask_step.
  rewrite (check_mask_length_ok _ _ Hlen). fold mask. simpl.
  rewrite collect_false_acc. fold idxs.
  rewrite (columns_getitem_ok _ _ Hr). simpl.
  rewrite (drop_ok _ _ Hd). reflexivity.
Qed.

Lemma apply_mask_step_mismatch (st : @mask_state F) (df : DataFrame F) :
  length (column_mask st) <> length (labels df) ->
  length (remove_extra_entries (column_mask st)) <> length (labels df) ->
  apply_mask_step st df
  = Raise (AssertionError
             (mismatch_message
                (length (remove_extra_entries (column_mask st)))
                (length (labels df)))).
Proof.
  intros H1 H2. unfold apply_mask_step.
  now rewrite (check_mask_length_mismatch _ _ H1 H2).
Qed.

End MaskFacts.

(** C3, as stated, fails: the stripping does not stop when the lengths
    match.  On the mask [True, '', ''] and a table of two columns the
    reconciliation the claim describes stops at two tokens, which fit; the
    code strips both blanks and raises the length mismatch. *)
Lemma reconciliation_ignores_length :
  reconcile_as_specified 2 ["True"; ""; ""] = ["True"; ""]
  /\ remove_extra_entries ["True"; ""; ""] = ["True"]
  /\ apply_RFECV_mask (one_mask_file ["True"; ""; ""]) "mask.txt"
       [two_rows ["a"; "b"]]
     = Raise (AssertionError
                "mask length 1 does not match dataframe length 2").
Proof. repeat split. Qed.

(** C3, amended: when the token count differs from the column count,
    [remove_extra_entries] takes every trailing token that is not boolean
    off the mask, whatever the column count (it stops at the last boolean
    token or at the empty mask); if the length still differs the call
    raises an [AssertionError] whose message names both lengths; and a mask
    made of a boolean prefix as long as the table is wide followed by two
    blank tokens is trimmed to that prefix and the call returns. *)
Theorem mask_reconciliation :
  forall (F : Type) (fs : filesystem F) (path : string)
         (tokens : list string) (more : list (list string))
         (dataframe : DataFrame F) (rest : list (DataFrame F)),
    isfile fs path = true ->
    csv_rows fs (path_join (module_dir fs) path) = Some (tokens :: more) ->
    length tokens <> ncols dataframe ->
    (exists tail,
        tokens = remove_extra_entries tokens ++ tail
        /\ Forall (fun t => is_boolean_token t = false) tail
        /\ (remove_extra_entries tokens = []
            \/ exists m x, remove_extra_entries tokens = m ++ [x]
                           /\ is_boolean_token x = true))
    /\ (length (remove_extra_entries tokens) <> ncols dataframe ->
        apply_RFECV_mask fs path (dataframe :: rest)
        = Raise (AssertionError
                   ("mask length "
                    ++ str_of_nat (length (remove_extra_entries tokens))
                    ++ " does not match dataframe length "
                    ++ str_of_nat (ncols dataframe))))
    /\ (forall prefix b1 b2,
          tokens = prefix ++ [b1; b2] ->
          Forall (fun t => is_boolean_token t = true) prefix ->
          strip b1 = "" -> strip b2 = "" ->
          length prefix = ncols dataframe ->
          remove_extra_entries tokens = prefix
          /\ exists out,
               apply_RFECV_mask fs path [dataframe] = Ok [out]
               /\ drop dataframe
                    (map (fun i => nth i (labels dataframe) "")
                         (false_positions prefix)) = Ok out).
Proof.
  intros F fs path tokens more df rest Hfile Hrows Hne.
  split; [apply remove_extra_entries_tail | split].
  - intros Hne'. unfold apply_RFECV_mask. rewrite Hfile. simpl.
    rewrite Hrows. unfold apply_mask_tokens. simpl.
    rewrite apply_mask_step_mismatch; simpl;
      rewrite ?ncols_labels; auto.
  - intros prefix b1 b2 -> Hp Hb1 Hb2 Hlen.
    assert (Hs : remove_extra_entries (prefix ++ [b1; b2]) = prefix).
    { apply remove_extra_entries_blank_tail; [exact Hp|].
      repeat constructor; unfold is_boolean_token;
        rewrite ?Hb1, ?Hb2; reflexivity. }
    split; [exact Hs|].
    assert (Hr : reconcile (prefix ++ [b1; b2]) df = prefix).
    { unfold reconcile. rewrite ncols_labels.
      apply Nat.eqb_neq in Hne. now rewrite Hne. }
    eexists. unfold apply_RFECV_mask. rewrite Hfile. simpl.
    rewrite Hrows. unfold apply_mask_tokens. simpl.
    rewrite apply_mask_step_ok; simpl; rewrite ?Hr, ?ncols_labels; auto;
      [|intros ? []].
    simpl. split; [reflexivity|].
    apply drop_ok. intros l Hl. apply in_map_iff in Hl.
    destruct Hl as (i & <- & Hi). apply nth_In.
    apply false_positions_in_range in Hi. rewrite ncols_labels. lia.
Qed.

(** The mask file [True, False, , ] applied to a table of two columns. *)
Lemma mask_reconciliation_witness :
  remove_extra_entries ["True"; " False"; " "; " "] = ["True"; " False"]
  /\ exists out,
       apply_RFECV_mask (one_mask_file ["True"; " False"; " "; " "])
         "mask.txt" [two_rows ["a"; "b"]] = Ok [out]
       /\ drop (two_rows ["a"; "b"])
            (map (fun i => nth i (labels (two_rows ["a"; "b"])) "")
                 (false_positions ["True"; " False"]))
          = Ok out.
Proof.
  refine (proj2 (proj2
    (@mask_reconciliation Q (one_mask_file ["True"; " False"; " "; " "])
       "mask.txt" ["True"; " False"; " "; " "] [] (two_rows ["a"; "b"]) []
       eq_refl eq_refl _))
    ["True"; " False"] " " " " eq_refl _ eq_refl eq_refl eq_refl).
  - simpl. discriminate.
  - repeat constructor.
Defined.

Section MaskLoop.
Context {F : Type}.

Lemma dropped_label_absent (df out : DataFrame F) (ls : list string)
    (idxs : list nat) (i : nat) :
  columns_getitem (labels df) idxs = Ok ls ->
  drop df ls = Ok out ->
  In i idxs ->
  exists l, nth_error (labels df) i = Some l /\ ~ In l (labels out).
Proof.
  intros Hg Hd Hi. apply columns_getitem_inv in Hg. destruct Hg as [H1 H2].
  destruct (nth_error (labels df) i) as [l|] eqn:E.
  - exists l. split; [reflexivity|]. intros Hin.
    apply drop_inv in Hd. destruct Hd as [_ Hd].
    unfold labels in Hin. rewrite Hd in Hin. apply in_map_iff in Hin.
    destruct Hin as (c & <- & Hc). apply filter_In in Hc.
    destruct Hc as [_ Hc]. apply negb_true_iff, mem_label_false in Hc.
    apply Hc, H2. exists i. auto.
  - apply nth_error_None in E. specialize (H1 i Hi). lia.
Qed.

Lemma mask_at_concat (m : list string) (d : DataFrame F)
    (rest : list (DataFrame F)) :
  concat (map (fun j => false_positions (mask_at m (d :: rest) j))
              (seq 0 (S (length rest))))
  = false_positions (reconcile m d)
    ++ concat (map (fun j => false_positions
                               (mask_at (reconcile m d) rest j))
                   (seq 0 (length rest))).
Proof.
  simpl. f_equal. rewrite <- seq_shift, map_map. reflexivity.
Qed.

Lemma apply_mask_loop_inv (args : list (DataFrame F)) :
  forall st st' : @mask_state F,
    apply_mask_loop st args = Ok st' ->
    column_indexes st'
    = column_indexes st
      ++ concat (map (fun j => false_positions
                                 (mask_at (column_mask st) args j))
                     (seq 0 (length args)))
    /\ exists outs,
         updated_args st' = updated_args st ++ outs
         /\ length outs = length args
         /\ forall k dk ok i,
              nth_error args k = Some dk ->
              nth_error outs k = Some ok ->
              In i (column_indexes st)
              \/ (exists j, j <= k
                            /\ In i (false_positions
                                       (mask_at (column_mask st) args j))) ->
              exists l, nth_error (labels dk) i = Some l
                        /\ ~ In l (labels ok).
Proof.
  induction args as [|d rest IH]; intros st st' H.
  - simpl in H. injection H as <-. simpl. rewrite app_nil_r.
    split; [reflexivity|]. exists []. rewrite app_nil_r.
    repeat split. intros [|k] ? ? ? Hk; discriminate.
  - simpl in H.
    destruct (apply_mask_step st d) as [st1|] eqn:E; [|discriminate].
    simpl in H. destruct (IH _ _ H) as (Hidx & outs & Hout & Hlen & Hdrop).
    apply apply_mask_step_inv in E.
    destruct E as (Hm & _ & Hi & ls & out & Hg & Hd & Hu).
    rewrite Hm in *. split.
    + rewrite Hidx, Hi, mask_at_concat, app_assoc. reflexivity.
    + exists (out :: outs). split; [|split].
      * rewrite Hout, Hu, <- app_assoc. reflexivity.
      * simpl. now rewrite Hlen.
      * intros [|k] dk ok i Hk Ho Hin; simpl in Hk, Ho.
        -- injection Hk as <-. injection Ho as <-.
           eapply dropped_label_absent; [exact Hg | exact Hd |].
           rewrite Hi. apply in_app_iff.
           destruct Hin as [Hin | (j & Hj & Hin)]; [now left|].
           right. assert (j = 0) by lia. subst j. exact Hin.
        -- apply (Hdrop k dk ok i Hk Ho).
           destruct Hin as [Hin | ([|j] & Hj & Hin)].
           ++ left. rewrite Hi. apply in_app_iff. now left.
           ++ left. rewrite Hi. apply in_app_iff. now right.
           ++ right. exists j. split; [lia | exact Hin].
Qed.

Lemma kept_columns_count (d : DataFrame F) (tokens ls : list string) :
  NoDup (labels d) ->
  length tokens = length (columns d) ->
  columns_getitem (labels d) (false_positions tokens) = Ok ls ->
  length (filter (fun c => negb (mem_label (fst c) ls)) (columns d))
  = length (filter (fun t => negb (is_false_token t)) tokens).
Proof.
  intros Hnd Hlen Hg. apply columns_getitem_inv in Hg.
  destruct Hg as [_ Hin].
  apply filter_length_pointwise; [congruence|].
  intros i c t Hc Ht. f_equal.
  assert (Hl : nth_error (labels d) i = Some (fst c)).
  { unfold labels. rewrite nth_error_map, Hc. reflexivity. }
  destruct (is_false_token t) eqn:E.
  - apply mem_label_In, Hin. exists i. split; [|exact Hl].
    apply in_false_positions. exists t. auto.
  - apply mem_label_false. intros Hc'. apply Hin in Hc'.
    destruct Hc' as (j & Hj & Hjl).
    assert (i = j).
    { apply (proj1 (NoDup_nth_error (labels d)) Hnd).
      - apply nth_error_Some. congruence.
      - congruence. }
    subst j. apply in_false_positions in Hj.
    destruct Hj as (t' & Ht' & Hf). congruence.
Qed.

Lemma boolean_not_false_is_true (tokens : list string) :
  Forall (fun t => is_boolean_token t = true) tokens ->
  filter (fun t => negb (is_false_token t)) tokens
  = filter is_true_token tokens.
Proof.
  intros H. apply filter_ext_in. intros t Ht.
  rewrite Forall_forall in H. specialize (H t Ht).
  unfold is_boolean_token, is_false_token, is_true_token in *.
  destruct (String.eqb (strip t) "True") eqn:E1;
    destruct (String.eqb (strip t) "False") eqn:E2;
    try reflexivity; try discriminate.
  apply String.eqb_eq in E1, E2. congruence.
Qed.

End MaskLoop.

Lemma false_positions_snoc (m : list string) (x : string) :
  false_positions (m ++ [x])
  = false_positions m ++ (if is_false_token x then [length m] else []).
Proof.
  unfold false_positions, collect_false, is_false_token.
  rewrite enumerate_snoc, fold_left_app. simpl.
  destruct (String.eqb (strip x) "False"); [reflexivity|].
  now rewrite app_nil_r.
Qed.

Lemma false_positions_remove_extra (m : list string) :
  false_positions (remove_extra_entries m) = false_positions m.
Proof.
  induction m as [|x m IH] using rev_ind; [reflexivity|].
  rewrite remove_extra_entries_snoc.
  destruct (is_boolean_token x) eqn:E; [reflexivity|].
  rewrite false_positions_snoc, IH.
  unfold is_boolean_token in E. apply orb_false_iff in E.
  unfold is_false_token. rewrite (proj2 E). now rewrite app_nil_r.
Qed.

(** Within one call the ['False'] positions are the same for every input:
    reconciliation only takes tokens that are not boolean off the end.  The
    list that is never reset therefore only repeats the positions of the
    mask's own ['False'] tokens. *)
Lemma false_positions_stable {F : Type} (args : list (DataFrame F)) :
  forall (tokens : list string) (j : nat),
    false_positions (mask_at tokens args j) = false_positions tokens.
Proof.
  assert (R : forall m (d : DataFrame F),
             false_positions (reconcile m d) = false_positions m).
  { intros m d. unfold reconcile.
    destruct (length m =? length (labels d)); [reflexivity|].
    apply false_positions_remove_extra. }
  induction args as [|d rest IH]; intros tokens j; [reflexivity|].
  destruct j as [|j]; simpl; [apply R|].
  now rewrite IH, R.
Qed.

(** C4, as stated, fails in its second half: the output keeps every column
    whose token is not ['False'], boolean or not.  The mask file
    [True, ] that [recursive_feature_elimination] writes for a single
    selected feature has two tokens, one of them ['True']; on a table of
    two columns both columns are kept. *)
Lemma kept_columns_exceed_true_entries :
  apply_mask_tokens ["True"; " "] [two_rows ["a"; "b"]]
  = Ok {| column_mask := ["True"; " "];
          column_indexes := [];
          updated_args := [two_rows ["a"; "b"]] |}
  /\ ncols (two_rows ["a"; "b"]) = 2
  /\ length (filter is_true_token ["True"; " "]) = 1.
Proof. repeat split. Qed.

(** C4, amended: in one call the list of positions to drop only grows (after
    the last input it is the concatenation, input by input, of the positions
    of the ['False'] tokens of the mask then in force), so the column at a
    position collected at an earlier input is absent from every later
    output; and for a first input whose labels are pairwise distinct and
    whose column count is the length of the mask, the output has as many
    columns as the mask has tokens other than ['False'], which is the number
    of ['True'] tokens when every token is boolean. *)
Theorem mask_indexes_accumulate :
  forall (F : Type) (tokens : list string) (args : list (DataFrame F))
         (st : @mask_state F),
    apply_mask_tokens tokens args = Ok st ->
    column_indexes st
    = concat (map (fun j => false_positions (mask_at tokens args j))
                  (seq 0 (length args)))
    /\ length (updated_args st) = length args
    /\ (forall j k dk ok i,
          j <= k ->
          nth_error args k = Some dk ->
          nth_error (updated_args st) k = Some ok ->
          In i (false_positions (mask_at tokens args j)) ->
          exists l, nth_error (labels dk) i = Some l /\ ~ In l (labels ok))
    /\ (forall d rest,
          args = d :: rest ->
          length tokens = ncols d ->
          NoDup (labels d) ->
          exists out,
            nth_error (updated_args st) 0 = Some out
            /\ ncols out
               = length (filter (fun t => negb (is_false_token t)) tokens)
            /\ (Forall (fun t => is_boolean_token t = true) tokens ->
                ncols out = length (filter is_true_token tokens))).
Proof.
  intros F tokens args st H. unfold apply_mask_tokens in H.
  destruct (@apply_mask_loop_inv _ _ _ _ H)
    as (Hidx & outs & Hout & Hlen & Hdrop).
  simpl in Hidx, Hout, Hdrop.
  split; [exact Hidx | split; [congruence | split]].
  - intros j k dk ok i Hjk Hk Ho Hi. rewrite Hout in Ho.
    apply (Hdrop k dk ok i Hk Ho). right. exists j. auto.
  - intros d rest -> Hn Hnd. simpl in H.
    destruct (apply_mask_step _ d) as [st1|] eqn:E; [|discriminate].
    simpl in H. apply apply_mask_step_inv in E. simpl in E.
    destruct E as (Hm & _ & Hi & ls & out & Hg & Hd & Hu).
    assert (Hr : reconcile tokens d = tokens).
    { unfold reconcile. now rewrite ncols_labels, Hn, Nat.eqb_refl. }
    rewrite Hr in Hm. rewrite Hi, Hm in Hg.
    destruct (@apply_mask_loop_inv _ _ _ _ H) as (_ & outs' & Hout' & _).
    rewrite Hu in Hout'. exists out. split; [now rewrite Hout'|].
    apply drop_inv in Hd. destruct Hd as [_ Hd].
    assert (Hc : ncols out
                 = length (filter (fun t => negb (is_false_token t)) tokens)).
    { unfold ncols. rewrite Hd. apply kept_columns_count; auto. }
    split; [exact Hc|].
    intros Hb. now rewrite Hc, boolean_not_false_is_true.
Qed.

(** The mask [True, False, True] on two tables of three columns: position
    1 is collected twice, and each output keeps two columns. *)
Lemma mask_indexes_accumulate_witness :
  column_indexes
    {| column_mask := ["True"; " False"; " True"];
       column_indexes := [1; 1];
       updated_args := [two_rows ["a"; "c"]; two_rows ["d"; "f"]] |}
  = concat (map (fun j => false_positions
                            (mask_at ["True"; " False"; " True"]
                               [two_rows ["a"; "b"; "c"];
                                two_rows ["d"; "e"; "f"]] j))
                (seq 0 2))
  /\ exists out,
       nth_error [two_rows ["a"; "c"]; two_rows ["d"; "f"]] 0 = Some out
       /\ ncols out = 2.
Proof.
  pose proof
    (@mask_indexes_accumulate Q ["True"; " False"; " True"]
       [two_rows ["a"; "b"; "c"]; two_rows ["d"; "e"; "f"]]
       {| column_mask := ["True"; " False"; " True"];
          column_indexes := [1; 1];
          updated_args := [two_rows ["a"; "c"]; two_rows ["d"; "f"]] |}
       eq_refl) as (H1 & _ & _ & H2).
  split; [exact H1|].
  assert (Hnd : NoDup (labels (two_rows ["a"; "b"; "c"]))).
  { unfold labels. simpl.
    repeat (constructor; [simpl; intuition discriminate|]). constructor. }
  destruct (H2 (two_rows ["a"; "b"; "c"]) [two_rows ["d"; "e"; "f"]]
              eq_refl eq_refl Hnd) as (out & Ho & Hc & _).
  exists out. split; [exact Ho | exact Hc].
Defined.

(** ** The mean imputation helper *)

Section FillNan.
Context {F : Type} {A : Arith F}.

Lemma accumulate_numeric (vals : list (cell F)) :
  has_text vals = false ->
  forall count total,
    accumulate vals count total
    = Ok (count + length (present vals),
          fold_left fadd (present vals) total).
Proof.
  induction vals as [|[|x|s] vals IH]; intros H count total; simpl in *.
  - now rewrite Nat.add_0_r.
  - now apply IH.
  - rewrite (IH H). f_equal. f_equal. lia.
  - discriminate.
Qed.

Lemma accumulate_text (vals : list (cell F)) :
  has_text vals = true ->
  forall count total, accumulate vals count total = Raise TypeError.
Proof.
  induction vals as [|[|x|s] vals IH]; intros H count total; simpl in *;
    try discriminate; auto.
Qed.

Lemma present_nil_iff (vals : list (cell F)) :
  has_text vals = false ->
  (present vals = [] <-> Forall (fun v => v = NaN) vals).
Proof.
  induction vals as [|[|x|s] vals IH]; intros H; simpl in *.
  - split; auto.
  - rewrite (IH H). split; intros H'; [constructor; auto |].
    now inversion H'.
  - split; [discriminate|]. intros H'. inversion H'. discriminate.
  - discriminate.
Qed.

Lemma present_In (vals : list (cell F)) (x : F) :
  In x (present vals) <-> In (Num x) vals.
Proof.
  unfold present. rewrite in_flat_map. split.
  - intros ([|y|s] & H1 & H2); simpl in H2; try tauto.
    destruct H2 as [<- | []]. exact H1.
  - intros H. exists (Num x). simpl. auto.
Qed.

Lemma fillna_as_match (vals : list (cell F)) (value : cell F) :
  fillna vals value
  = map (fun v => match v with NaN => value | _ => v end) vals.
Proof.
  unfold fillna. apply map_ext. intros [|x|s]; reflexivity.
Qed.

Lemma getitem_inv (df : DataFrame F) (label : string) (col : Series F) :
  getitem df label = Ok col ->
  filter (fun c => String.eqb (fst c) label) (columns df)
  = [(label, values col)]
  /\ name col = label /\ s_index col = index df.
Proof.
  unfold getitem.
  destruct (filter _ (columns df)) as [|[l vs] [|c' r]] eqn:E;
    try discriminate.
  intros H. injection H as <-. simpl. repeat split.
  assert (Hin : In (l, vs) (filter (fun c => String.eqb (fst c) label)
                              (columns df))) by (rewrite E; now left).
  apply filter_In in Hin. destruct Hin as [_ Hl]. simpl in Hl.
  apply String.eqb_eq in Hl. now subst.
Qed.

Lemma getitem_setitem (df : DataFrame F) (label : string) (col : Series F)
    (vals : list (cell F)) :
  getitem df label = Ok col ->
  getitem (setitem df label vals) label
  = Ok {| name := label; s_index := index df; values := vals |}.
Proof.
  intros H. apply getitem_inv in H. destruct H as (H & _).
  unfold getitem, setitem. simpl.
  assert (E : filter (fun c => String.eqb (fst c) label)
                (map (fun c : string * list (cell F) =>
                        if String.eqb (fst c) label then (fst c, vals) else c)
                   (columns df))
              = map (fun c => (fst c, vals))
                  (filter (fun c => String.eqb (fst c) label) (columns df))).
  { clear H. induction (columns df) as [|[l vs] cs IH]; simpl; [reflexivity|].
    destruct (String.eqb l label) eqn:El; simpl; rewrite ?El; simpl;
      now rewrite IH. }
  rewrite E, H. reflexivity.
Qed.

End FillNan.

(** C10: on a table in which [column] names one column, [fill_nan] returns
    only when that column holds at least one number.  A column whose
    entries are all missing ends the accumulation with a count of zero and
    [total/count] raises [ZeroDivisionError]; a column that holds text
    makes [np.isnan] raise [TypeError]; otherwise the count is positive and
    every missing entry is replaced by [total/count], both accumulated over
    the entries that are present, the other entries and columns being left
    as they were. *)
Theorem fill_nan_needs_a_value :
  forall (F : Type) (A : Arith F) (data : DataFrame F) (column : string)
         (col : Series F),
    getitem data column = Ok col ->
    (Forall (fun v => v = NaN) (values col) ->
     fill_nan (PyFrame data) column = Raise ZeroDivisionError)
    /\ (has_text (values col) = true ->
        fill_nan (PyFrame data) column = Raise TypeError)
    /\ (has_text (values col) = false ->
        (exists x, In (Num x) (values col)) ->
        let count := length (present (values col)) in
        let total := fold_left fadd (present (values col)) fzero in
        let filled :=
          map (fun v => match v with
                        | NaN => Num (fdiv total (of_count count))
                        | _ => v
                        end) (values col) in
        0 < count
        /\ fill_nan (PyFrame data) column = Ok (setitem data column filled)
        /\ getitem (setitem data column filled) column
           = Ok {| name := column; s_index := index data;
                   values := filled |}).
Proof.
  intros F A data column col Hg. unfold fill_nan. simpl. rewrite Hg. simpl.
  split; [|split].
  - intros Hall.
    assert (Ht : has_text (values col) = false).
    { clear Hg. induction (values col) as [|v vs IH]; [reflexivity|].
      inversion Hall; subst. simpl. auto. }
    rewrite (accumulate_numeric _ Ht). simpl.
    now rewrite (proj2 (present_nil_iff _ Ht) Hall).
  - intros Ht. now rewrite (accumulate_text _ Ht).
  - intros Ht (x & Hx). cbv zeta.
    rewrite (accumulate_numeric _ Ht). simpl.
    assert (Hc : 0 < length (present (values col))).
    { apply present_In in Hx.
      destruct (present (values col)); [destruct Hx | simpl; lia]. }
    split; [exact Hc|].
    destruct (length (present (values col))) as [|n] eqn:Ec; [lia|]. simpl.
    rewrite fillna_as_match.
    split; [reflexivity|].
    now apply getitem_setitem with (col := col).
Qed.

(** The column [x] of [gap_table] holds 1, a gap and 2: the gap becomes
    3/2. *)
Lemma fill_nan_needs_a_value_witness :
  fill_nan (PyFrame gap_table) "x"
  = Ok {| index := [0; 1; 2];
          columns := [("x", [Num 1%Q; Num (3 # 2)%Q; Num 2%Q]);
                      ("y", [Num 5%Q; Num 6%Q; Num 7%Q])] |}.
Proof.
  exact (proj1 (proj2
    (proj2 (proj2
      (@fill_nan_needs_a_value Q Arith_Q gap_table "x"
         {| name := "x"; s_index := [0; 1; 2];
            values := [Num 1%Q; NaN; Num 2%Q] |} eq_refl))
      eq_refl (ex_intro _ 1%Q (or_introl eq_refl))))).
Defined.

(** ** The one-hot encoder *)

Lemma index_equals_refl (idx : list nat) : index_equals idx idx = true.
Proof.
  unfold index_equals. rewrite Nat.eqb_refl. simpl.
  induction idx as [|x idx IH]; simpl; [reflexivity|].
  now rewrite Nat.eqb_refl.
Qed.

Lemma length_string_append (a b : string) :
  String.length (a ++ b) = String.length a + String.length b.
Proof. induction a as [|c a IH]; simpl; [reflexivity | now rewrite IH]. Qed.

Lemma dummy_label_differs (category s : string) :
  String.eqb (category ++ "_" ++ s) category = false.
Proof.
  apply String.eqb_neq. intros H.
  apply (f_equal String.length) in H.
  rewrite !length_string_append in H. simpl in H. lia.
Qed.

Section OneHot.
Context {F : Type} {A : Arith F} {L : Levels F}.

Hypothesis feqb_refl : forall x : F, feqb x x = true.
Hypothesis feqb_sym : forall x y : F, feqb x y = feqb y x.
Hypothesis feqb_trans :
  forall x y z : F, feqb x y = true -> feqb y z = true -> feqb x z = true.

Lemma same_level_refl (v : cell F) : v <> NaN -> same_level v v = true.
Proof.
  destruct v as [|x|s]; simpl; intros H;
    [congruence | apply feqb_refl | apply String.eqb_refl].
Qed.

Lemma same_level_sym (v w : cell F) : same_level v w = same_level w v.
Proof.
  destruct v, w; simpl; auto using String.eqb_sym.
Qed.

Lemma same_level_trans (u v w : cell F) :
  same_level u v = true -> same_level v w = true -> same_level u w = true.
Proof.
  destruct u, v, w; simpl; try discriminate; [apply feqb_trans|].
  intros H1 H2. apply String.eqb_eq in H1, H2. subst. apply String.eqb_refl.
Qed.

Lemma same_level_NaN (w : cell F) : same_level NaN w = false.
Proof. reflexivity. Qed.

Lemma unique_In (vals : list (cell F)) (v : cell F) :
  In v (unique vals) -> In v vals.
Proof.
  induction vals as [|a vals IH]; simpl; [auto|].
  intros [H | H]; [now left|].
  apply filter_In in H. right. apply IH. tauto.
Qed.

(** A value that is present matches exactly one of the distinct values. *)
Lemma unique_matches_once (vals : list (cell F)) (v : cell F) :
  (exists w, In w vals /\ same_level v w = true) ->
  length (filter (same_level v) (unique vals)) = 1.
Proof.
  induction vals as [|a vals IH]; intros (w & Hw & Hvw).
  - destruct Hw.
  - simpl. destruct (same_level v a) eqn:Eva; simpl.
    + f_equal. apply length_zero_iff_nil.
      assert (G : forall l, filter (same_level v)
                    (filter (fun w => negb (same_level a w)) l) = []).
      { induction l as [|x l IHl]; simpl; [reflexivity|].
        destruct (same_level a x) eqn:Eax; simpl; [exact IHl|].
        destruct (same_level v x) eqn:Evx; [|exact IHl].
        rewrite same_level_sym in Eva.
        rewrite (same_level_trans _ _ _ Eva Evx) in Eax. discriminate. }
      apply G.
    + assert (G : forall l, filter (same_level v)
                    (filter (fun w => negb (same_level a w)) l)
                  = filter (same_level v) l).
      { induction l as [|x l IHl]; simpl; [reflexivity|].
        destruct (same_level a x) eqn:Eax; simpl.
        - destruct (same_level v x) eqn:Evx; [|exact IHl].
          rewrite same_level_sym in Eax.
          rewrite (same_level_trans _ _ _ Evx Eax) in Eva. discriminate.
        - now rewrite IHl. }
      rewrite G. apply IH. exists w. split; [|exact Hvw].
      destruct Hw as [<- | Hw]; [congruence | exact Hw].
Qed.

Hypothesis sort_levels_perm :
  forall l : list (cell F), Permutation (sort_levels l) l.

Lemma filter_length_perm {B : Type} (f : B -> bool) (l l' : list B) :
  Permutation l l' -> length (filter f l) = length (filter f l').
Proof.
  induction 1; simpl; auto.
  - destruct (f x); simpl; congruence.
  - destruct (f x), (f y); reflexivity.
  - congruence.
Qed.

Lemma levels_observed (vals : list (cell F)) (lv : cell F) :
  In lv (levels vals) -> In lv vals /\ lv <> NaN.
Proof.
  unfold levels. intros H.
  apply (Permutation_in _ (sort_levels_perm _)) in H.
  apply unique_In, filter_In in H. destruct H as [H1 H2].
  split; [exact H1|]. intros ->. discriminate.
Qed.

Lemma levels_match_once (vals : list (cell F)) (v : cell F) :
  In v vals -> v <> NaN ->
  length (filter (same_level v) (levels vals)) = 1.
Proof.
  intros Hin Hv. unfold levels.
  rewrite (filter_length_perm _ (sort_levels_perm _)).
  apply unique_matches_once. exists v. split.
  - apply filter_In. split; [exact Hin|]. now destruct v.
  - now apply same_level_refl.
Qed.

Hypothesis zero_plus_zero : fadd fzero fzero = fzero.
Hypothesis zero_plus_one : fadd fzero fone = fone.
Hypothesis one_plus_zero : fadd fone fzero = fone.

Lemma sum_indicators (v : cell F) (lvs : list (cell F)) :
  (length (filter (same_level v) lvs) = 0 ->
   sum_cells (map (fun lv => indicator lv v) lvs) = fzero)
  /\ (length (filter (same_level v) lvs) = 1 ->
      sum_cells (map (fun lv => indicator lv v) lvs) = fone).
Proof.
  unfold sum_cells.
  assert (G : forall lvs,
             (length (filter (same_level v) lvs) = 0 ->
              forall acc, acc = fzero \/ acc = fone ->
                fold_left (fun acc c => match c with
                                        | Num x => fadd acc x
                                        | _ => acc
                                        end)
                  (map (fun lv => indicator lv v) lvs) acc = acc)
             /\ (length (filter (same_level v) lvs) = 1 ->
                 fold_left (fun acc c => match c with
                                         | Num x => fadd acc x
                                         | _ => acc
                                         end)
                   (map (fun lv => indicator lv v) lvs) fzero = fone)).
  { clear lvs. induction lvs as [|lv lvs [IH0 IH1]]; simpl.
    - split; [reflexivity | discriminate].
    - destruct (same_level v lv) eqn:E; simpl.
      + assert (Hi : indicator lv v = Num fone)
          by (unfold indicator; now rewrite E).
        rewrite Hi. split; [discriminate|]. intros H. injection H as H.
        rewrite zero_plus_one. apply (IH0 H). now right.
      + assert (Hi : indicator lv v = Num fzero)
          by (unfold indicator; now rewrite E).
        rewrite Hi. split.
        * intros H acc [-> | ->];
            rewrite ?zero_plus_zero, ?one_plus_zero; apply (IH0 H); auto.
        * intros H. rewrite zero_plus_zero. now apply IH1. }
  destruct (G lvs) as [G0 G1]. split; [|exact G1].
  intros H. apply (G0 H). now left.
Qed.

Lemma row_of_dummies (col : Series F) (category : string) (i : nat)
    (v : cell F) :
  nth_error (values col) i = Some v ->
  row_of (columns (get_dummies col category)) i
  = map (fun lv => indicator lv v) (levels (values col)).
Proof.
  intros H. unfold row_of, get_dummies. simpl. rewrite map_map. simpl.
  apply map_ext. intros lv.
  rewrite (nth_indep _ NaN (indicator lv NaN)).
  - rewrite map_nth. f_equal. now apply nth_error_nth.
  - rewrite length_map. apply nth_error_Some. congruence.
Qed.

Lemma one_hot_encode_columns (dataframe : DataFrame F) (category : string)
    (col : Series F) :
  getitem dataframe category = Ok col ->
  one_hot_encode (PyFrame dataframe) category
  = Ok {| index := index dataframe;
          columns :=
            filter (fun c => negb (String.eqb (fst c) category))
                   (columns dataframe)
            ++ columns (get_dummies col category) |}.
Proof.
  intros Hg. unfold one_hot_encode. simpl. rewrite Hg. simpl.
  destruct (getitem_inv _ _ Hg) as (Hsel & _ & Hidx).
  unfold concat_axis1. simpl. rewrite Hidx, index_equals_refl. simpl.
  rewrite drop_ok.
  - simpl. f_equal. f_equal. rewrite filter_app. f_equal.
    + apply filter_ext. intros c. unfold mem_label. simpl.
      now rewrite orb_false_r.
    + rewrite <- (filter_ext_in (fun _ => true)).
      * clear. induction (map _ _); simpl; congruence.
      * intros c Hc. apply in_map_iff in Hc. destruct Hc as (lv & <- & _).
        unfold mem_label. simpl.
        pose proof (dummy_label_differs category (level_str col lv)) as D.
        simpl in D. now rewrite orb_false_r, D.
  - intros l [<- | []]. unfold labels. simpl. rewrite map_app.
    apply in_or_app. left.
    assert (Hin : In (category, values col)
                    (filter (fun c => String.eqb (fst c) category)
                       (columns dataframe))) by (rewrite Hsel; now left).
    apply filter_In in Hin. destruct Hin as [Hin _].
    apply in_map_iff. now exists (category, values col).
Qed.

(** C8, amended: when [category] names one column, the encoder returns the
    table without that column, followed by one indicator column per distinct
    value that is present in it (k columns for k observed categories, each
    labelled with the column name, an underscore and the category); in a
    row whose value is present exactly one indicator is 1 and the k values
    sum to 1, and in a row whose value is missing every indicator is 0. *)
Theorem one_hot_encode_indicator_columns :
  forall (dataframe : DataFrame F) (category : string) (col : Series F),
    getitem dataframe category = Ok col ->
    let vals := values col in
    let dummies := columns (get_dummies col category) in
    one_hot_encode (PyFrame dataframe) category
    = Ok {| index := index dataframe;
            columns :=
              filter (fun c => negb (String.eqb (fst c) category))
                     (columns dataframe)
              ++ dummies |}
    /\ length dummies = length (levels vals)
    /\ map fst dummies
       = map (fun lv => (category ++ "_" ++ level_str col lv)%string)
             (levels vals)
    /\ (forall lv, In lv (levels vals) -> In lv vals /\ lv <> NaN)
    /\ (forall v, In v vals -> v <> NaN ->
                  length (filter (same_level v) (levels vals)) = 1)
    /\ (forall i v,
          nth_error vals i = Some v ->
          row_of dummies i
          = map (fun lv => if same_level v lv then Num fone else Num fzero)
                (levels vals)
          /\ (v <> NaN -> sum_cells (row_of dummies i) = fone)
          /\ (v = NaN -> sum_cells (row_of dummies i) = fzero)).
Proof.
  intros dataframe category col Hg vals dummies.
  split; [now apply one_hot_encode_columns|].
  split; [unfold dummies, get_dummies; simpl; apply length_map|].
  split; [unfold dummies, get_dummies; simpl; now rewrite map_map|].
  split; [apply levels_observed|].
  split; [apply levels_match_once|].
  intros i v Hi. unfold dummies. rewrite (@row_of_dummies col category i v Hi).
  split; [reflexivity|]. split.
  - intros Hv. apply sum_indicators. apply levels_match_once; [|exact Hv].
    now apply nth_error_In with (n := i).
  - intros ->. apply sum_indicators.
    induction (levels (values col)) as [|lv lvs IH]; simpl; auto.
Qed.

End OneHot.

Lemma insert_sorted_perm {B : Type} (leb : B -> B -> bool) (v : B)
    (l : list B) :
  Permutation (insert_sorted leb v l) (v :: l).
Proof.
  induction l as [|w l IH]; simpl; [reflexivity|].
  destruct (leb v w); [reflexivity|].
  rewrite IH. apply perm_swap.
Qed.

Lemma sort_by_perm {B : Type} (leb : B -> B -> bool) (l : list B) :
  Permutation (sort_by leb l) l.
Proof.
  induction l as [|v l IH]; simpl; [reflexivity|].
  rewrite insert_sorted_perm. now constructor.
Qed.

(** The levels pandas sorts are the levels it found. *)
Lemma sorted_levels_perm (l : list (cell Q)) :
  Permutation (sort_levels (Levels := Levels_pandas) l) l.
Proof.
  unfold Levels_pandas, pandas_levels. cbn [sort_levels].
  unfold sorted_levels.
  destruct (forallb is_num l || forallb is_text l);
    [apply sort_by_perm | reflexivity].
Qed.

Lemma Qeq_bool_sym (x y : Q) : Qeq_bool x y = Qeq_bool y x.
Proof.
  destruct (Qeq_bool x y) eqn:E.
  - symmetry. apply Qeq_bool_iff. symmetry. now apply Qeq_bool_iff.
  - symmetry. apply not_true_is_false. intros H. apply Qeq_bool_iff in H.
    symmetry in H. apply Qeq_bool_iff in H. congruence.
Qed.

Lemma Qeq_bool_trans' (x y z : Q) :
  Qeq_bool x y = true -> Qeq_bool y z = true -> Qeq_bool x z = true.
Proof.
  rewrite !Qeq_bool_iff. intros H1 H2. now rewrite H1.
Qed.

(** C8, as stated, fails on a row whose category is missing:
    [get_dummies] leaves missing values out, so in [kind_table] the second
    row has 0 in both indicator columns. *)
Lemma missing_category_row_sums_to_zero :
  one_hot_encode (L := Levels_pandas) (PyFrame kind_table) "kind"
  = Ok {| index := [0; 1; 2];
          columns := [("y", [Num 5%Q; Num 6%Q; Num 7%Q]);
                      ("kind_a", [Num 1%Q; Num 0%Q; Num 0%Q]);
                      ("kind_b", [Num 0%Q; Num 0%Q; Num 1%Q])] |}
  /\ sum_cells (row_of [("kind_a", [Num 1%Q; Num 0%Q; Num 0%Q]);
                        ("kind_b", [Num 0%Q; Num 0%Q; Num 1%Q])] 1)
     = 0%Q.
Proof. split; reflexivity. Qed.

(** The column [kind] of [kind_table]: two levels, two indicator columns;
    the first row sums to 1. *)
Lemma one_hot_encode_indicator_columns_witness :
  one_hot_encode (L := Levels_pandas) (PyFrame kind_table) "kind"
  = Ok {| index := [0; 1; 2];
          columns := [("y", [Num 5%Q; Num 6%Q; Num 7%Q]);
                      ("kind_a", [Num 1%Q; Num 0%Q; Num 0%Q]);
                      ("kind_b", [Num 0%Q; Num 0%Q; Num 1%Q])] |}
  /\ sum_cells (row_of [("kind_a", [Num 1%Q; Num 0%Q; Num 0%Q]);
                        ("kind_b", [Num 0%Q; Num 0%Q; Num 1%Q])] 0)
     = 1%Q.
Proof.
  pose proof (@one_hot_encode_indicator_columns Q Arith_Q Levels_pandas
                Qeq_bool_refl Qeq_bool_sym Qeq_bool_trans'
                sorted_levels_perm eq_refl eq_refl eq_refl
                kind_table "kind"
                {| name := "kind"; s_index := [0; 1; 2];
                   values := [Str "a"; NaN; Str "b"] |} eq_refl) as H.
  cbv zeta in H. destruct H as (H1 & _ & _ & _ & _ & H2).
  split; [exact H1|].
  destruct (H2 0 (Str "a") eq_refl) as (_ & H3 & _).
  apply H3. discriminate.
Defined.

(** ** Normalize and reshape *)

(** Whatever the row labels of the identifiers, the row index of the
    result is the range of its length. *)
Lemma normalize_and_reshape_index {F : Type} {A : Arith F}
    (data out : DataFrame F) (labels_ : Series F) :
  normalize_and_reshape data labels_ = Ok out ->
  index out = seq 0 (nrows out).
Proof.
  unfold normalize_and_reshape.
  destruct (MinMaxScaler_fit_transform data) as [norm_df|]; [|discriminate].
  simpl. destruct (concat_axis1 _ _) as [d|]; [|discriminate].
  simpl. intros H. injection H as <-.
  unfold reset_index, nrows. simpl. now rewrite length_seq.
Qed.



(** Unfold the operations of [Arith_Q], and nothing else. *)
Ltac exact_ops :=
  cbn [fadd fsub fmul fdiv fone fzero feps feqb fleb Arith_Q].

Section Scaling.
Context {F : Type} {A : Arith F}.









End Scaling.

(** *** The arithmetic of binary64 *)



























(** ** The target vector *)

(** C1, at the failing input: [clean_raw_data] does not keep the value of
    [.fillna(...)], so the target vector is the raw [Bound Fraction] column.
    On [raw_example] the mean of the values present is 1/2, and the second
    entry of the target is still missing after the clean step, where the
    claim has it replaced by 1/2. *)
Theorem clean_raw_data_keeps_missing_target :
  (self <- set_raw_data no_files (PyFrame raw_example) init ;;
   self <- clean_raw_data (L := Levels_pandas) no_files self ;;
   get_target self)
  = Ok (PyArray [Num (1 # 4)%Q; NaN; Num (3 # 4)%Q])
  /\ (bound <- getitem raw_example "Bound Fraction" ;; series_mean bound)
     = Ok (Num (1 # 2)%Q).
Proof. split; vm_compute; reflexivity. Qed.

(** ** The train/test split *)


Section Split.
Context {F : Type}.



Lemma getitem_In_labels (df : DataFrame F) (label : string) (col : Series F) :
  getitem df label = Ok col -> In label (labels df).
Proof.
  intros H. apply getitem_inv in H. destruct H as (H & _).
  assert (Hin : In (label, values col)
                  (filter (fun c => String.eqb (fst c) label) (columns df)))
    by (rewrite H; now left).
  apply filter_In in Hin. destruct Hin as [Hin _].
  unfold labels. apply in_map_iff. now exists (label, values col).
Qed.

Lemma drop_one (df : DataFrame F) (label : string) :
  In label (labels df) -> drop df [label] = Ok (without label df).
Proof.
  intros H. rewrite drop_ok by (intros l [<- | []]; exact H).
  unfold without. f_equal. f_equal. apply filter_ext. intros c.
  unfold mem_label. simpl. now rewrite orb_false_r.
Qed.


Lemma without_absent (label : string) (df : DataFrame F) :
  ~ In label (labels (without label df)).
Proof.
  unfold labels, without. simpl. intros H. apply in_map_iff in H.
  destruct H as (c & <- & Hc). apply filter_In in Hc. destruct Hc as [_ Hc].
  now rewrite String.eqb_refl in Hc.
Qed.


(** *** The folds *)






End Split.

Section SplitRun.
Context {F : Type}.
Variable fs : filesystem F.


Lemma after_fold_twice (c : DataFrame F) (t : list (cell F))
    (f1 f2 : list nat * list nat) (self : data_base F) :
  after_fold c t f2 (after_fold c t f1 self) = after_fold c t f2 self.
Proof. reflexivity. Qed.


End SplitRun.




(** ** The cleaning pipeline *)

Section Select.
Context {F : Type}.

Lemma getitem_of_select (df : DataFrame F) (l : string)
    (vals : list (cell F)) :
  select l df = [(l, vals)] ->
  getitem df l = Ok {| name := l; s_index := index df; values := vals |}.
Proof. unfold select, getitem. intros ->. reflexivity. Qed.

Lemma select_In (df : DataFrame F) (l : string) (col : string * list (cell F)) :
  In col (select l df) <-> In col (columns df) /\ fst col = l.
Proof.
  unfold select. rewrite filter_In.
  split; intros [H1 H2]; split; auto; now apply String.eqb_eq.
Qed.

Lemma select_unique (df : DataFrame F) (l : string) :
  NoDup (labels df) -> In l (labels df) ->
  exists vals, select l df = [(l, vals)].
Proof.
  unfold labels, select. induction (columns df) as [|[l' vs] cs IH]; simpl.
  - intros _ [].
  - intros Hnd Hin. inversion Hnd as [|? ? Hnotin Hnd']; subst.
    destruct (String.eqb l' l) eqn:E.
    + apply String.eqb_eq in E. subst l'. exists vs. f_equal.
      assert (G : forall cs', ~ In l (map fst cs') ->
                  filter (fun c : string * list (cell F) =>
                            String.eqb (fst c) l) cs' = []).
      { induction cs' as [|[a b] cs' IH']; simpl; [reflexivity|].
        intros H. destruct (String.eqb a l) eqn:Ea.
        - apply String.eqb_eq in Ea. elim H. now left.
        - apply IH'. tauto. }
      now apply G.
    + apply String.eqb_neq in E. destruct Hin as [Hin | Hin]; [congruence|].
      now apply IH.
Qed.

Lemma select_filter_other (l other : string)
    (cols : list (string * list (cell F))) :
  l <> other ->
  filter (fun c => String.eqb (fst c) l)
    (filter (fun c => negb (String.eqb (fst c) other)) cols)
  = filter (fun c => String.eqb (fst c) l) cols.
Proof.
  intros Hne. induction cols as [|[a b] cols IH]; simpl; [reflexivity|].
  destruct (String.eqb a other) eqn:E1; simpl.
  - destruct (String.eqb a l) eqn:E2; [|exact IH].
    apply String.eqb_eq in E1, E2. congruence.
  - now rewrite IH.
Qed.

Lemma select_without_other (l other : string) (df : DataFrame F) :
  l <> other -> select l (without other df) = select l df.
Proof.
  intros H. unfold select, without. simpl. now apply select_filter_other.
Qed.

Lemma well_formed_without (l : string) (df : DataFrame F) :
  well_formed df -> well_formed (without l df).
Proof.
  unfold well_formed, without, nrows. simpl. intros H.
  apply Forall_forall. intros c Hc. apply filter_In in Hc.
  rewrite Forall_forall in H. apply H. tauto.
Qed.

End Select.

Lemma prefix_append (p s : string) : String.prefix p (p ++ s) = true.
Proof.
  induction p as [|a p IH]; simpl; [now destruct s|].
  destruct (Ascii.ascii_dec a a); [exact IH | congruence].
Qed.

Lemma prefix_append2 (p q s : string) :
  String.prefix (p ++ q) (p ++ (q ++ s)) = true.
Proof.
  induction p as [|a p IH]; simpl; [apply prefix_append|].
  destruct (Ascii.ascii_dec a a); [exact IH | congruence].
Qed.

Section Encode.
Context {F : Type} {A : Arith F} {L : Levels F}.

Lemma one_hot_encode_encoded (c : DataFrame F) (category : string)
    (vals : list (cell F)) :
  select category c = [(category, vals)] ->
  one_hot_encode (PyFrame c) category = Ok (encoded c category vals).
Proof.
  intros H. apply getitem_of_select in H.
  now rewrite one_hot_encode_columns
    with (col := {| name := category; s_index := index c; values := vals |}).
Qed.

Lemma select_dummies (l category : string) (col : Series F) :
  String.prefix (category ++ "_") l = false ->
  filter (fun c => String.eqb (fst c) l) (columns (get_dummies col category))
  = [].
Proof.
  intros H. unfold get_dummies. simpl.
  induction (levels (values col)) as [|lv lvs IH]; simpl; [reflexivity|].
  destruct (String.eqb (category ++ String "_" (level_str col lv)) l) eqn:E;
    [|exact IH].
  apply String.eqb_eq in E. subst l.
  pose proof (prefix_append2 category "_" (level_str col lv)) as P.
  simpl in P. simpl in H. congruence.
Qed.

Lemma select_encoded_other (l category : string) (c : DataFrame F)
    (vals : list (cell F)) :
  l <> category ->
  String.prefix (category ++ "_") l = false ->
  select l (encoded c category vals) = select l c.
Proof.
  intros Hne Hp. unfold select, encoded. cbn [columns].
  rewrite filter_app, select_filter_other by exact Hne.
  rewrite select_dummies by exact Hp. apply app_nil_r.
Qed.

Lemma well_formed_encoded (c : DataFrame F) (category : string)
    (vals : list (cell F)) :
  well_formed c -> length vals = nrows c ->
  well_formed (encoded c category vals).
Proof.
  unfold well_formed, encoded, nrows. simpl. intros H Hlen.
  apply Forall_app. split.
  - apply Forall_forall. intros col Hc. apply filter_In in Hc.
    rewrite Forall_forall in H. apply H. tauto.
  - apply Forall_forall. intros col Hc. apply in_map_iff in Hc.
    destruct Hc as (lv & <- & _). simpl. now rewrite length_map.
Qed.

Lemma dummies_numeric (col : Series F) (category : string)
    (d : string * list (cell F)) :
  In d (columns (get_dummies col category)) -> has_text (snd d) = false.
Proof.
  unfold get_dummies. simpl. intros H. apply in_map_iff in H.
  destruct H as (lv & <- & _). simpl.
  induction (values col) as [|v vs IH]; simpl; [reflexivity|].
  unfold indicator at 1. destruct (same_level v lv); simpl; exact IH.
Qed.

End Encode.

Section Loops.
Context {F : Type} {A : Arith F} {L : Levels F}.
Variable fs : filesystem F.

Lemma encode_loop (cats : list string) :
  forall (c : DataFrame F) (self : data_base F),
    _clean_X_data self = PyFrame c ->
    NoDup cats ->
    (forall cat, In cat cats -> exists vals, select cat c = [(cat, vals)]) ->
    (forall cat cat', In cat cats -> In cat' cats -> cat' <> cat ->
                      String.prefix (cat ++ "_") cat' = false) ->
    exists c',
      for_each cats (encode_category fs) self
      = Ok (with_clean_X_data (PyFrame c') self)
      /\ index c' = index c
      /\ (well_formed c -> well_formed c')
      /\ (forall l, ~ In l cats ->
                    (forall cat, In cat cats ->
                                 String.prefix (cat ++ "_") l = false) ->
                    select l c' = select l c)
      /\ (forall col, In col (columns c') ->
                      (In col (columns c) /\ ~ In (fst col) cats)
                      \/ has_text (snd col) = false).
Proof.
  induction cats as [|cat cats IH]; intros c self Hc Hnd Hsel Hpre.
  - exists c. simpl. split; [|repeat split; auto].
    destruct self. simpl in Hc. subst. reflexivity.
  - inversion Hnd as [|? ? Hnotin Hnd']; subst.
    destruct (Hsel cat (or_introl eq_refl)) as (vals & Hv).
    assert (Hstep : encode_category fs cat self
                    = Ok (with_clean_X_data (PyFrame (encoded c cat vals))
                            self)).
    { unfold encode_category, get_clean_X_data. rewrite Hc. cbn [is_None bind].
      rewrite one_hot_encode_encoded with (vals := vals) by exact Hv.
      reflexivity. }
    destruct (IH (encoded c cat vals)
                (with_clean_X_data (PyFrame (encoded c cat vals)) self))
      as (c' & Hrun & Hidx & Hwf & Hkeep & Hcols).
    + reflexivity.
    + exact Hnd'.
    + intros cat' Hin. destruct (Hsel cat' (or_intror Hin)) as (vals' & Hv').
      exists vals'. rewrite select_encoded_other; [exact Hv'| |].
      * intros ->. contradiction.
      * apply Hpre; [now left | now right | intros ->; contradiction].
    + intros a b Ha Hb Hne. apply Hpre; [now right | now right | exact Hne].
    + exists c'. cbn [for_each]. rewrite Hstep. cbn [bind]. rewrite Hrun.
      split; [reflexivity|]. split; [exact Hidx|]. split; [|split].
      * intros Hw. apply Hwf. apply well_formed_encoded; [exact Hw|].
        assert (Hin : In (cat, vals) (select cat c)) by (rewrite Hv; now left).
        apply select_In in Hin. destruct Hin as [Hin _].
        unfold well_formed in Hw. rewrite Forall_forall in Hw.
        apply (Hw _ Hin).
      * intros l Hl Hp. rewrite Hkeep.
        -- apply select_encoded_other.
           ++ intros ->. apply Hl. now left.
           ++ apply Hp. now left.
        -- intros Hin. apply Hl. now right.
        -- intros cat' Hin. apply Hp. now right.
      * intros col Hin. destruct (Hcols col Hin) as [[H1 H2] | H1];
          [|now right].
        unfold encoded in H1. cbn [columns] in H1.
        apply in_app_iff in H1. destruct H1 as [H1 | H1].
        -- apply filter_In in H1. destruct H1 as [H1 H3]. left.
           split; [exact H1|]. intros [E | E]; [|contradiction].
           rewrite E, String.eqb_refl in H3. discriminate.
        -- right. eapply dummies_numeric. exact H1.
Qed.

Lemma drop_loop (ls : list string) :
  forall (c : DataFrame F) (self : data_base F),
    _clean_X_data self = PyFrame c ->
    NoDup ls ->
    (forall l, In l ls -> In l (labels c)) ->
    exists c',
      for_each ls (drop_column fs) self
      = Ok (with_clean_X_data (PyFrame c') self)
      /\ index c' = index c
      /\ (well_formed c -> well_formed c')
      /\ (forall l, ~ In l ls -> select l c' = select l c)
      /\ (forall col, In col (columns c') ->
                      In col (columns c) /\ ~ In (fst col) ls).
Proof.
  induction ls as [|l ls IH]; intros c self Hc Hnd Hin.
  - exists c. simpl. split; [|repeat split; auto].
    destruct self. simpl in Hc. subst. reflexivity.
  - inversion Hnd as [|? ? Hnotin Hnd']; subst.
    assert (Hstep : drop_column fs l self
                    = Ok (with_clean_X_data (PyFrame (without l c)) self)).
    { unfold drop_column, get_clean_X_data. rewrite Hc.
      cbn [is_None bind as_frame].
      rewrite drop_one by (apply Hin; now left). reflexivity. }
    destruct (IH (without l c) (with_clean_X_data (PyFrame (without l c)) self))
      as (c' & Hrun & Hidx & Hwf & Hkeep & Hcols).
    + reflexivity.
    + exact Hnd'.
    + intros l' Hl'. specialize (Hin l' (or_intror Hl')).
      unfold labels in *. apply in_map_iff in Hin.
      destruct Hin as (col & <- & Hcol). apply in_map_iff. exists col.
      split; [reflexivity|]. unfold without. cbn [columns].
      apply filter_In. split; [exact Hcol|].
      apply negb_true_iff, String.eqb_neq. intros E. apply Hnotin.
      now rewrite <- E.
    + exists c'. cbn [for_each]. rewrite Hstep. cbn [bind]. rewrite Hrun.
      split; [reflexivity|]. split; [exact Hidx|]. split; [|split].
      * intros Hw. now apply Hwf, well_formed_without.
      * intros l' Hl'. rewrite Hkeep by (intros H; apply Hl'; now right).
        apply select_without_other. intros ->. apply Hl'. now left.
      * intros col Hcol. destruct (Hcols col Hcol) as [H1 H2].
        unfold without in H1. cbn [columns] in H1.
        apply filter_In in H1. destruct H1 as [H1 H3]. split; [exact H1|].
        intros [E | E]; [|contradiction].
        rewrite E, String.eqb_refl in H3. discriminate.
Qed.

End Loops.

Lemma categorical_data_NoDup : NoDup categorical_data.
Proof.
  unfold categorical_data.
  repeat (constructor; [simpl; intuition discriminate|]). constructor.
Qed.

Lemma columns_to_drop_NoDup : NoDup columns_to_drop.
Proof.
  unfold columns_to_drop.
  repeat (constructor; [simpl; intuition discriminate|]). constructor.
Qed.

(** No label the pipeline looks up can be the label of an indicator
    column. *)
Lemma no_dummy_clash (cat l : string) :
  In cat categorical_data -> In l required_labels -> l <> cat ->
  String.prefix (cat ++ "_") l = false.
Proof.
  assert (H : forallb (fun cat =>
                forallb (fun l => String.eqb l cat
                                  || negb (String.prefix (cat ++ "_") l))
                        required_labels) categorical_data = true)
    by (vm_compute; reflexivity).
  intros Hc Hl Hne. rewrite forallb_forall in H. specialize (H cat Hc).
  rewrite forallb_forall in H. specialize (H l Hl).
  apply orb_true_iff in H. destruct H as [H | H].
  - apply String.eqb_eq in H. contradiction.
  - now apply negb_true_iff in H.
Qed.

Lemma required_not_categorical (l : string) :
  In l (columns_to_drop ++ ["Protein Abundance"]) ->
  ~ In l categorical_data.
Proof.
  unfold columns_to_drop, categorical_data. simpl.
  intuition (subst; discriminate).
Qed.


Section Stages.
Context {F : Type} {A : Arith F} {L : Levels F}.






End Stages.

Section Pipeline.
Context {F : Type} {A : Arith F} {L : Levels F}.
Variable fs : filesystem F.



End Pipeline.




(** ** The column mask applier: every input of a call *)

Lemma false_positions_reconcile {F : Type} (m : list string)
    (d : DataFrame F) :
  false_positions (reconcile m d) = false_positions m.
Proof.
  unfold reconcile.
  destruct (length m =? length (labels d)); [reflexivity|].
  apply false_positions_remove_extra.
Qed.

Lemma remove_extra_entries_idem (m : list string) :
  remove_extra_entries (remove_extra_entries m) = remove_extra_entries m.
Proof.
  destruct (remove_extra_entries_tail m) as (tail & _ & _ & [H | H]).
  - rewrite H. reflexivity.
  - destruct H as (p & x & -> & Hx).
    now rewrite remove_extra_entries_snoc, Hx.
Qed.

Lemma reconcile_tail {F : Type} (m : list string) (d : DataFrame F) :
  exists tail, m = reconcile m d ++ tail.
Proof.
  unfold reconcile. destruct (length m =? length (labels d)).
  - exists []. now rewrite app_nil_r.
  - destruct (remove_extra_entries_tail m) as (tail & H & _).
    now exists tail.
Qed.

Lemma mask_at_tail {F : Type} (args : list (DataFrame F)) :
  forall (tokens : list string) (k : nat),
    exists tail, tokens = mask_at tokens args k ++ tail.
Proof.
  induction args as [|d rest IH]; intros tokens k.
  - exists []. simpl. now rewrite app_nil_r.
  - destruct (reconcile_tail tokens d) as (t1 & H1).
    destruct k as [|k]; simpl; [now exists t1|].
    destruct (IH (reconcile tokens d) k) as (t2 & H2).
    exists (t2 ++ t1). rewrite app_assoc, <- H2. exact H1.
Qed.

Lemma mask_at_cases {F : Type} (args : list (DataFrame F)) :
  forall (tokens : list string) (k : nat),
    mask_at tokens args k = tokens
    \/ mask_at tokens args k = remove_extra_entries tokens.
Proof.
  assert (R : forall m (d : DataFrame F),
             reconcile m d = m \/ reconcile m d = remove_extra_entries m).
  { intros m d. unfold reconcile.
    destruct (length m =? length (labels d)); auto. }
  induction args as [|d rest IH]; intros tokens k; [now left|].
  destruct k as [|k]; simpl; [apply R|].
  destruct (IH (reconcile tokens d) k) as [H | H]; rewrite H.
  - apply R.
  - destruct (R tokens d) as [H' | H']; rewrite H'; [now right|].
    right. apply remove_extra_entries_idem.
Qed.

(** The mask of a call is stripped at most once: stripping is idempotent,
    so the mask in force at any input is the mask of the file or that mask
    stripped, and what it lacks of the mask of the file are trailing tokens
    that are not boolean. *)
Lemma mask_stripped_at_most_once :
  forall (F : Type) (tokens : list string) (args : list (DataFrame F))
         (k : nat),
    remove_extra_entries (remove_extra_entries tokens)
    = remove_extra_entries tokens
    /\ (mask_at tokens args k = tokens
        \/ mask_at tokens args k = remove_extra_entries tokens)
    /\ exists tail,
         tokens = mask_at tokens args k ++ tail
         /\ Forall (fun t => is_boolean_token t = false) tail.
Proof.
  intros F tokens args k. split; [apply remove_extra_entries_idem|].
  split; [apply mask_at_cases|].
  destruct (mask_at_cases args tokens k) as [H | H]; rewrite H.
  - exists []. rewrite app_nil_r. auto.
  - destruct (remove_extra_entries_tail tokens) as (tail & H1 & H2 & _).
    exists tail. auto.
Qed.

Lemma combine_app_left {A B : Type} (xs tail : list A) (ys : list B) :
  length xs = length ys -> combine (xs ++ tail) ys = combine xs ys.
Proof.
  revert ys. induction xs as [|x xs IH]; intros [|y ys] H; simpl in *;
    try discriminate; try reflexivity.
  - now destruct tail.
  - f_equal. apply IH. lia.
Qed.

Lemma filter_combine_pointwise {A B : Type} (f : B -> bool) (g : A -> bool)
    (xs : list A) (ys : list B) :
  length xs = length ys ->
  (forall i x y, nth_error xs i = Some x -> nth_error ys i = Some y ->
                 f y = g x) ->
  filter f ys = map snd (filter (fun p => g (fst p)) (combine xs ys)).
Proof.
  revert ys. induction xs as [|x xs IH]; intros [|y ys] Hlen H;
    simpl in *; try discriminate; [reflexivity|].
  rewrite (H 0 x y eq_refl eq_refl).
  rewrite (IH ys) by (try lia; intros i a b; apply (H (S i))).
  now destruct (g x).
Qed.

Lemma mem_label_same (l : string) (ls ls' : list string) :
  (forall x, In x ls <-> In x ls') -> mem_label l ls = mem_label l ls'.
Proof.
  intros H. destruct (mem_label l ls') eqn:E.
  - apply mem_label_In. apply H. now apply mem_label_In.
  - apply mem_label_false. intros Hin. apply H in Hin.
    now apply mem_label_false in E.
Qed.

Section MaskRun.
Context {F : Type}.

(** What the labels at the ['False'] positions of a mask leave of a
    table. *)
Lemma drop_false_labels (d : DataFrame F) (mask : list string)
    (idxs : list nat) :
  NoDup (labels d) ->
  length mask = ncols d ->
  (forall i, In i idxs <-> In i (false_positions mask)) ->
  filter (fun c => negb (mem_label (fst c)
                           (map (fun i => nth i (labels d) "") idxs)))
         (columns d)
  = columns (keep_columns mask d).
Proof.
  intros Hnd Hlen Hidx. unfold keep_columns. cbn [columns].
  apply (@filter_combine_pointwise _ _ _
           (fun t => negb (is_false_token t))); [exact Hlen|].
  intros i t c Ht Hc. f_equal.
  assert (Hl : nth_error (labels d) i = Some (fst c)).
  { unfold labels. rewrite nth_error_map, Hc. reflexivity. }
  assert (Hi : i < length (labels d))
    by (apply nth_error_Some; congruence).
  destruct (is_false_token t) eqn:E.
  - apply mem_label_In, in_map_iff. exists i. split.
    + apply nth_error_nth with (d := "") in Hl. exact Hl.
    + apply Hidx, in_false_positions. exists t. auto.
  - apply mem_label_false. intros Hin. apply in_map_iff in Hin.
    destruct Hin as (j & Hj & Hin). apply Hidx in Hin.
    assert (Hjr : j < length (labels d)).
    { apply false_positions_in_range in Hin. rewrite ncols_labels. lia. }
    assert (i = j).
    { apply (proj1 (NoDup_nth_error (labels d)) Hnd); [exact Hi|].
      rewrite Hl. rewrite (nth_error_nth' _ "" Hjr). now rewrite Hj. }
    subst j. apply in_false_positions in Hin.
    destruct Hin as (t' & Ht' & Hf). congruence.
Qed.

(** The loop returns when every input has as many columns as the mask in
    force at it has tokens; each output is its input without the columns
    labelled like those at the ['False'] positions of the mask. *)
Lemma apply_mask_loop_ok (args : list (DataFrame F)) :
  forall st : @mask_state F,
    (forall i, In i (column_indexes st)
               -> In i (false_positions (column_mask st))) ->
    (forall k dk, nth_error args k = Some dk ->
                  length (mask_at (column_mask st) args k) = ncols dk) ->
    exists st' outs,
      apply_mask_loop st args = Ok st'
      /\ updated_args st' = updated_args st ++ outs
      /\ length outs = length args
      /\ forall k dk,
           nth_error args k = Some dk ->
           exists ok,
             nth_error outs k = Some ok
             /\ index ok = index dk
             /\ columns ok
                = filter
                    (fun c =>
                       negb (mem_label (fst c)
                               (map (fun i => nth i (labels dk) "")
                                    (false_positions (column_mask st)))))
                    (columns dk).
Proof.
  induction args as [|d rest IH]; intros st Hinv Hfit.
  - exists st, []. simpl. rewrite app_nil_r. repeat split.
    intros [|k] dk H; discriminate.
  - pose proof (Hfit 0 d eq_refl) as H0. cbn [mask_at] in H0.
    rewrite <- ncols_labels in H0.
    assert (Hr : forall i, In i (column_indexes st)
                           -> i < length (labels d)).
    { intros i Hi. apply Hinv in Hi.
      rewrite <- (false_positions_reconcile _ d) in Hi.
      apply false_positions_in_range in Hi. lia. }
    pose proof (apply_mask_step_ok st d H0 Hr) as Hstep.
    set (st1 := {| column_mask := reconcile (column_mask st) d;
                   column_indexes := _; updated_args := _ |}) in Hstep.
    destruct (IH st1) as (st' & outs & Hrun & Hout & Hlen & Hk).
    + unfold st1. cbn [column_indexes column_mask]. intros i Hi.
      apply in_app_iff in Hi. destruct Hi as [Hi | Hi]; [|exact Hi].
      rewrite false_positions_reconcile. auto.
    + intros k dk Hk. apply (Hfit (S k) dk Hk).
    + exists st'. eexists. cbn [apply_mask_loop]. rewrite Hstep.
      cbn [bind]. split; [exact Hrun|]. split.
      { rewrite Hout. unfold st1. cbn [updated_args].
        rewrite <- app_assoc. reflexivity. }
      split; [simpl; now rewrite Hlen|].
      intros [|k] dk Hdk; simpl in Hdk.
      * injection Hdk as <-. eexists. split; [reflexivity|].
        split; [reflexivity|]. cbn [columns].
        apply filter_ext. intros c. f_equal. apply mem_label_same.
        intros x. rewrite !in_map_iff.
        split; intros (i & <- & Hi); exists i; split; auto.
        -- apply in_app_iff in Hi. destruct Hi as [Hi | Hi]; auto.
           now rewrite false_positions_reconcile in Hi.
        -- apply in_app_iff. right.
           now rewrite false_positions_reconcile.
      * destruct (Hk k dk Hdk) as (ok & H1 & H2 & H3).
        exists ok. split; [exact H1|]. split; [exact H2|].
        rewrite H3. unfold st1. cbn [column_mask].
        now rewrite false_positions_reconcile.
Qed.

Lemma apply_mask_loop_fits (args : list (DataFrame F)) :
  forall st st' : @mask_state F,
    apply_mask_loop st args = Ok st' ->
    forall k dk, nth_error args k = Some dk ->
                 length (mask_at (column_mask st) args k) = ncols dk.
Proof.
  induction args as [|d rest IH]; intros st st' H k dk Hk.
  - destruct k; discriminate.
  - cbn [apply_mask_loop] in H.
    destruct (apply_mask_step st d) as [st1|] eqn:E; [|discriminate].
    cbn [bind] in H. apply apply_mask_step_inv in E.
    destruct E as (Hm & Hlen & _).
    destruct k as [|k]; simpl in Hk |- *.
    + injection Hk as <-. rewrite <- Hm, Hlen. apply ncols_labels.
    + rewrite <- Hm. apply (IH st1 st' H k dk Hk).
Qed.

(** The loop raises only the length mismatch, at the first input that
    does not fit. *)
Lemma apply_mask_loop_raises (args : list (DataFrame F)) :
  forall (st : @mask_state F) (e : exn),
    (forall i, In i (column_indexes st)
               -> In i (false_positions (column_mask st))) ->
    apply_mask_loop st args = Raise e ->
    exists k dk,
      nth_error args k = Some dk
      /\ length (mask_at (column_mask st) args k) <> ncols dk
      /\ (forall j dj, j < k -> nth_error args j = Some dj ->
                       length (mask_at (column_mask st) args j) = ncols dj)
      /\ e = AssertionError
               (mismatch_message
                  (length (mask_at (column_mask st) args k)) (ncols dk)).
Proof.
  induction args as [|d rest IH]; intros st e Hinv H; [discriminate|].
  destruct (Nat.eq_dec (length (reconcile (column_mask st) d))
              (length (labels d))) as [Hfit | Hfit].
  - assert (Hr : forall i, In i (column_indexes st)
                           -> i < length (labels d)).
    { intros i Hi. apply Hinv in Hi.
      rewrite <- (false_positions_reconcile _ d) in Hi.
      apply false_positions_in_range in Hi. lia. }
    cbn [apply_mask_loop] in H.
    rewrite (apply_mask_step_ok st d Hfit Hr) in H. cbn [bind] in H.
    apply IH in H.
    + cbn [column_mask] in H.
      destruct H as (k & dk & H1 & H2 & H3 & H4).
      exists (S k), dk. cbn [mask_at nth_error].
      repeat split; auto.
      intros [|j] dj Hj Hdj; simpl in Hdj.
      * injection Hdj as <-. cbn [mask_at]. rewrite Hfit.
        apply ncols_labels.
      * apply (H3 j dj); [lia | exact Hdj].
    + cbn [column_indexes column_mask]. intros i Hi.
      apply in_app_iff in Hi. destruct Hi as [Hi | Hi]; [|exact Hi].
      rewrite false_positions_reconcile. auto.
  - exists 0, d. cbn [mask_at nth_error].
    rewrite <- ncols_labels.
    split; [reflexivity|]. split; [exact Hfit|].
    split; [intros j dj Hj; lia|].
    cbn [apply_mask_loop] in H.
    assert (H1 : length (column_mask st) <> length (labels d)).
    { intros E. apply Hfit. unfold reconcile.
      apply Nat.eqb_eq in E. now rewrite E, (proj1 (Nat.eqb_eq _ _) E). }
    assert (H2 : reconcile (column_mask st) d
                 = remove_extra_entries (column_mask st)).
    { unfold reconcile. apply Nat.eqb_neq in H1. now rewrite H1. }
    rewrite H2 in Hfit |- *.
    rewrite (apply_mask_step_mismatch st d H1 Hfit) in H. cbn [bind] in H.
    congruence.
Qed.

End MaskRun.

(** The loop of [apply_RFECV_mask] returns exactly when every input has as
    many columns as the mask in force at it has tokens; when it raises, it
    raises the length mismatch of the first input that does not fit, and
    never an [IndexError] or a [KeyError] from the positions it collected
    at earlier inputs. *)
Theorem apply_mask_fails_only_on_length :
  forall (F : Type) (tokens : list string) (args : list (DataFrame F)),
    ((exists st, apply_mask_tokens tokens args = Ok st)
     <-> (forall k dk, nth_error args k = Some dk ->
                       length (mask_at tokens args k) = ncols dk))
    /\ forall e,
         apply_mask_tokens tokens args = Raise e ->
         exists k dk,
           nth_error args k = Some dk
           /\ length (mask_at tokens args k) <> ncols dk
           /\ (forall j dj, j < k -> nth_error args j = Some dj ->
                            length (mask_at tokens args j) = ncols dj)
           /\ e = AssertionError
                    (mismatch_message (length (mask_at tokens args k))
                       (ncols dk)).
Proof.
  intros F tokens args. unfold apply_mask_tokens. split; [split|].
  - intros (st & H). apply (apply_mask_loop_fits _ _ H).
  - intros H.
    destruct (@apply_mask_loop_ok F args
                {| column_mask := tokens; column_indexes := [];
                   updated_args := [] |})
      as (st' & outs & Hrun & _); [intros i [] | exact H |].
    now exists st'.
  - intros e H.
    apply (@apply_mask_loop_raises F args
             {| column_mask := tokens; column_indexes := [];
                updated_args := [] |} e); [intros i [] | exact H].
Qed.

Lemma filter_all {A : Type} (f : A -> bool) (l : list A) :
  (forall x, In x l -> f x = true) -> filter f l = l.
Proof.
  induction l as [|x l IH]; intros H; simpl; [reflexivity|].
  rewrite (H x (or_introl eq_refl)). f_equal. apply IH.
  intros y Hy. apply H. now right.
Qed.

(** Every output of a call is its input with the same rows and a
    selection of its columns; for an input whose labels are pairwise
    distinct it is the input without the columns at the positions of the
    ['False'] tokens of the mask file, whatever came before it in the
    call; and a mask without ['False'] tokens returns every input as it
    is. *)
Theorem mask_applied_to_each_input :
  forall (F : Type) (tokens : list string) (args : list (DataFrame F))
         (st : @mask_state F),
    apply_mask_tokens tokens args = Ok st ->
    length (updated_args st) = length args
    /\ forall k dk,
         nth_error args k = Some dk ->
         exists ok,
           nth_error (updated_args st) k = Some ok
           /\ index ok = index dk
           /\ (forall c, In c (columns ok) -> In c (columns dk))
           /\ (NoDup (labels dk) -> ok = keep_columns tokens dk)
           /\ ((forall t, In t tokens -> is_false_token t = false) ->
               ok = dk).
Proof.
  intros F tokens args st H. unfold apply_mask_tokens in H.
  pose proof (apply_mask_loop_fits _ _ H) as Hfit.
  destruct (@apply_mask_loop_ok F args
              {| column_mask := tokens; column_indexes := [];
                 updated_args := [] |})
    as (st' & outs & Hrun & Hout & Hlen & Hk); [intros i [] | exact Hfit |].
  rewrite Hrun in H. injection H as ->. cbn [updated_args app] in Hout.
  cbn [column_mask] in *. rewrite Hout. split; [exact Hlen|].
  intros k dk Hdk. destruct (Hk k dk Hdk) as (ok & H1 & H2 & H3).
  exists ok. split; [exact H1|]. split; [exact H2|]. split; [|split].
  - intros c Hc. rewrite H3 in Hc. now apply filter_In in Hc.
  - intros Hnd.
    assert (E : columns ok = columns (keep_columns tokens dk)).
    { rewrite H3.
      rewrite drop_false_labels with (mask := mask_at tokens args k);
        [|exact Hnd | exact (Hfit k dk Hdk) |].
      - unfold keep_columns. cbn [columns].
        destruct (mask_at_tail args tokens k) as (tail & Ht).
        rewrite Ht at 2. rewrite combine_app_left; [reflexivity|].
        exact (Hfit k dk Hdk).
      - intros i. destruct (mask_at_cases args tokens k) as [E | E];
          rewrite E; [tauto|].
        now rewrite false_positions_remove_extra. }
    destruct ok as [oi oc]. unfold keep_columns in *. cbn [index columns] in *.
    now rewrite H2, E.
  - intros Hnone.
    assert (E : false_positions tokens = []).
    { destruct (false_positions tokens) as [|i l] eqn:E; [reflexivity|].
      assert (Hi : In i (false_positions tokens)) by (rewrite E; now left).
      apply in_false_positions in Hi. destruct Hi as (col & Hc & Hf).
      apply nth_error_In in Hc. rewrite (Hnone col Hc) in Hf.
      discriminate. }
    rewrite E in H3. cbn [map] in H3.
    rewrite filter_all in H3 by reflexivity.
    destruct ok as [oi oc], dk as [di dc]. cbn [index columns] in *.
    now subst.
Qed.

(** The mask [True, False, True] on two tables of three columns: the second
    output is the second table without its middle column. *)
Lemma mask_applied_to_each_input_witness :
  exists ok,
    nth_error [two_rows ["a"; "c"]; two_rows ["d"; "f"]] 1 = Some ok
    /\ ok = keep_columns ["True"; " False"; " True"]
              (two_rows ["d"; "e"; "f"]).
Proof.
  assert (H : apply_mask_tokens ["True"; " False"; " True"]
                [two_rows ["a"; "b"; "c"]; two_rows ["d"; "e"; "f"]]
              = Ok {| column_mask := ["True"; " False"; " True"];
                      column_indexes := [1; 1];
                      updated_args := [two_rows ["a"; "c"];
                                       two_rows ["d"; "f"]] |})
    by (vm_compute; reflexivity).
  destruct (proj2 (mask_applied_to_each_input _ _ H) 1
              (two_rows ["d"; "e"; "f"]) eq_refl)
    as (ok & H1 & _ & _ & H2 & _).
  exists ok. split; [exact H1|]. apply H2.
  unfold two_rows, labels. simpl.
  repeat (constructor; [simpl; intuition discriminate|]). constructor.
Defined.

(** ** The mask file, written and read back *)

Lemma string_app_assoc (a b c : string) :
  ((a ++ b) ++ c = a ++ (b ++ c))%string.
Proof.
  induction a as [|x a IH]; simpl; [reflexivity|]. now rewrite IH.
Qed.

Lemma string_app_nil_r (a : string) : (a ++ "")%string = a.
Proof.
  induction a as [|x a IH]; simpl; [reflexivity|]. now rewrite IH.
Qed.

Lemma write_mask_unfold (support_ : list bool) :
  forall text,
    fold_left (fun text item => (text ++ str_of_bool item ++ ", ")%string)
              support_ text
    = (text ++ fold_right (fun item rest =>
                             (str_of_bool item ++ ", " ++ rest)%string)
                          "" support_)%string.
Proof.
  induction support_ as [|b bs IH]; intros text; simpl.
  - now rewrite string_app_nil_r.
  - rewrite IH. now rewrite !string_app_assoc.
Qed.

Lemma split_fields_entry (b : bool) (rest field : string) :
  split_fields (str_of_bool b ++ ", " ++ rest) field
  = (field ++ str_of_bool b)%string :: split_fields rest " ".
Proof.
  destruct b; cbn [str_of_bool String.append split_fields Ascii.eqb
                   Bool.eqb]; now rewrite !string_app_assoc.
Qed.

Lemma split_fields_entries (support_ : list bool) :
  forall field,
    split_fields (fold_right (fun item rest =>
                                (str_of_bool item ++ ", " ++ rest)%string)
                             "" support_) field
    = match support_ with
      | [] => [field]
      | b :: rest =>
          (field ++ str_of_bool b)%string
          :: map (fun item => (" " ++ str_of_bool item)%string) rest
             ++ [" "]
      end.
Proof.
  induction support_ as [|b bs IH]; intros field; [reflexivity|].
  cbn [fold_right]. rewrite split_fields_entry, IH.
  destruct bs; reflexivity.
Qed.

(** What [csv.reader] finds in the file [recursive_feature_elimination]
    wrote for a support of at least one entry. *)
Lemma csv_reader_write_mask (b : bool) (rest : list bool) :
  csv_reader (write_mask (b :: rest))
  = [(str_of_bool b
      :: map (fun item => (" " ++ str_of_bool item)%string) rest)
     ++ [" "]].
Proof.
  assert (E : forall text, text <> "" ->
                           csv_reader text = [split_fields text ""]).
  { intros [|c text] H; [congruence | reflexivity]. }
  unfold write_mask. rewrite write_mask_unfold. cbn [String.append].
  rewrite E by (destruct b; discriminate).
  now rewrite split_fields_entries.
Qed.

Lemma support_tokens (b : bool) (rest : list bool) :
  Forall2 (fun t item => is_false_token t = negb item
                         /\ is_boolean_token t = true)
    (str_of_bool b :: map (fun item => (" " ++ str_of_bool item)%string) rest)
    (b :: rest).
Proof.
  constructor; [destruct b; split; reflexivity|].
  induction rest as [|c rest IH]; simpl; constructor; [|exact IH].
  destruct c; split; reflexivity.
Qed.

Lemma keep_support {F : Type} (toks : list string) (support_ : list bool) :
  Forall2 (fun t item => is_false_token t = negb item
                         /\ is_boolean_token t = true) toks support_ ->
  forall cols : list (string * list (cell F)),
    map snd (filter (fun tc => negb (is_false_token (fst tc)))
                    (combine toks cols))
    = map snd (filter fst (combine support_ cols)).
Proof.
  induction 1 as [|t b toks bs [Ht _] _ IH]; intros cols; [reflexivity|].
  destruct cols as [|c cols]; [reflexivity|]. simpl.
  rewrite Ht, negb_involutive. destruct b; simpl; now rewrite IH.
Qed.

Lemma support_positions {A : Type} (d : A) (support_ : list bool) :
  forall (ls : list A) (s : nat),
    length support_ = length ls ->
    map (fun i => nth (i - s) ls d)
        (map fst (filter snd (combine (seq s (length support_)) support_)))
    = map snd (filter fst (combine support_ ls)).
Proof.
  induction support_ as [|b bs IH]; intros ls s Hlen; [reflexivity|].
  destruct ls as [|l ls]; [discriminate|]. simpl in Hlen.
  assert (Htail :
            map (fun i => nth (i - s) (l :: ls) d)
                (map fst (filter snd (combine (seq (S s) (length bs)) bs)))
            = map snd (filter fst (combine bs ls))).
  { rewrite <- (IH ls (S s)) by lia.
    apply map_ext_in. intros i Hi. apply in_map_iff in Hi.
    destruct Hi as ([j c] & <- & Hj). apply filter_In in Hj.
    destruct Hj as [Hj _]. apply in_combine_l, in_seq in Hj. cbn [fst].
    replace (j - s) with (S (j - S s)) by lia. reflexivity. }
  cbn [length seq combine filter snd fst]. destruct b; cbn [map fst snd].
  - rewrite Nat.sub_diag. cbn [nth]. f_equal. exact Htail.
  - exact Htail.
Qed.

Lemma feature_names_loop {F : Type} (X_train : DataFrame F)
    (idxs : list nat) :
  (forall i, In i idxs -> i < length (labels X_train)) ->
  forall features,
    for_each idxs
      (fun index features =>
         match nth_error (labels X_train) index with
         | Some l => Ok (features ++ [l])
         | None => Raise IndexError
         end) features
    = Ok (features ++ map (fun i => nth i (labels X_train) "") idxs).
Proof.
  induction idxs as [|i idxs IH]; intros Hr features; simpl.
  - now rewrite app_nil_r.
  - rewrite (nth_error_nth' _ "" (Hr i (or_introl eq_refl))). cbn [bind].
    rewrite IH by (intros j Hj; apply Hr; now right).
    now rewrite <- app_assoc.
Qed.

(** The mask [recursive_feature_elimination] writes for the support
    RFECV found, read back by [apply_RFECV_mask].  An empty support leaves
    an empty file, on which the reader finds no row and the call raises
    [IndexError].  Otherwise the file holds one token too many (the text
    ends in a comma and a blank), the reconciliation strips it, and every
    input with as many columns as the support has entries, under distinct
    labels, comes back with exactly the columns the support selects: the
    ones whose names [recursive_feature_elimination] printed. *)
Theorem mask_file_round_trip :
  forall (F : Type) (fs : filesystem F) (mask : string)
         (support_ : list bool) (args : list (DataFrame F)),
    isfile fs mask = true ->
    csv_rows fs (path_join (module_dir fs) mask)
    = Some (csv_reader (write_mask support_)) ->
    (support_ = [] -> apply_RFECV_mask fs mask args = Raise IndexError)
    /\ (support_ <> [] ->
        Forall (fun d => ncols d = length support_ /\ NoDup (labels d))
               args ->
        apply_RFECV_mask fs mask args
        = Ok (map (support_columns support_) args)
        /\ forall d, In d args ->
                     feature_names d support_
                     = Ok (labels (support_columns support_ d))).
Proof.
  intros F fs mask support_ args Hfile Hrows.
  unfold apply_RFECV_mask. rewrite Hfile, Hrows. cbn [assert bind].
  split; [intros ->; reflexivity|].
  intros Hne Hargs. destruct support_ as [|b rest]; [congruence|].
  clear Hne. rewrite csv_reader_write_mask.
  set (toks := str_of_bool b
               :: map (fun item => (" " ++ str_of_bool item)%string) rest).
  pose proof (support_tokens b rest) as Htoks. fold toks in Htoks.
  assert (Hlen : length toks = length (b :: rest))
    by (apply (Forall2_length Htoks)).
  assert (Hstrip : remove_extra_entries (toks ++ [" "]) = toks).
  { apply remove_extra_entries_blank_tail.
    - clear - Htoks. induction Htoks as [|? ? ? ? [_ H] _ IH]; auto.
    - repeat constructor. }
  rewrite Forall_forall in Hargs.
  assert (Hmask : forall (l : list (DataFrame F)),
             (forall d, In d l -> In d args) ->
             forall m k dk,
               m = toks ++ [" "] \/ m = toks ->
               nth_error l k = Some dk -> mask_at m l k = toks).
  { induction l as [|d l IH]; intros Hl m k dk Hm Hk;
      [destruct k; discriminate|].
    assert (Hd : reconcile m d = toks).
    { destruct (Hargs d (Hl d (or_introl eq_refl))) as [Hn _].
      unfold reconcile. rewrite ncols_labels, Hn, <- Hlen.
      destruct Hm as [-> | ->].
      - rewrite length_app. cbn [length].
        replace (length toks + 1 =? length toks) with false
          by (symmetry; apply Nat.eqb_neq; lia).
        exact Hstrip.
      - now rewrite Nat.eqb_refl. }
    destruct k as [|k]; cbn [mask_at]; [exact Hd|].
    rewrite Hd. apply (IH (fun x Hx => Hl x (or_intror Hx)) toks k dk);
      [now right | exact Hk]. }
  destruct (@apply_mask_loop_ok F args
              {| column_mask := toks ++ [" "]; column_indexes := [];
                 updated_args := [] |})
    as (st' & outs & Hrun & Hout & Houtlen & Hk).
  { intros i []. }
  { cbn [column_mask]. intros k dk Hdk.
    rewrite (Hmask args (fun d H => H) _ k dk (or_introl eq_refl) Hdk).
    destruct (Hargs dk (nth_error_In _ _ Hdk)) as [Hn _]. congruence. }
  split.
  - unfold apply_mask_tokens. rewrite Hrun. cbn [bind]. f_equal.
    rewrite Hout. cbn [updated_args app column_mask] in *.
    apply nth_error_ext. intros k. rewrite nth_error_map.
    destruct (nth_error args k) as [dk|] eqn:Hdk; cbn [option_map].
    + destruct (Hk k dk Hdk) as (ok & H1 & H2 & H3).
      rewrite H1. f_equal.
      destruct (Hargs dk (nth_error_In _ _ Hdk)) as [Hn Hnd].
      rewrite false_positions_snoc in H3.
      replace (is_false_token " ") with false in H3 by reflexivity.
      rewrite app_nil_r in H3.
      rewrite drop_false_labels with (mask := toks) in H3;
        [|exact Hnd | congruence | tauto].
      unfold keep_columns in H3. cbn [columns] in H3.
      rewrite (keep_support Htoks) in H3.
      destruct ok as [oi oc]. unfold support_columns.
      cbn [index columns] in *. now subst.
    + apply nth_error_None. apply nth_error_None in Hdk. lia.
  - intros d Hd. destruct (Hargs d Hd) as [Hn _].
    unfold feature_names. rewrite feature_names_loop.
    + cbn [app]. f_equal. unfold get_support, enumerate, support_columns,
        labels. cbn [columns].
      rewrite <- (@support_positions _ ("", []) (b :: rest) (columns d) 0)
        by (symmetry; exact Hn).
      rewrite !map_map. apply map_ext. intros [i c]. cbn [fst].
      rewrite Nat.sub_0_r. exact (map_nth fst (columns d) ("", []) i).
    + intros i Hi. unfold get_support, enumerate in Hi.
      apply in_map_iff in Hi. destruct Hi as ([j c] & <- & Hj).
      apply filter_In in Hj. destruct Hj as [Hj _].
      apply in_combine_l, in_seq in Hj. cbn [fst].
      rewrite ncols_labels, Hn. lia.
Qed.

(** The support [True, False] written, read back and applied to a table of
    two columns: the first column is kept, and [a] is the name printed. *)
Lemma mask_file_round_trip_witness :
  apply_RFECV_mask (one_mask_file ["True"; " False"; " "]) "mask.txt"
    [two_rows ["a"; "b"]]
  = Ok [support_columns [true; false] (two_rows ["a"; "b"])]
  /\ feature_names (two_rows ["a"; "b"]) [true; false] = Ok ["a"].
Proof.
  assert (Hfile : isfile (one_mask_file ["True"; " False"; " "]) "mask.txt"
                  = true) by reflexivity.
  assert (Hrows : csv_rows (one_mask_file ["True"; " False"; " "])
                    (path_join
                       (module_dir (one_mask_file ["True"; " False"; " "]))
                       "mask.txt")
                  = Some (csv_reader (write_mask [true; false])))
    by (vm_compute; reflexivity).
  assert (Hargs : Forall (fun d : DataFrame Q =>
                            ncols d = length [true; false]
                            /\ NoDup (labels d))
                         [two_rows ["a"; "b"]]).
  { repeat constructor; simpl; intuition discriminate. }
  destruct (proj2 (@mask_file_round_trip Q _ _ _ [two_rows ["a"; "b"]]
                     Hfile Hrows)
              ltac:(discriminate) Hargs) as [H1 H2].
  split; [exact H1|]. exact (H2 _ (or_introl eq_refl)).
Defined.

(** ** The mean imputation helper run twice *)

Section FillNanAgain.
Context {F : Type} {A : Arith F}.





Lemma labels_setitem (df : DataFrame F) (column : string)
    (vals : list (cell F)) :
  labels (setitem df column vals) = labels df.
Proof.
  unfold labels, setitem. cbn [columns]. rewrite map_map.
  apply map_ext. intros c. now destruct (String.eqb (fst c) column).
Qed.




End FillNanAgain.



(** ** The one-hot encoder run twice *)

Lemma prefix_longer (a : string) : String.prefix (a ++ "_") a = false.
Proof.
  induction a as [|c a IH]; [reflexivity|]. simpl.
  now destruct (ascii_dec c c).
Qed.

Lemma one_hot_encode_inv {F : Type} {A : Arith F} {L : Levels F}
    (df out : DataFrame F) (category : string) :
  one_hot_encode (PyFrame df) category = Ok out ->
  exists vals,
    select category df = [(category, vals)]
    /\ out = encoded df category vals.
Proof.
  intros H.
  assert (Hg : exists col, getitem df category = Ok col).
  { unfold one_hot_encode in H.
    cbn [isinstance_DataFrame assert bind as_frame] in H.
    destruct (getitem df category) as [col|]; [now exists col|].
    discriminate. }
  destruct Hg as (col & Hg). apply getitem_inv in Hg.
  destruct Hg as (Hsel & _). exists (values col).
  split; [exact Hsel|].
  rewrite one_hot_encode_encoded with (vals := values col) in H
    by exact Hsel.
  now injection H.
Qed.

(** The encoder consumes the column it encodes: the table it returns has
    the rows of its input and no column of that label any more, so
    encoding the same category a second time raises [KeyError]; the
    columns of other labels (other than the labels of the new indicator
    columns) are as they were. *)
Theorem one_hot_encode_consumes_category :
  forall (F : Type) (A : Arith F) (L : Levels F) (df out : DataFrame F)
         (category : string),
    one_hot_encode (PyFrame df) category = Ok out ->
    index out = index df
    /\ ~ In category (labels out)
    /\ one_hot_encode (PyFrame out) category = Raise (KeyError category)
    /\ forall l, l <> category ->
                 String.prefix (category ++ "_") l = false ->
                 select l out = select l df.
Proof.
  intros F A L df out category H.
  apply one_hot_encode_inv in H. destruct H as (vals & Hsel & ->).
  assert (Hnone : select category (encoded df category vals) = []).
  { unfold select, encoded. cbn [columns]. rewrite filter_app.
    rewrite select_dummies by apply prefix_longer. rewrite app_nil_r.
    induction (columns df) as [|c cs IH]; [reflexivity|]. simpl.
    destruct (String.eqb (fst c) category) eqn:E; simpl; [exact IH|].
    now rewrite E. }
  split; [reflexivity|]. split; [|split].
  - intros Hin. unfold labels in Hin. apply in_map_iff in Hin.
    destruct Hin as (c & Hc & Hin).
    assert (Hs : In c (select category (encoded df category vals))).
    { apply select_In. auto. }
    rewrite Hnone in Hs. destruct Hs.
  - unfold one_hot_encode, getitem.
    cbn [isinstance_DataFrame assert bind as_frame].
    fold (select category (encoded df category vals)).
    now rewrite Hnone.
  - intros l Hl Hp. now apply select_encoded_other.
Qed.

(** [kind_table] encoded on [kind]: a second encoding finds no such
    column. *)
Lemma one_hot_encode_consumes_category_witness :
  one_hot_encode (L := Levels_pandas)
    (PyFrame {| index := [0; 1; 2];
                columns := [("y", [Num 5%Q; Num 6%Q; Num 7%Q]);
                            ("kind_a", [Num 1%Q; Num 0%Q; Num 0%Q]);
                            ("kind_b", [Num 0%Q; Num 0%Q; Num 1%Q])] |})
    "kind"
  = Raise (KeyError "kind").
Proof.
  assert (H : one_hot_encode (L := Levels_pandas) (PyFrame kind_table)
                "kind"
              = Ok {| index := [0; 1; 2];
                      columns :=
                        [("y", [Num 5%Q; Num 6%Q; Num 7%Q]);
                         ("kind_a", [Num 1%Q; Num 0%Q; Num 0%Q]);
                         ("kind_b", [Num 0%Q; Num 0%Q; Num 1%Q])] |})
    by (vm_compute; reflexivity).
  exact (proj1 (proj2 (proj2
           (@one_hot_encode_consumes_category Q Arith_Q Levels_pandas
              _ _ _ H)))).
Defined.

(** ** The two cleaning methods *)

(** Run the accessors of [data_base] on an object that is given by its
    assignments. *)
Ltac run_accessors :=
  cbn [bind assert as_frame as_array is_None to_numpy
       get_raw_data get_clean_X_data get_original get_target get_X_train
       get_X_test get_Y_train get_Y_test get_test_accession_numbers
       get_predict
       set_raw_data set_clean_X_data set_X_train set_X_test set_Y_train
       set_Y_test set_test_accession_numbers is_str_and_isfile
       with_raw_data with_clean_X_data with_target with_X_train
       with_Y_train with_X_test with_Y_test with_test_accession_numbers
       with_original with_predict
       _raw_data _clean_X_data _target _X_train _Y_train _X_test _Y_test
       _test_accession_numbers _original _predict].

(** The same, with the getters opened on an attribute that is not known. *)
Ltac open_getters :=
  unfold get_raw_data, get_clean_X_data, get_original, get_target,
    get_X_train, get_X_test, get_Y_train, get_Y_test,
    get_test_accession_numbers, get_predict;
  run_accessors.

Section Factor.
Context {F : Type} {A : Arith F} {L : Levels F}.
Variable fs : filesystem F.

Lemma drop_single_inv (df out : DataFrame F) (label : string) :
  drop df [label] = Ok out -> In label (labels df) /\ out = without label df.
Proof.
  intros H.
  assert (Hin : In label (labels df)).
  { unfold drop in H. cbn [find] in H.
    destruct (mem_label label (labels df)) eqn:E; [|discriminate].
    now apply mem_label_In. }
  split; [exact Hin|]. rewrite drop_one in H by exact Hin.
  now injection H.
Qed.

(** The encoding loop of [clean_raw_data] is the loop of
    [clean_user_test_data] run on the attribute. *)
Lemma encode_loop_lift (cats : list string) :
  forall self : data_base F,
    is_None (_clean_X_data self) = false ->
    for_each cats (encode_category fs) self
    = (data <- for_each cats
                 (fun category data =>
                    d <- one_hot_encode data category ;; Ok (PyFrame d))
                 (_clean_X_data self) ;;
       Ok (with_clean_X_data data self)).
Proof.
  induction cats as [|cat cats IH]; intros self Hn.
  - cbn [for_each bind]. now destruct self.
  - cbn [for_each]. unfold encode_category at 1, get_clean_X_data.
    rewrite Hn. cbn [bind].
    destruct (one_hot_encode (_clean_X_data self) cat) as [d|e];
      cbn [bind set_clean_X_data is_str_and_isfile]; [|reflexivity].
    rewrite IH by reflexivity. cbn [_clean_X_data with_clean_X_data].
    destruct (for_each cats _ (PyFrame d)); reflexivity.
Qed.

Lemma drop_loop_lift (ls : list string) :
  forall (self : data_base F) (c : DataFrame F),
    _clean_X_data self = PyFrame c ->
    for_each ls (drop_column fs) self
    = (data <- for_each ls (fun column data => drop data [column]) c ;;
       Ok (with_clean_X_data (PyFrame data) self)).
Proof.
  induction ls as [|l ls IH]; intros self c Hc.
  - cbn [for_each bind]. rewrite <- Hc. now destruct self.
  - cbn [for_each]. unfold drop_column at 1, get_clean_X_data.
    rewrite Hc. cbn [is_None bind as_frame].
    destruct (drop c [l]) as [d|e];
      cbn [bind set_clean_X_data is_str_and_isfile]; [|reflexivity].
    rewrite (IH _ d) by reflexivity.
    destruct (for_each ls _ d); reflexivity.
Qed.

Lemma encode_loop_frame (cats : list string) :
  forall (cat : string) (data v : pyobj F),
    for_each (cat :: cats)
      (fun category data =>
         d <- one_hot_encode data category ;; Ok (PyFrame d)) data
    = Ok v ->
    exists d, v = PyFrame d.
Proof.
  induction cats as [|cat' cats IH]; intros cat data v H;
    cbn [for_each] in H;
    destruct (one_hot_encode data cat) as [d|e]; try discriminate;
    cbn [bind] in H.
  - injection H as <-. now exists d.
  - now apply IH in H.
Qed.

(** What a setter that loads stores. *)
Lemma set_clean_X_data_load (v : pyobj F) :
  exists r : result (pyobj F),
    (forall self, set_clean_X_data fs v self
                  = (start <- r ;; Ok (with_clean_X_data start self)))
    /\ (forall start, r = Ok start -> is_None v = false ->
                      is_None start = false)
    /\ (forall df, v = PyFrame df -> r = Ok (PyFrame df)).
Proof.
  unfold set_clean_X_data.
  destruct (is_str_and_isfile fs v) as [s|] eqn:E.
  - exists (df <- fetch_raw_data fs s ;; Ok (PyFrame df)).
    split; [|split].
    + intros self. now destruct (fetch_raw_data fs s).
    + intros start H _. destruct (fetch_raw_data fs s); [|discriminate].
      cbn [bind] in H. now injection H as <-.
    + intros df ->. discriminate.
  - exists (Ok v). split; [|split].
    + reflexivity.
    + intros start H. now injection H as <-.
    + now intros df ->.
Qed.

(** [clean_raw_data] is the preparation of the table held in [raw_data],
    stored in the attributes. *)
Lemma clean_raw_data_prepare (self : data_base F) :
  clean_raw_data fs self
  = (raw <- get_raw_data self ;;
     s0 <- set_clean_X_data fs raw self ;;
     p <- prepare true (_clean_X_data s0) ;;
     Ok (cleaned p self)).
Proof.
  unfold clean_raw_data.
  destruct (get_raw_data self) as [raw|e] eqn:Hraw; cbn [bind];
    [|reflexivity].
  assert (Hnone : is_None raw = false).
  { unfold get_raw_data in Hraw.
    destruct (is_None (_raw_data self)) eqn:E; [discriminate|].
    now injection Hraw as <-. }
  destruct (set_clean_X_data_load raw) as (r & Hr & Hstart & _).
  rewrite !Hr. destruct r as [start|e]; cbn [bind]; [|reflexivity].
  specialize (Hstart start eq_refl Hnone).
  rewrite encode_loop_lift by exact Hstart.
  cbn [_clean_X_data with_clean_X_data]. unfold prepare.
  destruct (for_each categorical_data _ start) as [v|e] eqn:Henc;
    cbn [bind]; [|reflexivity].
  apply encode_loop_frame in Henc. destruct Henc as (c1 & ->).
  run_accessors.
  destruct (getitem c1 "Bound Fraction") as [bound|e]; cbn [bind];
    [|reflexivity].
  destruct (series_mean bound) as [m|e]; cbn [bind]; [|reflexivity].
  run_accessors.
  destruct (getitem c1 "Accession Number") as [acc|e]; cbn [bind];
    [|reflexivity].
  rewrite drop_loop_lift with (c := c1) by reflexivity.
  destruct (for_each columns_to_drop _ c1) as [c2|e]; cbn [bind];
    [|reflexivity].
  run_accessors.
  destruct (fill_nan (PyFrame c2) "Protein Abundance") as [c3|e];
    cbn [bind]; [|reflexivity].
  run_accessors.
  destruct (normalize_and_reshape c3 acc) as [c4|e]; cbn [bind];
    [|reflexivity].
  run_accessors. reflexivity.
Qed.

(** [clean_user_test_data] is the same preparation of the user's table,
    stored in the test attributes, after which the identifier column is
    taken off the training and the test features. *)
Lemma clean_user_test_data_prepare (user_data : pyobj F)
    (self : data_base F) :
  clean_user_test_data fs user_data self
  = (p <- prepare false user_data ;;
     ids <- getitem (snd p) "Accession Number" ;;
     x <- get_X_train self ;; x <- as_frame x ;;
     d <- drop x ["Accession Number"] ;;
     d' <- drop (snd p) ["Accession Number"] ;;
     Ok (with_X_test (PyFrame d')
           (with_X_train (PyFrame d)
              (with_test_accession_numbers (PySeries ids)
                 (with_Y_test (PyArray (fst (fst p))) self))))).
Proof.
  unfold clean_user_test_data, prepare.
  destruct (for_each categorical_data _ user_data) as [v|e]; cbn [bind];
    [|reflexivity].
  destruct (as_frame v) as [c1|e]; cbn [bind]; [|reflexivity].
  destruct (getitem c1 "Bound Fraction") as [bound|e]; cbn [bind];
    [|reflexivity].
  run_accessors.
  destruct (getitem c1 "Accession Number") as [acc|e]; cbn [bind];
    [|reflexivity].
  destruct (for_each columns_to_drop _ c1) as [c2|e]; cbn [bind];
    [|reflexivity].
  destruct (fill_nan (PyFrame c2) "Protein Abundance") as [c3|e];
    cbn [bind]; [|reflexivity].
  destruct (normalize_and_reshape c3 acc) as [c4|e]; cbn [bind];
    [|reflexivity].
  run_accessors. cbn [fst snd].
  destruct (getitem c4 "Accession Number") as [ids|e]; cbn [bind];
    [|reflexivity].
  run_accessors.
  destruct (is_None (_X_train self)); cbn [bind]; [reflexivity|].
  destruct (as_frame (_X_train self)) as [x|e]; cbn [bind]; [|reflexivity].
  destruct (drop x ["Accession Number"]) as [d|e]; cbn [bind];
    [|reflexivity].
  run_accessors.
  destruct (drop c4 ["Accession Number"]) as [d'|e]; cbn [bind];
    reflexivity.
Qed.

End Factor.

Section Rerun.
Context {F : Type} {A : Arith F} {L : Levels F}.
Variable fs : filesystem F.

Lemma get_raw_data_inv (self : data_base F) (raw : pyobj F) :
  get_raw_data self = Ok raw ->
  raw = _raw_data self /\ is_None (_raw_data self) = false.
Proof.
  unfold get_raw_data. destruct (is_None (_raw_data self)); [discriminate|].
  intros H. now injection H as <-.
Qed.

(** What a run of [clean_raw_data] that returns went through. *)
Lemma clean_raw_data_inv (self self' : data_base F) :
  clean_raw_data fs self = Ok self' ->
  exists start p,
    is_None (_raw_data self) = false
    /\ (forall other, set_clean_X_data fs (_raw_data self) other
                      = Ok (with_clean_X_data start other))
    /\ (forall df, _raw_data self = PyFrame df -> start = PyFrame df)
    /\ prepare true start = Ok p
    /\ self' = cleaned p self.
Proof.
  intros H. rewrite clean_raw_data_prepare in H.
  destruct (get_raw_data self) as [raw|] eqn:Hraw; [|discriminate].
  apply get_raw_data_inv in Hraw. destruct Hraw as [-> Hnone].
  cbn [bind] in H.
  destruct (set_clean_X_data_load fs (_raw_data self)) as (r & Hr & _ & Hdf).
  rewrite Hr in H. destruct r as [start|]; [|discriminate].
  cbn [bind _clean_X_data with_clean_X_data] in H.
  destruct (prepare true start) as [p|] eqn:Hp; [|discriminate].
  cbn [bind] in H. injection H as <-.
  exists start, p. split; [exact Hnone|]. split; [intros; now rewrite Hr|].
  split; [|auto]. intros df E. specialize (Hdf df E). now injection Hdf.
Qed.

Lemma clean_raw_data_replay (self other : data_base F)
    (start : pyobj F) (p : list (cell F) * DataFrame F * DataFrame F) :
  is_None (_raw_data self) = false ->
  (forall other, set_clean_X_data fs (_raw_data self) other
                 = Ok (with_clean_X_data start other)) ->
  prepare true start = Ok p ->
  _raw_data other = _raw_data self ->
  clean_raw_data fs other = Ok (cleaned p other).
Proof.
  intros Hnone Hset Hp E. rewrite clean_raw_data_prepare.
  unfold get_raw_data. rewrite E, Hnone. cbn [bind]. rewrite Hset.
  cbn [bind _clean_X_data with_clean_X_data]. now rewrite Hp.
Qed.

End Rerun.

(** [clean_raw_data] starts from [raw_data] every time.  When it returns,
    it has left [raw_data], the three test attributes and [predict] as they
    were, the training features are the clean table and the training
    target is the target; what it stores depends on [raw_data] alone, so
    on any object with the same [raw_data] it returns and stores the same
    clean table, target and snapshot; and run again on its own result it
    changes nothing. *)
Theorem clean_raw_data_rerun :
  forall (F : Type) (A : Arith F) (L : Levels F) (fs : filesystem F)
         (self self' : data_base F),
    clean_raw_data fs self = Ok self' ->
    clean_raw_data fs self' = Ok self'
    /\ _raw_data self' = _raw_data self
    /\ _X_test self' = _X_test self
    /\ _Y_test self' = _Y_test self
    /\ _test_accession_numbers self' = _test_accession_numbers self
    /\ _predict self' = _predict self
    /\ _X_train self' = _clean_X_data self'
    /\ _Y_train self' = _target self'
    /\ forall other,
         _raw_data other = _raw_data self ->
         exists other',
           clean_raw_data fs other = Ok other'
           /\ _clean_X_data other' = _clean_X_data self'
           /\ _target other' = _target self'
           /\ _original other' = _original self'.
Proof.
  intros F A L fs self self' H. apply clean_raw_data_inv in H.
  destruct H as (start & p & Hnone & Hset & _ & Hp & ->).
  destruct p as [[target original] clean].
  split.
  { rewrite (clean_raw_data_replay fs self
               (cleaned (target, original, clean) self)
               Hnone Hset Hp eq_refl).
    reflexivity. }
  repeat (split; [reflexivity|]).
  intros other E. exists (cleaned (target, original, clean) other).
  split; [|repeat split].
  now apply (clean_raw_data_replay fs self other Hnone Hset Hp).
Qed.

(** [raw_example], cleaned: a second run returns the same object. *)
Lemma clean_raw_data_rerun_witness :
  exists self',
    clean_raw_data (L := Levels_pandas) no_files
      (with_raw_data (PyFrame raw_example) init) = Ok self'
    /\ clean_raw_data (L := Levels_pandas) no_files self' = Ok self'.
Proof.
  assert (H : { self' | clean_raw_data (L := Levels_pandas) no_files
                          (with_raw_data (PyFrame raw_example) init)
                        = Ok self' }).
  { vm_compute. eexists. reflexivity. }
  destruct H as [self' H]. exists self'. split; [exact H|].
  exact (proj1 (@clean_raw_data_rerun Q Arith_Q Levels_pandas no_files
                  _ _ H)).
Defined.

(** ** The predict mode *)

Section Predict.
Context {F : Type} {A : Arith F} {L : Levels F}.
Variable fs : filesystem F.

Lemma prepare_without_mean (data : pyobj F)
    (p : list (cell F) * DataFrame F * DataFrame F) :
  prepare true data = Ok p -> prepare false data = Ok p.
Proof.
  unfold prepare.
  destruct (for_each categorical_data _ data) as [v|]; [|discriminate].
  cbn [bind]. destruct (as_frame v) as [c1|]; [|discriminate].
  cbn [bind]. destruct (getitem c1 "Bound Fraction"); [|discriminate].
  cbn [bind]. destruct (series_mean _); [|discriminate].
  cbn [bind]. auto.
Qed.

Lemma drop_loop_absent (ls : list string) :
  forall c c' : DataFrame F,
    for_each ls (fun column data => drop data [column]) c = Ok c' ->
    (forall l, In l (labels c') -> In l (labels c))
    /\ forall l, In l ls -> ~ In l (labels c').
Proof.
  induction ls as [|l ls IH]; intros c c' H; cbn [for_each] in H.
  - injection H as <-. split; [auto | intros l []].
  - destruct (drop c [l]) as [d|] eqn:E; [|discriminate]. cbn [bind] in H.
    apply drop_single_inv in E. destruct E as [_ ->].
    destruct (IH _ _ H) as [Hsub Habs].
    assert (Hw : forall x, In x (labels (without l c))
                           -> In x (labels c) /\ x <> l).
    { intros x Hx. split.
      - unfold labels, without in *. cbn [columns] in Hx.
        apply in_map_iff in Hx. destruct Hx as (col & <- & Hc).
        apply filter_In in Hc. apply in_map. tauto.
      - intros ->. now apply (without_absent l c). }
    split.
    + intros x Hx. now apply Hw, Hsub.
    + intros x [<- | Hx].
      * intros Hin. apply Hsub, Hw in Hin. tauto.
      * now apply Habs.
Qed.

Lemma fill_nan_labels (df out : DataFrame F) (column : string) :
  fill_nan (PyFrame df) column = Ok out -> labels out = labels df.
Proof.
  unfold fill_nan. cbn [isinstance_DataFrame assert bind as_frame].
  destruct (getitem df column) as [col|]; [|discriminate]. cbn [bind].
  destruct (accumulate _ _ _) as [[count total]|]; [|discriminate].
  cbn [bind fst snd]. destruct (count =? 0); [discriminate|].
  intros H. injection H as <-. apply labels_setitem.
Qed.

(** The identifiers come first in the table [normalize_and_reshape]
    returns, under their own label. *)
Lemma normalize_and_reshape_ids (data out : DataFrame F)
    (labels_ : Series F) :
  normalize_and_reshape data labels_ = Ok out ->
  ~ In (name labels_) (labels data) ->
  exists vals, select (name labels_) out = [(name labels_, vals)].
Proof.
  unfold normalize_and_reshape.
  destruct (MinMaxScaler_fit_transform data) as [norm_df|]; [|discriminate].
  cbn [bind]. intros H Habs.
  assert (Hother :
            forall (g : string * list (cell F) -> string * list (cell F)),
              (forall c, fst (g c) = fst c) ->
              filter (fun c => String.eqb (fst c) (name labels_))
                     (map g (combine (labels data) norm_df)) = []).
  { intros g Hg.
    rewrite <- (filter_ext_in (fun _ => false)).
    - clear. induction (map _ _); simpl; auto.
    - intros c Hc. apply in_map_iff in Hc. destruct Hc as (c0 & <- & Hc0).
      rewrite Hg. symmetry. apply String.eqb_neq. intros E.
      apply Habs. rewrite <- E. destruct c0 as [l v].
      now apply in_combine_l in Hc0. }
  unfold concat_axis1, to_frame in H. cbn [index columns] in H.
  destruct (index_equals _ _).
  - cbn [bind] in H. injection H as <-.
    exists (values labels_). unfold select, reset_index.
    cbn [columns app filter fst]. rewrite String.eqb_refl. f_equal.
    rewrite <- (map_id (combine _ _)). now apply Hother.
  - destruct (is_unique _ && is_unique _); [|discriminate].
    cbn [bind] in H. injection H as <-.
    eexists. unfold select, reset_index.
    cbn [columns app filter fst map]. rewrite String.eqb_refl. f_equal.
    now apply Hother.
Qed.

Lemma prepare_ids (with_mean : bool) (data : pyobj F)
    (p : list (cell F) * DataFrame F * DataFrame F) :
  prepare with_mean data = Ok p ->
  exists ids, getitem (snd p) "Accession Number" = Ok ids.
Proof.
  unfold prepare.
  destruct (for_each categorical_data _ data) as [v|]; [|discriminate].
  cbn [bind]. destruct (as_frame v) as [c1|]; [|discriminate].
  cbn [bind]. destruct (getitem c1 "Bound Fraction"); [|discriminate].
  cbn [bind].
  destruct (if with_mean then _ else _); [|discriminate]. cbn [bind].
  destruct (getitem c1 "Accession Number") as [acc|] eqn:Hacc;
    [|discriminate].
  cbn [bind].
  destruct (for_each columns_to_drop _ c1) as [c2|] eqn:Hdrop;
    [|discriminate].
  cbn [bind].
  destruct (fill_nan (PyFrame c2) "Protein Abundance") as [c3|] eqn:Hfill;
    [|discriminate].
  cbn [bind].
  destruct (normalize_and_reshape c3 acc) as [c4|] eqn:Hnorm;
    [|discriminate].
  cbn [bind]. intros H. injection H as <-. cbn [snd].
  apply getitem_inv in Hacc. destruct Hacc as (_ & Hname & _).
  apply normalize_and_reshape_ids in Hnorm.
  - destruct Hnorm as (vals & Hsel). rewrite Hname in Hsel.
    eexists. apply getitem_of_select. exact Hsel.
  - apply fill_nan_labels in Hfill. rewrite Hname, Hfill.
    apply drop_loop_absent in Hdrop. apply (proj2 Hdrop).
    unfold columns_to_drop. simpl. tauto.
Qed.

Lemma fetch_raw_data_parsed (path : string) (df : DataFrame F) :
  isfile fs path = true ->
  read_csv fs (path_join (module_dir fs) path) = Parsed df ->
  fetch_raw_data fs path = Ok df.
Proof.
  intros H1 H2. unfold fetch_raw_data. now rewrite H1, H2.
Qed.

End Predict.

(** Assigning the path of the user's file to [predict] loads the file and
    gives its table the preparation [clean_raw_data] gives the database:
    the test features are the clean table [clean_raw_data] makes of that
    table, without the identifier column; the test target is its target;
    the test identifiers are its identifier column; the training features
    lose their identifier column; and the other attributes stay. *)
Theorem predict_prepares_like_clean_raw_data :
  forall (F : Type) (A : Arith F) (L : Levels F) (fs : filesystem F)
         (path : string) (user_data X_train : DataFrame F)
         (db db' self : data_base F),
    isfile fs path = true ->
    read_csv fs (path_join (module_dir fs) path) = Parsed user_data ->
    _raw_data db = PyFrame user_data ->
    clean_raw_data fs db = Ok db' ->
    _X_train self = PyFrame X_train ->
    In "Accession Number" (labels X_train) ->
    exists clean ids,
      _clean_X_data db' = PyFrame clean
      /\ getitem clean "Accession Number" = Ok ids
      /\ set_predict fs (PyStr path) self
         = Ok {| _raw_data := _raw_data self;
                 _clean_X_data := _clean_X_data self;
                 _target := _target self;
                 _X_train := PyFrame (without "Accession Number" X_train);
                 _Y_train := _Y_train self;
                 _X_test := PyFrame (without "Accession Number" clean);
                 _Y_test := _target db';
                 _test_accession_numbers := PySeries ids;
                 _original := _original self;
                 _predict := PyFrame user_data |}.
Proof.
  intros F A L fs path user_data X_train db db' self Hfile Hread Hraw Hclean
         Hx Hid.
  apply clean_raw_data_inv in Hclean.
  destruct Hclean as (start & p & _ & _ & Hstart & Hp & ->).
  rewrite (Hstart _ Hraw) in Hp. apply prepare_without_mean in Hp.
  destruct (prepare_ids _ _ Hp) as (ids & Hids).
  destruct p as [[target original] clean]. cbn [snd] in Hids.
  exists clean, ids. split; [reflexivity|]. split; [exact Hids|].
  unfold set_predict. rewrite Hfile.
  rewrite (fetch_raw_data_parsed fs path Hfile Hread). cbn [bind].
  cbn [_predict with_predict]. rewrite clean_user_test_data_prepare, Hp.
  cbn [bind fst snd]. rewrite Hids. cbn [bind].
  unfold get_X_train. cbn [_X_train with_predict]. rewrite Hx.
  cbn [is_None bind as_frame].
  rewrite drop_one by exact Hid. cbn [bind].
  rewrite drop_one by (eapply getitem_In_labels; exact Hids).
  reflexivity.
Qed.

(** The three rows of [raw_example] as the user's file, assigned to an
    object whose training features are [clean_example]: the test target is
    the raw [Bound Fraction] column. *)
Lemma predict_prepares_like_clean_raw_data_witness :
  exists self',
    set_predict (L := Levels_pandas) user_file (PyStr "user.csv")
      cleaned_example = Ok self'
    /\ _Y_test self' = PyArray [Num (1 # 4)%Q; NaN; Num (3 # 4)%Q]
    /\ _predict self' = PyFrame raw_example.
Proof.
  assert (H : { db' | clean_raw_data (L := Levels_pandas) user_file
                        (with_raw_data (PyFrame raw_example) init)
                      = Ok db'
                      /\ _target db'
                         = PyArray [Num (1 # 4)%Q; NaN; Num (3 # 4)%Q] }).
  { vm_compute. eexists. split; reflexivity. }
  destruct H as [db' [H Ht]].
  assert (Hid : In "Accession Number" (labels clean_example))
    by (left; reflexivity).
  destruct (@predict_prepares_like_clean_raw_data Q Arith_Q
              Levels_pandas user_file "user.csv" raw_example
              clean_example (with_raw_data (PyFrame raw_example) init)
              db' cleaned_example eq_refl eq_refl eq_refl H
              eq_refl Hid) as (clean & ids & _ & _ & Hrun).
  eexists. split; [exact Hrun|]. split; [exact Ht | reflexivity].
Defined.

Section PredictOnce.
Context {F : Type} {A : Arith F} {L : Levels F}.
Variable fs : filesystem F.

Lemma drop_absent (df : DataFrame F) (label : string) :
  ~ In label (labels df) -> drop df [label] = Raise (KeyError label).
Proof.
  intros H. unfold drop. cbn [find].
  apply mem_label_false in H. now rewrite H.
Qed.

Lemma as_frame_inv (v : pyobj F) (df : DataFrame F) :
  as_frame v = Ok df -> v = PyFrame df.
Proof.
  destruct v; try discriminate. intros H. now injection H as <-.
Qed.

End PredictOnce.

(** The path given to [predict] is used once.  A string that names no file
    is stored as it is, without any data being loaded, and blocks
    [data_split] from then on.  When the assignment of a file returns, it
    has taken the identifier column off the training features, so a second
    assignment of the same file raises [KeyError] on that column, and
    [data_split] raises its assertion. *)
Theorem predict_assignment_is_one_shot :
  forall (F : Type) (A : Arith F) (L : Levels F) (fs : filesystem F)
         (path : string) (self : data_base F) (shuffled : list nat),
    (isfile fs path = false ->
     set_predict fs (PyStr path) self = Ok (with_predict (PyStr path) self)
     /\ data_split fs shuffled (with_predict (PyStr path) self)
        = Raise (AssertionError "Remove data_split() if using your own data"))
    /\ (isfile fs path = true ->
        forall self',
          set_predict fs (PyStr path) self = Ok self' ->
          (exists X_train,
              _X_train self = PyFrame X_train
              /\ In "Accession Number" (labels X_train)
              /\ _X_train self'
                 = PyFrame (without "Accession Number" X_train))
          /\ set_predict fs (PyStr path) self'
             = Raise (KeyError "Accession Number")
          /\ data_split fs shuffled self'
             = Raise (AssertionError
                        "Remove data_split() if using your own data")).
Proof.
  intros F A L fs path self shuffled. split.
  - intros Hfile. unfold set_predict. rewrite Hfile. split; reflexivity.
  - intros Hfile self' H. unfold set_predict in H. rewrite Hfile in H.
    destruct (fetch_raw_data fs path) as [df|] eqn:Hf; [|discriminate].
    cbn [bind _predict with_predict] in H.
    rewrite clean_user_test_data_prepare in H.
    destruct (prepare false (PyFrame df)) as [p|] eqn:Hp; [|discriminate].
    cbn [bind] in H.
    destruct (getitem (snd p) "Accession Number") as [ids|] eqn:Hids;
      [|discriminate].
    cbn [bind] in H. unfold get_X_train in H.
    cbn [_X_train with_predict] in H.
    destruct (is_None (_X_train self)) eqn:Hn; [discriminate|].
    cbn [bind] in H.
    destruct (as_frame (_X_train self)) as [x|] eqn:Hx; [|discriminate].
    apply as_frame_inv in Hx. cbn [bind] in H.
    destruct (drop x ["Accession Number"]) as [d|] eqn:Hd; [|discriminate].
    apply drop_single_inv in Hd. destruct Hd as [Hin ->].
    cbn [bind] in H.
    destruct (drop (snd p) ["Accession Number"]) as [d'|]; [|discriminate].
    cbn [bind] in H. injection H as <-.
    split; [|split].
    + exists x. auto.
    + unfold set_predict. rewrite Hfile, Hf.
      cbn [bind _predict with_predict].
      rewrite clean_user_test_data_prepare, Hp. cbn [bind].
      rewrite Hids. cbn [bind]. unfold get_X_train. run_accessors.
      rewrite drop_absent by apply without_absent. reflexivity.
    + unfold data_split. run_accessors. reflexivity.
Qed.

(** The user's file assigned twice: the second assignment raises. *)
Lemma predict_assignment_is_one_shot_witness :
  exists self',
    set_predict (L := Levels_pandas) user_file (PyStr "user.csv")
      cleaned_example = Ok self'
    /\ set_predict (L := Levels_pandas) user_file (PyStr "user.csv")
         self' = Raise (KeyError "Accession Number").
Proof.
  assert (H : { self' | set_predict (L := Levels_pandas) user_file
                          (PyStr "user.csv") cleaned_example = Ok self' }).
  { vm_compute. eexists. reflexivity. }
  destruct H as [self' H]. exists self'. split; [exact H|].
  exact (proj1 (proj2
           (proj2 (@predict_assignment_is_one_shot Q Arith_Q
                     Levels_pandas user_file "user.csv" cleaned_example
                     []) eq_refl self' H))).
Defined.

(** ** What [clean_raw_data] refuses *)

Section Refusals.
Context {F : Type} {A : Arith F} {L : Levels F}.
Variable fs : filesystem F.

Lemma getitem_absent (df : DataFrame F) (label : string) :
  ~ In label (labels df) -> getitem df label = Raise (KeyError label).
Proof.
  intros H. unfold getitem.
  rewrite <- (filter_ext_in (fun _ => false)).
  - now induction (columns df).
  - intros c Hc. symmetry. apply String.eqb_neq. intros E. apply H.
    rewrite <- E. now apply in_map.
Qed.

(** The encoding loop on a table that holds each category once. *)
Lemma encode_all_ok (cats : list string) (c : DataFrame F) :
  NoDup cats ->
  (forall cat, In cat cats -> exists vals, select cat c = [(cat, vals)]) ->
  (forall cat cat', In cat cats -> In cat' cats -> cat' <> cat ->
                    String.prefix (cat ++ "_") cat' = false) ->
  exists c',
    for_each cats
      (fun category data =>
         d <- one_hot_encode data category ;; Ok (PyFrame d)) (PyFrame c)
    = Ok (PyFrame c')
    /\ index c' = index c
    /\ (forall l, ~ In l cats ->
                  (forall cat, In cat cats ->
                               String.prefix (cat ++ "_") l = false) ->
                  select l c' = select l c)
    /\ (well_formed c -> well_formed c')
    /\ (forall col, In col (columns c') ->
                    (In col (columns c) /\ ~ In (fst col) cats)
                    \/ has_text (snd col) = false).
Proof.
  intros Hnd Hsel Hpre.
  destruct (@encode_loop F A L fs cats c
              (with_clean_X_data (PyFrame c) init) eq_refl Hnd Hsel Hpre)
    as (c' & Hrun & Hidx & Hwf & Hkeep & Hcols).
  rewrite encode_loop_lift in Hrun by reflexivity.
  cbn [_clean_X_data with_clean_X_data] in Hrun.
  destruct (for_each cats _ (PyFrame c)) as [v|]; [|discriminate].
  cbn [bind] in Hrun. injection Hrun as ->.
  exists c'. auto.
Qed.

(** The drop loop on a table that holds each label. *)
Lemma drop_all_ok (ls : list string) (c : DataFrame F) :
  NoDup ls ->
  (forall l, In l ls -> In l (labels c)) ->
  exists c',
    for_each ls (fun column data => drop data [column]) c = Ok c'
    /\ index c' = index c
    /\ (forall l, ~ In l ls -> select l c' = select l c)
    /\ (well_formed c -> well_formed c')
    /\ (forall col, In col (columns c') ->
                    In col (columns c) /\ ~ In (fst col) ls).
Proof.
  intros Hnd Hin.
  destruct (@drop_loop F fs ls c (with_clean_X_data (PyFrame c) init)
              eq_refl Hnd Hin)
    as (c' & Hrun & Hidx & Hwf & Hkeep & Hcols).
  rewrite drop_loop_lift with (c := c) in Hrun by reflexivity.
  destruct (for_each ls _ c) as [c2|]; [|discriminate].
  cbn [bind] in Hrun. injection Hrun as ->.
  exists c'. auto.
Qed.

End Refusals.

(** [clean_raw_data] on an object that is not ready for it: without
    [raw_data] it raises the [ValueError] of the getter; with a
    [raw_data] that is neither a table nor the path of a file (a path
    that named no file when it was assigned, for instance) it raises the
    assertion of [one_hot_encode]; with a table that lacks the first
    categorical column it raises [KeyError] on that column. *)
Theorem clean_raw_data_refuses :
  forall (F : Type) (A : Arith F) (L : Levels F) (fs : filesystem F)
         (self : data_base F),
    (_raw_data self = PyNone ->
     clean_raw_data fs self
     = Raise (ValueError "Initialize raw data by setting raw_data=<path.csv>"))
    /\ (is_None (_raw_data self) = false ->
        isinstance_DataFrame (_raw_data self) = false ->
        is_str_and_isfile fs (_raw_data self) = None ->
        clean_raw_data fs self
        = Raise (AssertionError "data argument needs to be pandas dataframe"))
    /\ (forall raw,
          _raw_data self = PyFrame raw ->
          ~ In "Enzyme Commission Number" (labels raw) ->
          clean_raw_data fs self
          = Raise (KeyError "Enzyme Commission Number")).
Proof.
  intros F A L fs self. rewrite clean_raw_data_prepare.
  unfold get_raw_data. split; [|split].
  - intros ->. reflexivity.
  - intros Hnone Hinst Hfile. rewrite Hnone. cbn [bind].
    unfold set_clean_X_data. rewrite Hfile.
    cbn [bind _clean_X_data with_clean_X_data].
    unfold prepare. cbn [categorical_data for_each].
    unfold one_hot_encode at 1. now rewrite Hinst.
  - intros raw -> Habs.
    cbn [is_None bind set_clean_X_data is_str_and_isfile _clean_X_data
         with_clean_X_data].
    unfold prepare. cbn [categorical_data for_each].
    unfold one_hot_encode at 1.
    cbn [isinstance_DataFrame assert bind as_frame].
    now rewrite getitem_absent.
Qed.

(** A path that named no file when it was assigned to [raw_data] is kept
    as a string, and [clean_raw_data] raises the assertion. *)
Lemma clean_raw_data_refuses_witness :
  clean_raw_data (L := Levels_pandas) no_files
    (with_raw_data (PyStr "database.csv") init)
  = Raise (AssertionError "data argument needs to be pandas dataframe").
Proof.
  exact (proj1 (proj2 (@clean_raw_data_refuses Q Arith_Q Levels_pandas
                         no_files
                         (with_raw_data (PyStr "database.csv") init)))
           eq_refl eq_refl eq_refl).
Defined.

(** A database in which no protein abundance is recorded cannot be
    cleaned: on a table with distinct labels that holds the required
    columns, no text in the target, and only missing entries in
    [Protein Abundance] (in particular on a table without rows),
    [clean_raw_data] raises [ZeroDivisionError]. *)
Theorem clean_raw_data_needs_abundance :
  forall (F : Type) (A : Arith F) (L : Levels F) (fs : filesystem F)
         (self : data_base F) (raw : DataFrame F),
    _raw_data self = PyFrame raw ->
    NoDup (labels raw) ->
    (forall l, In l required_labels -> In l (labels raw)) ->
    (forall vals, In ("Bound Fraction", vals) (columns raw) ->
                  has_text vals = false) ->
    (forall vals, In ("Protein Abundance", vals) (columns raw) ->
                  Forall (fun v => v = NaN) vals) ->
    clean_raw_data fs self = Raise ZeroDivisionError.
Proof.
  intros F A L fs self raw Hraw Vlabels Vreq Vbound Vabund.
  rewrite clean_raw_data_prepare. unfold get_raw_data. rewrite Hraw.
  cbn [is_None bind set_clean_X_data is_str_and_isfile _clean_X_data
       with_clean_X_data].
  destruct (@encode_all_ok F A L fs categorical_data raw
              categorical_data_NoDup)
    as (c1 & Hrun1 & Hidx1 & Hkeep1 & _).
  { intros cat Hcat. apply select_unique; [exact Vlabels|].
    apply Vreq. unfold required_labels. apply in_or_app. now left. }
  { intros cat cat' Hcat Hcat' Hne. apply no_dummy_clash; auto.
    unfold required_labels. apply in_or_app. now left. }
  assert (Hraw1 : forall l, In l (columns_to_drop ++ ["Protein Abundance"]) ->
                            exists vals, select l c1 = [(l, vals)]
                                         /\ In (l, vals) (columns raw)).
  { intros l Hl. destruct (@select_unique F raw l Vlabels) as (vals & Hv).
    - apply Vreq. unfold required_labels. apply in_or_app. now right.
    - exists vals. rewrite Hkeep1.
      + split; [exact Hv|].
        assert (Hin : In (l, vals) (select l raw)) by (rewrite Hv; now left).
        apply select_In in Hin. tauto.
      + now apply required_not_categorical.
      + intros cat Hcat. apply no_dummy_clash; [exact Hcat | |].
        * unfold required_labels. apply in_or_app. now right.
        * intros ->. now apply (required_not_categorical Hl). }
  destruct (Hraw1 "Bound Fraction") as (bvals & Hb & Hbraw);
    [unfold columns_to_drop; simpl; tauto|].
  destruct (Hraw1 "Accession Number") as (avals & Ha & _);
    [unfold columns_to_drop; simpl; tauto|].
  destruct (Hraw1 "Protein Abundance") as (pvals & Hpa & Hparaw);
    [unfold columns_to_drop; simpl; tauto|].
  destruct (@drop_all_ok F fs columns_to_drop c1 columns_to_drop_NoDup)
    as (c2 & Hrun2 & _ & Hkeep2 & _).
  { intros l Hl. destruct (Hraw1 l) as (vals & Hv & _);
      [apply in_or_app; now left|].
    assert (Hin : In (l, vals) (select l c1)) by (rewrite Hv; now left).
    apply select_In in Hin. destruct Hin as [Hin _].
    unfold labels. apply in_map_iff. now exists (l, vals). }
  assert (Hpa2 : select "Protein Abundance" c2
                 = [("Protein Abundance", pvals)]).
  { rewrite Hkeep2; [exact Hpa|].
    unfold columns_to_drop. simpl. intuition discriminate. }
  unfold prepare. rewrite Hrun1. cbn [bind as_frame].
  rewrite (getitem_of_select c1 Hb). cbn [bind].
  assert (Hmean : exists m,
             series_mean {| name := "Bound Fraction"; s_index := index c1;
                            values := bvals |} = Ok m).
  { unfold series_mean. cbn [values]. rewrite (Vbound _ Hbraw).
    destruct (present bvals); eexists; reflexivity. }
  destruct Hmean as (m & Hmean). rewrite Hmean. cbn [bind].
  rewrite (getitem_of_select c1 Ha). cbn [bind].
  rewrite Hrun2. cbn [bind].
  unfold fill_nan. cbn [isinstance_DataFrame assert bind as_frame].
  rewrite (getitem_of_select c2 Hpa2). cbn [bind values].
  specialize (Vabund _ Hparaw).
  assert (Ht : has_text pvals = false).
  { clear - Vabund. induction Vabund as [|v vs Hv _ IH]; [reflexivity|].
    subst v. exact IH. }
  rewrite (accumulate_numeric _ Ht). cbn [bind fst snd].
  rewrite (proj2 (present_nil_iff _ Ht) Vabund). reflexivity.
Qed.

(** The database without rows cannot be cleaned. *)
Lemma clean_raw_data_needs_abundance_witness :
  clean_raw_data (L := Levels_pandas) no_files
    (with_raw_data (PyFrame empty_database) init)
  = Raise ZeroDivisionError.
Proof.
  assert (Hcols : forall l vals, In (l, vals) (columns empty_database)
                                 -> vals = []).
  { intros l vals H. unfold empty_database in H. cbn [columns] in H.
    apply in_map_iff in H. destruct H as (l' & E & _). congruence. }
  apply (@clean_raw_data_needs_abundance Q Arith_Q Levels_pandas
           no_files (with_raw_data (PyFrame empty_database) init)
           empty_database eq_refl).
  - unfold empty_database, labels. cbn [columns]. rewrite map_map.
    cbn [fst]. rewrite map_id. unfold required_labels.
    apply NoDup_app; [exact categorical_data_NoDup | |].
    + apply NoDup_app; [exact columns_to_drop_NoDup | |].
      * repeat constructor. intros [].
      * intros l Hl [<- | []]. revert Hl. unfold columns_to_drop. simpl.
        intuition discriminate.
    + intros l Hl Hl'. apply (required_not_categorical Hl'). exact Hl.
  - intros l Hl. unfold empty_database, labels. cbn [columns].
    rewrite map_map. cbn [fst]. now rewrite map_id.
  - intros vals H. now rewrite (Hcols _ _ H).
  - intros vals H. rewrite (Hcols _ _ H). constructor.
Defined.

(** ** The setters and the file system *)

(** The six setters of [raw_data], [clean_X_data], [X_train], [X_test],
    [Y_train] and [Y_test] store a value that is not the path of a file as
    it is.  Given the path of a file they store the table [read_csv]
    parses from that path joined to the directory of the module, raise
    [ValueError] when the file is no valid csv and [FileNotFoundError] when
    nothing is found there.  The setter of [test_accession_numbers] ignores
    the path of a file: the attribute keeps its value. *)
Theorem setters_store_or_load :
  forall (F : Type) (fs : filesystem F)
         (setter : pyobj F -> data_base F -> result (data_base F))
         (field : pyobj F -> data_base F -> data_base F)
         (self : data_base F),
    In (setter, field) (loading_setters fs) ->
    (forall v, is_str_and_isfile fs v = None ->
               setter v self = Ok (field v self))
    /\ (forall path,
          isfile fs path = true ->
          setter (PyStr path) self
          = match read_csv fs (path_join (module_dir fs) path) with
            | Parsed df => Ok (field (PyFrame df) self)
            | Unparsable => Raise (ValueError "File is not a valid csv")
            | Missing => Raise FileNotFoundError
            end
          /\ set_test_accession_numbers fs (PyStr path) self = Ok self).
Proof.
  intros F fs setter field self Hin.
  assert (Hload : forall path,
             isfile fs path = true ->
             fetch_raw_data fs path
             = match read_csv fs (path_join (module_dir fs) path) with
               | Parsed df => Ok df
               | Unparsable => Raise (ValueError "File is not a valid csv")
               | Missing => Raise FileNotFoundError
               end).
  { intros path H. unfold fetch_raw_data. now rewrite H. }
  unfold loading_setters in Hin.
  repeat (destruct Hin as [Hin | Hin];
          [injection Hin as <- <-; split;
           [intros v Hv;
            unfold set_raw_data, set_clean_X_data, set_X_train, set_X_test,
              set_Y_train, set_Y_test;
            now rewrite Hv
           |intros path Hpath;
            unfold set_raw_data, set_clean_X_data, set_X_train, set_X_test,
              set_Y_train, set_Y_test, set_test_accession_numbers,
              is_str_and_isfile;
            rewrite Hpath, (Hload path Hpath);
            split; [|reflexivity];
            now destruct (read_csv fs (path_join (module_dir fs) path))]
          |]).
  destruct Hin.
Qed.

(** The path of the user's file assigned to [raw_data]: the table is
    loaded. *)
Lemma setters_store_or_load_witness :
  set_raw_data user_file (PyStr "user.csv") init
  = Ok (with_raw_data (PyFrame raw_example) init).
Proof.
  exact (proj1 (proj2 (@setters_store_or_load Q user_file
                         (set_raw_data user_file) with_raw_data init
                         (or_introl eq_refl))
                  "user.csv" eq_refl)).
Defined.

(** ** Splitting again *)

Section Resplit.
Context {F : Type}.
Variable fs : filesystem F.

(** One pass of the loop of [data_split]: the four partitions are computed
    from the clean table and the target, then assigned. *)
Lemma split_fold_form (fold : list nat * list nat) (self : data_base F) :
  split_fold fs fold self
  = (c <- get_clean_X_data self ;; c <- as_frame c ;;
     x_train <- iloc c (fst fold) ;;
     x_test <- iloc c (snd fold) ;;
     t <- get_target self ;; t <- as_array t ;;
     y_train <- take t (fst fold) ;;
     y_test <- take t (snd fold) ;;
     Ok (with_Y_test (PyArray y_test)
           (with_Y_train (PyArray y_train)
              (with_X_test (PyFrame x_test)
                 (with_X_train (PyFrame x_train) self))))).
Proof.
  unfold split_fold.
  destruct (get_clean_X_data self) as [v|]; cbn [bind]; [|reflexivity].
  destruct (as_frame v) as [c|]; cbn [bind]; [|reflexivity].
  destruct (iloc c (fst fold)) as [x_train|]; cbn [bind]; [|reflexivity].
  destruct (iloc c (snd fold)) as [x_test|]; cbn [bind]; [|reflexivity].
  open_getters.
  destruct (is_None (_target self)); cbn [bind]; [reflexivity|].
  destruct (as_array (_target self)) as [t|]; cbn [bind]; [|reflexivity].
  destruct (take t (fst fold)) as [y_train|]; cbn [bind]; [|reflexivity].
  destruct (take t (snd fold)) as [y_test|]; cbn [bind]; reflexivity.
Qed.

Lemma split_fold_agree (fold : list nat * list nat) (a b : data_base F) :
  same_inputs a b ->
  match split_fold fs fold a with
  | Ok a' => exists b', split_fold fs fold b = Ok b'
                        /\ same_inputs a' b' /\ same_partition a' b'
  | Raise e => split_fold fs fold b = Raise e
  end.
Proof.
  intros (Hr & Hc & Ht & Ho & Hp). rewrite !split_fold_form.
  unfold get_clean_X_data, get_target. rewrite Hc, Ht.
  destruct (is_None (_clean_X_data b)); cbn [bind]; [reflexivity|].
  destruct (as_frame (_clean_X_data b)) as [c|]; cbn [bind]; [|reflexivity].
  destruct (iloc c (fst fold)) as [x_train|]; cbn [bind]; [|reflexivity].
  destruct (iloc c (snd fold)) as [x_test|]; cbn [bind]; [|reflexivity].
  destruct (is_None (_target b)); cbn [bind]; [reflexivity|].
  destruct (as_array (_target b)) as [t|]; cbn [bind]; [|reflexivity].
  destruct (take t (fst fold)) as [y_train|]; cbn [bind]; [|reflexivity].
  destruct (take t (snd fold)) as [y_test|]; cbn [bind]; [|reflexivity].
  eexists. split; [reflexivity|].
  unfold same_inputs, same_partition. run_accessors. auto 10.
Qed.

Lemma split_loop_agree (folds : list (list nat * list nat)) :
  forall a b : data_base F,
    same_inputs a b ->
    same_partition a b \/ folds <> [] ->
    match for_each folds (split_fold fs) a with
    | Ok a' => exists b', for_each folds (split_fold fs) b = Ok b'
                          /\ same_inputs a' b' /\ same_partition a' b'
    | Raise e => for_each folds (split_fold fs) b = Raise e
    end.
Proof.
  induction folds as [|fold folds IH]; intros a b Hin Hpart.
  - cbn [for_each]. exists b. destruct Hpart as [Hpart | Hne];
      [auto | congruence].
  - cbn [for_each]. pose proof (split_fold_agree fold Hin) as Hstep.
    destruct (split_fold fs fold a) as [a'|e].
    + destruct Hstep as (b' & -> & Hin' & Hpart'). cbn [bind].
      apply IH; auto.
    + now rewrite Hstep.
Qed.

Lemma split_loop_inputs (folds : list (list nat * list nat)) :
  forall a a' : data_base F,
    for_each folds (split_fold fs) a = Ok a' ->
    same_inputs a' a
    /\ _test_accession_numbers a' = _test_accession_numbers a.
Proof.
  induction folds as [|fold folds IH]; intros a a' H; cbn [for_each] in H.
  - injection H as <-. unfold same_inputs. auto 10.
  - destruct (split_fold fs fold a) as [a1|] eqn:E; [|discriminate].
    cbn [bind] in H. apply IH in H. rewrite split_fold_form in E.
    destruct (get_clean_X_data a); [|discriminate]. cbn [bind] in E.
    destruct (as_frame _) as [c|]; [|discriminate]. cbn [bind] in E.
    destruct (iloc c (fst fold)); [|discriminate]. cbn [bind] in E.
    destruct (iloc c (snd fold)); [|discriminate]. cbn [bind] in E.
    destruct (get_target a); [|discriminate]. cbn [bind] in E.
    destruct (as_array _) as [t|]; [|discriminate]. cbn [bind] in E.
    destruct (take t (fst fold)); [|discriminate]. cbn [bind] in E.
    destruct (take t (snd fold)); [|discriminate]. cbn [bind] in E.
    injection E as <-. unfold same_inputs in *.
    cbn [with_Y_test with_Y_train with_X_test with_X_train _raw_data
         _clean_X_data _target _original _predict _test_accession_numbers]
      in H.
    exact H.
Qed.

Lemma KFold_split_folds (shuffled : list nat) (n : nat)
    (folds : list (list nat * list nat)) :
  KFold_split 5 shuffled n = Ok folds -> folds <> [].
Proof.
  unfold KFold_split. destruct (n <? 5); [discriminate|].
  intros H. injection H as <-. discriminate.
Qed.

(** What [data_split] returns is determined by the attributes it reads or
    leaves alone. *)
Lemma data_split_inputs (shuffled : list nat) (a b : data_base F) :
  same_inputs a b -> data_split fs shuffled a = data_split fs shuffled b.
Proof.
  intros Hin. pose proof Hin as (Hr & Hc & Ht & Ho & Hp).
  unfold data_split, get_predict, get_clean_X_data. rewrite Hp, Hc.
  cbn [bind].
  destruct (assert (is_None (_predict b)) _); cbn [bind]; [|reflexivity].
  destruct (is_None (_clean_X_data b)); cbn [bind]; [reflexivity|].
  destruct (as_frame (_clean_X_data b)) as [c|]; cbn [bind]; [|reflexivity].
  destruct (KFold_split 5 shuffled (nrows c)) as [folds|] eqn:Hk;
    cbn [bind]; [|reflexivity].
  apply KFold_split_folds in Hk.
  pose proof (@split_loop_agree folds a b Hin (or_intror Hk)) as Hloop.
  destruct (for_each folds (split_fold fs) a) as [a'|e].
  - destruct Hloop as (b' & -> & Hin' & Hpart'). cbn [bind].
    destruct a' as [a1 a2 a3 a4 a5 a6 a7 a8 a9 a10],
             b' as [b1 b2 b3 b4 b5 b6 b7 b8 b9 b10].
    unfold same_inputs, same_partition in Hin', Hpart'.
    cbn [_raw_data _clean_X_data _target _original _predict _X_train
         _X_test _Y_train _Y_test] in Hin', Hpart'.
    destruct Hin' as (-> & -> & -> & -> & ->).
    destruct Hpart' as (-> & -> & -> & ->).
    open_getters.
    destruct (is_None b6); cbn [bind]; [reflexivity|].
    destruct (as_frame b6) as [x|]; cbn [bind]; [|reflexivity].
    destruct (getitem x "Accession Number") as [ids|]; cbn [bind];
      [|reflexivity].
    destruct (is_None b4); cbn [bind]; [reflexivity|].
    destruct (as_frame b4) as [xt|]; cbn [bind]; [|reflexivity].
    destruct (drop xt ["Accession Number"]) as [d|]; cbn [bind];
      [|reflexivity].
    destruct (drop x ["Accession Number"]) as [d'|]; cbn [bind];
      reflexivity.
  - rewrite Hloop. reflexivity.
Qed.

(** [data_split] leaves the attributes it reads as they were. *)
Lemma data_split_keeps_inputs (shuffled : list nat)
    (self self' : data_base F) :
  data_split fs shuffled self = Ok self' -> same_inputs self' self.
Proof.
  unfold data_split. intros H.
  destruct (get_predict self); [|discriminate]. cbn [bind] in H.
  destruct (assert _ _); [|discriminate]. cbn [bind] in H.
  destruct (get_clean_X_data self); [|discriminate]. cbn [bind] in H.
  destruct (as_frame _) as [c|]; [|discriminate]. cbn [bind] in H.
  destruct (KFold_split 5 shuffled (nrows c)) as [folds|]; [|discriminate].
  cbn [bind] in H.
  destruct (for_each folds (split_fold fs) self) as [s1|] eqn:Hloop;
    [|discriminate].
  cbn [bind] in H. apply split_loop_inputs in Hloop.
  destruct Hloop as [Hloop _].
  destruct (get_X_test s1); [|discriminate]. cbn [bind] in H.
  destruct (as_frame _) as [x|]; [|discriminate]. cbn [bind] in H.
  destruct (getitem x _) as [ids|]; [|discriminate].
  cbn [bind set_test_accession_numbers is_str_and_isfile] in H.
  destruct (get_X_train _); [|discriminate]. cbn [bind] in H.
  destruct (as_frame _) as [xt|]; [|discriminate]. cbn [bind] in H.
  destruct (drop xt _) as [d|]; [|discriminate].
  cbn [bind set_X_train is_str_and_isfile] in H.
  destruct (get_X_test _); [|discriminate]. cbn [bind] in H.
  destruct (as_frame _) as [x'|]; [|discriminate]. cbn [bind] in H.
  destruct (drop x' _) as [d'|]; [|discriminate].
  cbn [bind set_X_test is_str_and_isfile] in H. injection H as <-.
  unfold same_inputs in *. run_accessors. exact Hloop.
Qed.

End Resplit.

(** [data_split] reads the clean table, the target and [predict], and
    leaves them, [raw_data] and the snapshot as they were; whatever the
    five other attributes held is overwritten.  So on two objects that
    agree on those inputs it returns the same object or raises the same
    exception, and a split can be repeated: splitting the object a first
    split returned gives what the second split would have given at once. *)
Theorem data_split_can_be_repeated :
  forall (F : Type) (fs : filesystem F) (first second : list nat)
         (self : data_base F),
    (forall other,
        same_inputs other self ->
        data_split fs second other = data_split fs second self)
    /\ (forall self',
          data_split fs first self = Ok self' ->
          same_inputs self' self
          /\ data_split fs second self' = data_split fs second self).
Proof.
  intros F fs first second self. split.
  - intros other H. now apply data_split_inputs.
  - intros self' H. apply data_split_keeps_inputs in H.
    split; [exact H|]. now apply data_split_inputs.
Qed.

(** Five cleaned rows split twice under the same shuffle: the second split
    returns what the first returned. *)
Lemma data_split_can_be_repeated_witness :
  exists self',
    data_split no_files shuffled_example cleaned_example = Ok self'
    /\ data_split no_files shuffled_example self' = Ok self'.
Proof.
  assert (H : { self' | data_split no_files shuffled_example cleaned_example
                        = Ok self' }).
  { vm_compute. eexists. reflexivity. }
  destruct H as [self' H]. exists self'. split; [exact H|].
  exact (eq_trans
           (proj2 (proj2 (@data_split_can_be_repeated Q no_files
                            shuffled_example shuffled_example
                            cleaned_example)
                     self' H))
           H).
Defined.

(** ** From the database file to the two partitions *)

Section EndToEnd.
Context {F : Type} {A : Arith F} {L : Levels F}.
Variable fs : filesystem F.


End EndToEnd.






(** ** The report of [save_metrics] *)

From Stdlib Require Import Sorted.

Section Dicts.
Context {F : Type}.

Lemma dict_setitem_new (d : @pydict F) (key : string) (value : F) :
  ~ In key (map fst d) -> dict_setitem d key value = d ++ [(key, value)].
Proof.
  induction d as [|[k v] d IH]; intros H; [reflexivity|].
  cbn [dict_setitem]. destruct (String.eqb k key) eqn:E.
  - apply String.eqb_eq in E. elim H. now left.
  - cbn [app]. f_equal. apply IH. intros Hin. apply H. now right.
Qed.

Lemma dict_items (items : list (string * F)) :
  NoDup (map fst items) -> dict items = items.
Proof.
  unfold dict.
  assert (G : forall l acc,
             NoDup (map fst (acc ++ l)) ->
             fold_left (fun (d : @pydict F) item =>
                          dict_setitem d (fst item) (snd item)) l acc
             = acc ++ l).
  { induction l as [|[k v] l IH]; intros acc H; cbn [fold_left fst snd].
    - now rewrite app_nil_r.
    - rewrite dict_setitem_new.
      + rewrite IH; rewrite <- app_assoc; [reflexivity | exact H].
      + rewrite map_app in H. apply NoDup_remove_2 in H.
        intros Hin. apply H. apply in_or_app. now left. }
  intros H. now apply (G items []).
Qed.

Lemma dict_getitem_In (d : @pydict F) (key : string) (value : F) :
  NoDup (map fst d) -> In (key, value) d -> dict_getitem d key = Ok value.
Proof.
  induction d as [|[k v] d IH]; intros Hnd Hin; [destruct Hin|].
  cbn [dict_getitem]. inversion Hnd as [|? ? Hk Hnd']; subst.
  destruct Hin as [Hin | Hin].
  - injection Hin as -> ->. now rewrite String.eqb_refl.
  - destruct (String.eqb k key) eqn:E; [|now apply IH].
    apply String.eqb_eq in E. subst k. elim Hk.
    apply (in_map fst) in Hin. exact Hin.
Qed.

(** A loop over the keys of a dictionary that prints and writes one line
    per item. *)
Lemma report_loop (line : string -> F -> string) (d : @pydict F) :
  NoDup (map fst d) ->
  forall (l : list (string * F)) (out : list string * string),
    (forall item, In item l -> In item d) ->
    for_each (map fst l)
      (fun key out =>
         value <- dict_getitem d key ;;
         Ok (fst out ++ [line key value],
             (snd out ++ line key value ++ newline)%string))
      out
    = Ok (fst out ++ map (fun item => line (fst item) (snd item)) l,
          (snd out
           ++ lines_text (map (fun item => line (fst item) (snd item)) l))
            %string).
Proof.
  intros Hnd. induction l as [|[k v] l IH]; intros out Hl.
  - cbn [map for_each lines_text fold_right].
    rewrite app_nil_r, string_app_nil_r. now destruct out.
  - cbn [map for_each fst snd].
    rewrite dict_getitem_In with (value := v)
      by (try exact Hnd; apply Hl; now left).
    cbn [bind]. rewrite IH by (intros item H; apply Hl; now right).
    cbn [fst snd lines_text fold_right].
    rewrite <- app_assoc, !string_app_assoc. reflexivity.
Qed.

End Dicts.

Section Ranking.

Local Open Scope Q_scope.

Lemma flt_Q (a b : Q) : flt a b = true <-> a < b.
Proof.
  unfold flt. exact_ops. rewrite andb_true_iff, negb_true_iff.
  rewrite Qle_bool_iff. split.
  - intros [H1 H2]. apply Qeq_bool_neq in H2. lra.
  - intros H. split; [lra|]. apply not_true_is_false. intros E.
    apply Qeq_bool_iff in E. lra.
Qed.

Lemma insort_reverse_perm (item : string * Q) (l : list (string * Q)) :
  Permutation (insort_reverse item l) (item :: l).
Proof.
  induction l as [|other rest IH]; cbn [insort_reverse]; [reflexivity|].
  destruct (flt (snd item) (snd other)); [|reflexivity].
  rewrite IH. apply perm_swap.
Qed.

Lemma sorted_reverse_perm (items : list (string * Q)) :
  Permutation (sorted_reverse items) items.
Proof.
  induction items as [|item items IH]; cbn [sorted_reverse fold_right];
    [reflexivity|].
  fold (sorted_reverse items). rewrite insort_reverse_perm.
  now constructor.
Qed.

Lemma insort_reverse_sorted (item : string * Q) (l : list (string * Q)) :
  StronglySorted (fun a b => snd b <= snd a) l ->
  StronglySorted (fun a b => snd b <= snd a) (insort_reverse item l).
Proof.
  induction 1 as [|other rest Hs IH Hall]; cbn [insort_reverse].
  - repeat constructor.
  - destruct (flt (snd item) (snd other)) eqn:E.
    + constructor; [exact IH|].
      apply Forall_forall. intros x Hx.
      apply (Permutation_in _ (insort_reverse_perm item rest)) in Hx.
      destruct Hx as [<- | Hx].
      * apply flt_Q in E. lra.
      * rewrite Forall_forall in Hall. now apply Hall.
    + constructor; [constructor; assumption|].
      assert (Hle : snd other <= snd item).
      { destruct (Qlt_le_dec (snd item) (snd other)) as [H | H];
          [|exact H].
        apply flt_Q in H. congruence. }
      constructor; [exact Hle|].
      rewrite Forall_forall in Hall |- *. intros x Hx.
      specialize (Hall x Hx). lra.
Qed.

Lemma sorted_reverse_sorted (items : list (string * Q)) :
  StronglySorted (fun a b => snd b <= snd a) (sorted_reverse items).
Proof.
  induction items as [|item items IH]; cbn [sorted_reverse fold_right];
    [constructor|].
  now apply insort_reverse_sorted.
Qed.

(** The items of one value keep their order. *)
Lemma sorted_reverse_stable (value : Q) (items : list (string * Q)) :
  filter (fun item => Qeq_bool (snd item) value) (sorted_reverse items)
  = filter (fun item => Qeq_bool (snd item) value) items.
Proof.
  assert (G : forall item l,
             filter (fun item => Qeq_bool (snd item) value)
                    (insort_reverse item l)
             = filter (fun item => Qeq_bool (snd item) value) (item :: l)).
  { intros item. induction l as [|other rest IH]; cbn [insort_reverse];
      [reflexivity|].
    destruct (flt (snd item) (snd other)) eqn:E; [|reflexivity].
    cbn [filter] in *. rewrite IH. apply flt_Q in E.
    destruct (Qeq_bool (snd item) value) eqn:E1; [|reflexivity].
    destruct (Qeq_bool (snd other) value) eqn:E2; [|reflexivity].
    apply Qeq_bool_iff in E1, E2. lra. }
  induction items as [|item items IH]; cbn [sorted_reverse fold_right];
    [reflexivity|].
  fold (sorted_reverse items). rewrite G. cbn [filter]. now rewrite IH.
Qed.

Lemma strongly_sorted_nth {B : Type} (R : B -> B -> Prop) (l : list B) :
  StronglySorted R l ->
  forall i j a b, (i < j)%nat -> nth_error l i = Some a ->
                  nth_error l j = Some b -> R a b.
Proof.
  induction 1 as [|x l Hs IH Hall]; intros i j a b Hij Ha Hb.
  - destruct i; discriminate.
  - destruct j as [|j]; [lia|]. cbn [nth_error] in Hb.
    destruct i as [|i]; cbn [nth_error] in Ha.
    + injection Ha as <-. rewrite Forall_forall in Hall.
      apply Hall. eapply nth_error_In. exact Hb.
    + apply (IH i j a b); [lia | exact Ha | exact Hb].
Qed.

End Ranking.

(** [save_metrics] needs the directory [Output_Files]: without it nothing
    is printed or written and [open] raises.  With it, the report is the
    title of the error metrics, one line per error metric in the order of
    the dictionary, the title of the importances, and one line per
    feature; the features are those of the dictionary, each once, by
    decreasing importance, features of equal importance in the order of
    the dictionary; the file holds the lines that are printed, and the
    statistics are written as [to_csv] renders them. *)
Theorem save_metrics_ranks_features :
  forall (L : Levels Q) (to_csv : DataFrame Q -> string)
         (error_metrics feature_importances : @pydict Q)
         (predicted_value_stats : DataFrame Q),
    NoDup (map fst error_metrics) ->
    NoDup (map fst feature_importances) ->
    save_metrics to_csv false error_metrics feature_importances
      predicted_value_stats = Raise FileNotFoundError
    /\ exists ranked,
         Permutation ranked feature_importances
         /\ (forall i j a b,
               i < j -> nth_error ranked i = Some a ->
               nth_error ranked j = Some b -> (snd b <= snd a)%Q)
         /\ (forall value,
               filter (fun item => Qeq_bool (snd item) value) ranked
               = filter (fun item => Qeq_bool (snd item) value)
                        feature_importances)
         /\ save_metrics to_csv true error_metrics feature_importances
              predicted_value_stats
            = Ok {| printed :=
                      [error_metrics_title]
                      ++ map (fun item =>
                                error_metric_line (fst item) (snd item))
                             error_metrics
                      ++ [feature_importances_title]
                      ++ map (fun item => feature_line (fst item) (snd item))
                             ranked;
                    model_evaluation_info :=
                      (error_metrics_title
                       ++ lines_text
                            (map (fun item =>
                                    error_metric_line (fst item) (snd item))
                                 error_metrics)
                       ++ feature_importances_title
                       ++ lines_text
                            (map (fun item =>
                                    feature_line (fst item) (snd item))
                                 ranked))%string;
                    predicted_value_statistics :=
                      to_csv predicted_value_stats |}.
Proof.
  intros L to_csv error_metrics feature_importances stats He Hf.
  split; [reflexivity|].
  exists (sorted_reverse feature_importances).
  pose proof (sorted_reverse_perm feature_importances) as Hperm.
  split; [exact Hperm|]. split; [|split].
  - intros i j a b Hij Ha Hb.
    apply (strongly_sorted_nth
             (sorted_reverse_sorted feature_importances) Hij Ha Hb).
  - intros value. apply sorted_reverse_stable.
  - assert (Hnd : NoDup (map fst (sorted_reverse feature_importances))).
    { apply (Permutation_NoDup (l := map fst feature_importances));
        [|exact Hf].
      apply Permutation_map, Permutation_sym, Hperm. }
    unfold save_metrics. rewrite (dict_items _ Hnd). cbn [bind].
    rewrite (@report_loop Q (@error_metric_line Q L) error_metrics He)
      by auto.
    cbn [bind fst snd].
    rewrite (@report_loop Q (@feature_line Q L) _ Hnd) by auto.
    cbn [bind fst snd]. f_equal. f_equal.
    + now rewrite <- !app_assoc.
    + now rewrite !string_app_assoc.
Qed.

(** Three features, two of them of equal importance: the report ranks them
    [b], [c], [a]. *)
Lemma save_metrics_ranks_features_witness :
  exists ranked,
    Permutation ranked [("a", (1 # 10)%Q); ("b", (3 # 10)%Q);
                        ("c", (3 # 10)%Q)]
    /\ filter (fun item => Qeq_bool (snd item) (3 # 10)) ranked
       = [("b", (3 # 10)%Q); ("c", (3 # 10)%Q)]
    /\ exists out,
         save_metrics (L := Levels_pandas) (fun _ => "") true
           [("MSE", (1 # 4)%Q)]
           [("a", (1 # 10)%Q); ("b", (3 # 10)%Q); ("c", (3 # 10)%Q)]
           exact_table
         = Ok out.
Proof.
  assert (He : NoDup (map fst [("MSE", (1 # 4)%Q)])).
  { repeat constructor. intros []. }
  assert (Hf : NoDup (map fst [("a", (1 # 10)%Q); ("b", (3 # 10)%Q);
                               ("c", (3 # 10)%Q)])).
  { repeat (constructor; [simpl; intuition discriminate|]). constructor. }
  destruct (proj2 (@save_metrics_ranks_features Levels_pandas
                     (fun _ => "") _ _ exact_table He Hf))
    as (ranked & H1 & _ & H2 & H3).
  exists ranked. split; [exact H1|]. split; [exact (H2 (3 # 10)%Q)|].
  eexists. exact H3.
Defined.



(** ** The clean table of a valid database, column by column *)

Section CleanTable.
Context {F : Type} {A : Arith F} {L : Levels F}.










End CleanTable.

Section CleanTableRun.
Context {F : Type} {A : Arith F} {L : Levels F}.
Variable fs : filesystem F.






End CleanTableRun.





